(** * Bundle-Compile-Cache engine and its oak middleware

    A shallow embedding of [src/BCC.ts] (the engine with per-kind toggles and
    the transpile kind), of the earlier engine without toggles
    ([src/unnamed/part_000]) and of [src/BCC_Middleware.ts].

    Conventions of the embedding:
    - a JavaScript string is a [string]: a sequence of code units, here the
      one-byte ones;
    - [string | undefined] and [string | false] are [option string];
    - an [async] method is a computation in the monad [M]: it threads the
      state of the world (file store, directories, log of the calls made to
      the outside) and either returns a value or throws;
    - the Deno runtime (compiler, bundler, transpiler, [fetch], md5) is a
      record of functions, a parameter of the whole development. *)

From Stdlib Require Import Ascii.
From stdpp Require Import base option list gmap strings.

(** ** JavaScript string primitives *)

Module JS.

(** [`${v}`] for a value that may be [undefined]. *)
Definition interp (v : option string) : string :=
  match v with
  | Some s => s
  | None => "undefined"
  end.

(** [TextEncoder.encode(input)], which [Deno.writeTextFile] applies to its
    data: the parameter defaults to the empty text, so [undefined] is
    encoded as no byte at all. *)
Definition encode (v : option string) : string :=
  match v with
  | Some s => s
  | None => EmptyString
  end.

(** Truthiness of a [string | undefined] (or [string | false]) value:
    only a non-empty string is truthy. *)
Definition truthy (v : option string) : bool :=
  match v with
  | Some (String _ _) => true
  | _ => false
  end.

(** The line terminators a [.] of a regular expression refuses. *)
Definition is_line_terminator (c : ascii) : bool :=
  (Ascii.eqb c "010" || Ascii.eqb c "013")%bool.

(** [s.replace(/.js$/, "")]: the dot is not escaped, so the pattern is
    any character but a line terminator, then [js], then the end of input. *)
Definition strip_js (s : string) : string :=
  match rev (String.list_ascii_of_string s) with
  | c2 :: c1 :: c0 :: rest =>
      if (Ascii.eqb c2 "s" && Ascii.eqb c1 "j" && negb (is_line_terminator c0))%bool
      then String.string_of_list_ascii (rev rest)
      else s
  | _ => s
  end.

(** [str.slice(n)]. *)
Fixpoint drop_string (n : nat) (s : string) : string :=
  match n, s with
  | O, _ => s
  | S k, String _ s' => drop_string k s'
  | S _, EmptyString => EmptyString
  end.

(** GetSubstitution of ECMAScript for a string pattern (no capture groups):
    [$$] is a dollar, [$&] the matched text, [$`] the text before the match,
    [$'] the text after it; any other dollar stands for itself. *)
Fixpoint GetSubstitution (matched before after template : string) : string :=
  match template with
  | EmptyString => EmptyString
  | String c t =>
      if Ascii.eqb c "$" then
        match t with
        | String d t' =>
            if Ascii.eqb d "$" then String "$" (GetSubstitution matched before after t')
            else if Ascii.eqb d "&" then matched +:+ GetSubstitution matched before after t'
            else if Ascii.eqb d "`" then before +:+ GetSubstitution matched before after t'
            else if Ascii.eqb d "'" then after +:+ GetSubstitution matched before after t'
            else String c (GetSubstitution matched before after t)
        | EmptyString => String c EmptyString
        end
      else String c (GetSubstitution matched before after t)
  end.

Section replaceAll.
Variables (searchValue replaceValue : string).

(** Non-empty pattern: scan from the left; a match is replaced and the
    scan resumes after it ([skip] counts the characters of a match still
    to pass over), so matches do not overlap. *)
Fixpoint replace_scan (before : string) (skip : nat) (s : string) : string :=
  match s with
  | EmptyString => EmptyString
  | String c s' =>
      match skip with
      | S k => replace_scan (before +:+ String c EmptyString) k s'
      | O =>
          if String.prefix searchValue s
          then GetSubstitution searchValue before
                 (drop_string (String.length searchValue) s) replaceValue
               +:+ replace_scan (before +:+ String c EmptyString)
                     (String.length searchValue - 1) s'
          else String c (replace_scan (before +:+ String c EmptyString) 0 s')
      end
  end.

(** Empty pattern: it matches before every character and at the end. *)
Fixpoint replace_empty (before : string) (s : string) : string :=
  GetSubstitution EmptyString before s replaceValue +:+
  match s with
  | EmptyString => EmptyString
  | String c s' => String c (replace_empty (before +:+ String c EmptyString) s')
  end.

(** [s.replaceAll(searchValue, replaceValue)] with a string pattern. *)
Definition replaceAll (s : string) : string :=
  match searchValue with
  | EmptyString => replace_empty EmptyString s
  | String _ _ => replace_scan EmptyString 0 s
  end.
End replaceAll.

(** [Map.prototype.set] on a map kept in insertion order: the value of a
    key already there is replaced in place, a new key goes last. *)
Fixpoint map_set (k v : string) (m : list (string * string)) : list (string * string) :=
  match m with
  | [] => [(k, v)]
  | (k', v') :: m' =>
      if String.eqb k' k then (k', v) :: m' else (k', v') :: map_set k v m'
  end.

Fixpoint map_get (k : string) (m : list (string * string)) : option string :=
  match m with
  | [] => None
  | (k', v') :: m' => if String.eqb k' k then Some v' else map_get k m'
  end.

Definition map_has (k : string) (m : list (string * string)) : bool :=
  match map_get k m with
  | Some _ => true
  | None => false
  end.

End JS.

(** ** The world outside: file store, directories, log of calls *)

(** A fault: the name of the JavaScript error class and its message. *)
Inductive Error : Type :=
  | Err (name message : string).

Inductive Res (A : Type) : Type :=
  | Ok (a : A)
  | Throw (e : Error).
Arguments Ok {A} a.
Arguments Throw {A} e.

(** One entry of the log per call that leaves the engine. *)
Inductive Event : Type :=
  | EvReadTextFile (path : string)
  | EvWriteTextFile (path data : string)
  | EvEnsureDir (path : string)
  | EvEmptyDir (path : string)
  | EvExists (path : string)
  | EvFetch (url : string)
  | EvCompile (rootName : string)
  | EvBundle (rootName : string)
  | EvTranspile (source : string).

Global Instance Event_eq_dec : EqDecision Event.
Proof. solve_decision. Defined.

(** Which entries touch the file system, the network, a generator. *)
Definition is_fs_event (e : Event) : bool :=
  match e with
  | EvReadTextFile _ | EvWriteTextFile _ _ | EvEnsureDir _ | EvEmptyDir _ | EvExists _ => true
  | _ => false
  end.

Definition is_fetch_event (e : Event) : bool :=
  match e with
  | EvFetch _ => true
  | _ => false
  end.

Definition is_generator_event (e : Event) : bool :=
  match e with
  | EvCompile _ | EvBundle _ | EvTranspile _ => true
  | _ => false
  end.

Definition is_write_event (e : Event) : bool :=
  match e with
  | EvWriteTextFile _ _ => true
  | _ => false
  end.

Definition count_events (p : Event -> bool) (t : list Event) : nat :=
  length (filter (fun e => p e = true) t).

(** A resolved path: the names from the root down. *)
Record World : Type := mkWorld {
    files : gmap (list string) string;
    dirs : gset (list string);
    trace : list Event
  }.

Definition log (e : Event) (w : World) : World :=
  {| files := files w; dirs := dirs w; trace := trace w ++ [e] |}.

Module Path.

(** The names between the slashes of a path. *)
Fixpoint segments (s : string) : list string :=
  match s with
  | EmptyString => [EmptyString]
  | String c s' =>
      if Ascii.eqb c "/" then EmptyString :: segments s'
      else match segments s' with
           | seg :: r => String c seg :: r
           | [] => [String c EmptyString]
           end
  end.

Definition is_absolute (s : string) : bool :=
  match s with
  | String c _ => Ascii.eqb c "/"
  | EmptyString => false
  end.

(** An empty name and [.] stay in place, [..] goes up, a name goes down. *)
Definition enter (stack : list string) (seg : string) : list string :=
  if String.eqb seg "" then stack
  else if String.eqb seg "." then stack
  else if String.eqb seg ".." then removelast stack
  else stack ++ [seg].

(** Resolution of a path against the working directory. *)
Definition resolve (cwd : list string) (p : string) : list string :=
  fold_left enter (segments p) (if is_absolute p then [] else cwd).

(** The directory and all above it, the root left out. *)
Fixpoint ancestors_or_self (p : list string) : list (list string) :=
  match p with
  | [] => []
  | seg :: p' => [seg] :: map (cons seg) (ancestors_or_self p')
  end.

Fixpoint is_prefix (p q : list string) : bool :=
  match p, q with
  | [], _ => true
  | a :: p', b :: q' => (String.eqb a b && is_prefix p' q')%bool
  | _ :: _, [] => false
  end.

(** [q] lies below the directory [p]. *)
Definition strictly_below (p q : list string) : bool :=
  (is_prefix p q && negb (length q =? length p)%nat)%bool.

End Path.

(** ** The monad of asynchronous methods *)

Definition M (A : Type) : Type := World -> Res A * World.

Definition ret {A} (a : A) : M A := fun w => (Ok a, w).

Definition throw {A} (e : Error) : M A := fun w => (Throw e, w).

(** A step that calls nothing outside. *)
Definition of_res {A} (r : Res A) : M A := fun w => (r, w).

Definition bind {A B} (m : M A) (k : A -> M B) : M B :=
  fun w =>
    match m w with
    | (Ok a, w') => k a w'
    | (Throw e, w') => (Throw e, w')
    end.

(** [try { m } catch { h }]. *)
Definition try_catch {A} (m : M A) (h : Error -> M A) : M A :=
  fun w =>
    match m w with
    | (Ok a, w') => (Ok a, w')
    | (Throw e, w') => h e w'
    end.

Declare Scope js_scope.
Delimit Scope js_scope with js.
Notation "x ← y ; z" := (bind y (fun x => z))
  (at level 20, y at level 100, z at level 200, only parsing) : js_scope.
Notation "' x ← y ; z" := (bind y (fun x => z))
  (at level 20, x pattern, y at level 100, z at level 200, only parsing) : js_scope.
Notation "x ;; z" := (bind x (fun _ => z))
  (at level 100, z at level 200, only parsing, right associativity) : js_scope.
Open Scope js_scope.

(** [Promise.all] over promises already started: every one runs to its
    end, and the first fault, if any, is the fault of the whole. The order of
    the list stands for the interleaving. *)
Fixpoint promise_all (ps : list (M unit)) : M unit :=
  match ps with
  | [] => ret tt
  | p :: ps' =>
      fun w =>
        match p w with
        | (Ok _, w') => promise_all ps' w'
        | (Throw e, w') => (Throw e, snd (promise_all ps' w'))
        end
  end.

(** ** The Deno runtime *)

(** What the engine calls and does not define. [Deno_compile] and
    [Deno_bundle] read their sources from the file store they are given;
    [Deno_transpileOnly] is given the text of its one source, [main.ts],
    and returns the source of that entry of the record; [fetch_text] is
    [fetch(url)] followed by [resp.text()]; [md5] is
    [createHash("md5")], [update] and [toString]. Each may throw. *)
Record Runtime : Type := {
    Deno_cwd : string;
    Deno_compile :
      gmap (list string) string -> string -> Res (option string * list (string * string));
    Deno_bundle : gmap (list string) string -> string -> Res (option string * string);
    Deno_transpileOnly : string -> Res string;
    fetch_text : string -> Res string;
    md5 : string -> string
  }.

Definition dquote : string := String "034" EmptyString.

(** The faults of the file system, as the operating system words them. *)
Definition NotFound : Error := Err "NotFound" "No such file or directory (os error 2)".
Definition IsADirectory : Error := Err "Error" "Is a directory (os error 21)".
Definition NotADirectory : Error := Err "Error" "Not a directory (os error 20)".
Definition NotADirectoryButFile : Error :=
  Err "Error" "Ensure path exists, expected 'dir', got 'file'".

(** The fault of a method called on [undefined]. *)
Definition ReplaceAllOfUndefined : Error :=
  Err "TypeError" "Cannot read property 'replaceAll' of undefined".

Module Deno.
Section with_runtime.
Context (rt : Runtime).

Definition locate (path : string) : list string :=
  Path.resolve (Path.resolve [] (Deno_cwd rt)) path.

(** The root is a directory of every world. *)
Definition is_dir (w : World) (k : list string) : bool :=
  bool_decide (k = [] ∨ k ∈ dirs w).

Definition is_file (w : World) (k : list string) : bool :=
  bool_decide (is_Some (files w !! k)).

(** A file stands where a directory is wanted. *)
Definition blocked (w : World) (k : list string) : bool :=
  existsb (is_file w) (Path.ancestors_or_self k).

Definition mkdir_p (k : list string) (w : World) : World :=
  {| files := files w;
     dirs := dirs w ∪ list_to_set (Path.ancestors_or_self k);
     trace := trace w |}.

Definition put_file (k : list string) (data : string) (w : World) : World :=
  {| files := <[k := data]> (files w); dirs := dirs w; trace := trace w |}.

Definition remove_below (k : list string) (w : World) : World :=
  {| files := filter (fun kv => Path.strictly_below k kv.1 = false) (files w);
     dirs := filter (fun d => Path.strictly_below k d = false) (dirs w);
     trace := trace w |}.

(** [Deno.readTextFile]: the text of a file, or a fault. *)
Definition readTextFile (path : string) : M string :=
  fun w =>
    match files w !! locate path with
    | Some data => (Ok data, log (EvReadTextFile path) w)
    | None => (Throw NotFound, log (EvReadTextFile path) w)
    end.

(** [Deno.writeTextFile]: creates or replaces a file in a directory that
    exists. *)
Definition writeTextFile (path data : string) : M unit :=
  fun w =>
    let k := locate path in
    if is_dir w k then (Throw IsADirectory, log (EvWriteTextFile path data) w)
    else if is_dir w (removelast k)
    then (Ok tt, put_file k data (log (EvWriteTextFile path data) w))
    else (Throw NotFound, log (EvWriteTextFile path data) w).

Definition compile (rootName : string) : M (option string * list (string * string)) :=
  fun w => (Deno_compile rt (files w) rootName, log (EvCompile rootName) w).

Definition bundle (rootName : string) : M (option string * string) :=
  fun w => (Deno_bundle rt (files w) rootName, log (EvBundle rootName) w).

Definition transpileOnly (source : string) : M string :=
  fun w => (Deno_transpileOnly rt source, log (EvTranspile source) w).

End with_runtime.
End Deno.

(** The functions of the standard library [fs] that the engine uses. *)
Module fs.
Section with_runtime.
Context (rt : Runtime).

(** [fs.ensureDir]: the directory and those above it, created as needed. *)
Definition ensureDir (path : string) : M unit :=
  fun w =>
    let k := Deno.locate rt path in
    if Deno.blocked w k
    then (Throw (if Deno.is_file w k then NotADirectoryButFile else NotADirectory),
          log (EvEnsureDir path) w)
    else (Ok tt, Deno.mkdir_p k (log (EvEnsureDir path) w)).

(** [fs.emptyDir]: a directory loses all it holds; a missing one is
    created. *)
Definition emptyDir (path : string) : M unit :=
  fun w =>
    let k := Deno.locate rt path in
    if Deno.is_file w k then (Throw NotADirectory, log (EvEmptyDir path) w)
    else if Deno.is_dir w k then (Ok tt, Deno.remove_below k (log (EvEmptyDir path) w))
    else if Deno.blocked w k then (Throw NotADirectory, log (EvEmptyDir path) w)
    else (Ok tt, Deno.mkdir_p k (log (EvEmptyDir path) w)).

(** [fs.exists]. *)
Definition exists_ (path : string) : M bool :=
  fun w =>
    let k := Deno.locate rt path in
    (Ok (Deno.is_file w k || Deno.is_dir w k)%bool, log (EvExists path) w).
End with_runtime.
End fs.

(** The global [fetch], with the text of the response. *)
Definition fetch (rt : Runtime) (url : string) : M string :=
  fun w => (fetch_text rt url, log (EvFetch url) w).

(** [assert(cond, msg)] of the standard library. *)
Definition assert (cond : bool) (msg : string) : M unit :=
  if cond then ret tt else throw (Err "AssertionError" msg).

(** ** The engine of [src/BCC.ts] *)

Module BCC_ts.

Module BCC_Settings.
Record t : Type := mk {
  tsSource : string;
  bundleFolder : option string;
  compiledFolder : option string;
  transpileFolder : option string;
  cacheFolder : option string;
  cacheRoot : option string;
  mapSources : option bool
  }.
End BCC_Settings.

Record paths : Type := mkPaths {
  source : string;
  sourceURI : string;
  bundle_path : option string;
  transpile_path : option string;
  compiled : option string
  }.

(** The fields of the class; [cacheMap] is a [Map] in insertion order. *)
Record BCC : Type := mkBCC {
  tsSource : string;
  bundleFolder : option string;
  compiledFolder : option string;
  transpileFolder : option string;
  cacheFolder : option string;
  cacheRoot : option string;
  cacheMap : list (string * string);
  mapSources : bool
  }.

Definition constructor (settings : BCC_Settings.t) : BCC :=
  {| tsSource := BCC_Settings.tsSource settings;
     bundleFolder := BCC_Settings.bundleFolder settings;
     compiledFolder := BCC_Settings.compiledFolder settings;
     transpileFolder := BCC_Settings.transpileFolder settings;
     cacheFolder := BCC_Settings.cacheFolder settings;
     cacheRoot := BCC_Settings.cacheRoot settings;
     cacheMap := [];
     mapSources := default false (BCC_Settings.mapSources settings) |}.

Definition addCacheSource (this : BCC) (handle source_ : string) : BCC :=
  {| tsSource := tsSource this;
     bundleFolder := bundleFolder this;
     compiledFolder := compiledFolder this;
     transpileFolder := transpileFolder this;
     cacheFolder := cacheFolder this;
     cacheRoot := cacheRoot this;
     cacheMap := JS.map_set handle source_ (cacheMap this);
     mapSources := mapSources this |}.

Definition validSource (this : BCC) (handle : string) : bool :=
  JS.map_has handle (cacheMap this).

(** One turn of the loop of [mapExternalSources]. *)
Definition mapEntry (this : BCC) (c2 : string) (entry : string * string) : string :=
  let '(handle, source_) := entry in
  JS.replaceAll source_ (JS.interp (cacheRoot this) +:+ "/" +:+ handle +:+ "/") c2.

Definition mapExternalSources (this : BCC) (code : string) : string :=
  if mapSources this then fold_left (mapEntry this) (cacheMap this) code else code.

Section with_runtime.
Context (rt : Runtime).

Definition generatedPaths (this : BCC) (script : string) : paths :=
  {| source := "./" +:+ tsSource this +:+ "/" +:+ script;
     sourceURI := "file://" +:+ Deno_cwd rt +:+ "/" +:+ tsSource this +:+ "/";
     bundle_path :=
       if JS.truthy (bundleFolder this)
       then Some ("./" +:+ JS.interp (bundleFolder this) +:+ "/" +:+ script) else None;
     transpile_path :=
       if JS.truthy (transpileFolder this)
       then Some ("./" +:+ JS.interp (transpileFolder this) +:+ "/" +:+ script) else None;
     compiled :=
       if JS.truthy (compiledFolder this)
       then Some ("./" +:+ JS.interp (compiledFolder this) +:+ "/" +:+ script) else None |}.

Definition clearBundleCache (this : BCC) : M unit :=
  if negb (JS.truthy (bundleFolder this)) then ret tt
  else fs.emptyDir rt ("./" +:+ JS.interp (bundleFolder this) +:+ "/").

Definition clearCompileCache (this : BCC) : M unit :=
  if negb (JS.truthy (compiledFolder this)) then ret tt
  else fs.emptyDir rt ("./" +:+ JS.interp (compiledFolder this) +:+ "/").

Definition clearTranspileCache (this : BCC) : M unit :=
  if negb (JS.truthy (transpileFolder this)) then ret tt
  else fs.emptyDir rt ("./" +:+ JS.interp (transpileFolder this) +:+ "/").

Definition clearExternalCache (this : BCC) : M unit :=
  if negb (JS.truthy (cacheFolder this)) then ret tt
  else fs.emptyDir rt ("./" +:+ JS.interp (cacheFolder this) +:+ "/").

Definition clearAllCache (this : BCC) : M unit :=
  promise_all [clearBundleCache this; clearCompileCache this;
               clearTranspileCache this; clearExternalCache this].

(** [valid(script?)]: the argument may be absent. *)
Definition valid (this : BCC) (script : option string) : M bool :=
  if negb (JS.truthy script) then ret false
  else fs.exists_ rt (source (generatedPaths this (JS.interp script))).

(** The texts returned in place of an artifact. *)
Definition failed_to_find (functionName script : string) : string :=
  "throw new Error(" +:+ dquote +:+ functionName +:+ " failed to find file '"
    +:+ script +:+ "'." +:+ dquote +:+ ")".

Definition is_disabled (functionName : string) : string :=
  "throw new Error(" +:+ dquote +:+ functionName
    +:+ " is disabled in the BCC configuration." +:+ dquote +:+ ")".

(** [cacheOrGen]. The text first given to [data] (... somehow failed) is
    overwritten on every path and never returned. *)
Definition cacheOrGen (script : string) (cachePath : option string)
    (generator : string -> M unit) (functionName : string) : M string :=
  if JS.truthy cachePath then
    try_catch (Deno.readTextFile rt (JS.interp cachePath))
      (fun _ =>
         generator (JS.strip_js script) ;;
         try_catch (Deno.readTextFile rt (JS.interp cachePath))
           (fun _ => ret (failed_to_find functionName script)))
  else ret (is_disabled functionName).

(** The body of the loop over [emitMap] in [compile]. *)
Fixpoint compile_emit (this : BCC) (dir folder : string)
    (emitMap : list (string * string)) : M unit :=
  match emitMap with
  | [] => ret tt
  | (resource, text) :: rest =>
      let code := mapExternalSources this text in
      fs.ensureDir rt folder ;;
      Deno.writeTextFile rt dir code ;;
      compile_emit this dir folder rest
  end.

Definition compile (this : BCC) (script : string) : M unit :=
  let paths := generatedPaths this script in
  if (negb (JS.truthy (compiled paths)) || negb (JS.truthy (compiledFolder this)))%bool
  then ret tt
  else
    '(diagnostics, emitMap) ← Deno.compile rt (source paths);
    assert (bool_decide (diagnostics = None))
      ("Compile Error: " +:+ JS.interp diagnostics) ;;
    compile_emit this (JS.interp (compiled paths)) (JS.interp (compiledFolder this)) emitMap.

Definition cachedCompile (this : BCC) (script : string) : M string :=
  cacheOrGen script (compiled (generatedPaths this script)) (compile this) "cachedCompile".

Definition bundle (this : BCC) (script : string) : M unit :=
  let paths := generatedPaths this script in
  if (negb (JS.truthy (bundle_path paths)) || negb (JS.truthy (bundleFolder this)))%bool
  then ret tt
  else
    '(diagnostics, emit) ← Deno.bundle rt (source paths);
    assert (bool_decide (diagnostics = None))
      ("Compile Error: " +:+ JS.interp diagnostics) ;;
    let dir := JS.interp (bundle_path paths) in
    let code := mapExternalSources this emit in
    fs.ensureDir rt (JS.interp (bundleFolder this)) ;;
    Deno.writeTextFile rt (dir +:+ ".js") code.

Definition cachedBundle (this : BCC) (script : string) : M string :=
  cacheOrGen script (bundle_path (generatedPaths this script)) (bundle this) "cachedBundle".

(** [mapExternalSources] on [undefined], which the cast in [transpile]
    lets through: the first turn of the loop calls [replaceAll] on
    [undefined] and throws; without a turn [undefined] is returned. *)
Definition mapExternalSources_undefined (this : BCC) : Res (option string) :=
  if mapSources this then
    match cacheMap this with
    | [] => Ok None
    | _ :: _ => Throw ReplaceAllOfUndefined
    end
  else Ok None.

(** The record [Deno.transpileOnly] returns has the one key [main.ts], so
    that [emit.source] is [undefined]: what the transpiler made is not
    used, and [writeTextFile] is given [undefined]. *)
Definition transpile (this : BCC) (script : string) : M unit :=
  let paths := generatedPaths this script in
  if (negb (JS.truthy (transpile_path paths)) || negb (JS.truthy (transpileFolder this)))%bool
  then ret tt
  else
    emit ← Deno.transpileOnly rt (source paths);
    let dir := JS.interp (transpile_path paths) in
    code ← of_res (mapExternalSources_undefined this);
    fs.ensureDir rt (JS.interp (transpileFolder this)) ;;
    Deno.writeTextFile rt dir (JS.encode code).

Definition cachedTranspile (this : BCC) (script : string) : M string :=
  cacheOrGen script (transpile_path (generatedPaths this script)) (transpile this)
    "cachedTranspile".

Definition updateCache (this : BCC) (script src uri : string) : M unit :=
  if negb (JS.truthy (cacheFolder this)) then ret tt
  else
    resp ← fetch rt (JS.interp (JS.map_get src (cacheMap this)) +:+ script);
    let code := mapExternalSources this resp in
    fs.ensureDir rt (JS.interp (cacheFolder this) +:+ "/" +:+ src +:+ "/") ;;
    Deno.writeTextFile rt
      (JS.interp (cacheFolder this) +:+ "/" +:+ src +:+ "/" +:+ md5 rt script) code.

Definition missing_file (script handle : string) : string :=
  "throw new Error(" +:+ dquote +:+ "external cache missing file '" +:+ script
    +:+ "' for source '" +:+ handle +:+ "'." +:+ dquote +:+ ")".

Definition cache_disabled : string :=
  "throw new Error(" +:+ dquote +:+ "External cache disabled." +:+ dquote +:+ ")".

(** [scriptCache]; as in [cacheOrGen] the first text of [data] is never
    returned. *)
Definition scriptCache (this : BCC) (script handle : string) : M string :=
  if JS.truthy (cacheFolder this) then
    let uri := "./" +:+ JS.interp (cacheFolder this) +:+ "/" +:+ handle +:+ "/"
               +:+ md5 rt script in
    try_catch (Deno.readTextFile rt uri)
      (fun _ =>
         updateCache this script handle uri ;;
         try_catch (Deno.readTextFile rt uri)
           (fun _ => ret (missing_file script handle)))
  else ret cache_disabled.
End with_runtime.

End BCC_ts.

(** ** The engine without toggles ([src/unnamed/part_000]) *)

Module BCC_part_000.

Module BCC_Settings.
Record t : Type := mk {
  tsSource : string;
  bundleFolder : string;
  compiledFolder : string;
  cacheFolder : string;
  cacheRoot : string;
  mapSources : option bool
  }.
End BCC_Settings.

Record paths : Type := mkPaths {
  source : string;
  sourceURI : string;
  bundle_path : string;
  compiled : string
  }.

Record BCC : Type := mkBCC {
  tsSource : string;
  bundleFolder : string;
  compiledFolder : string;
  cacheFolder : string;
  cacheRoot : string;
  cacheMap : list (string * string);
  mapSources : bool
  }.

Definition constructor (settings : BCC_Settings.t) : BCC :=
  {| tsSource := BCC_Settings.tsSource settings;
     bundleFolder := BCC_Settings.bundleFolder settings;
     compiledFolder := BCC_Settings.compiledFolder settings;
     cacheFolder := BCC_Settings.cacheFolder settings;
     cacheRoot := BCC_Settings.cacheRoot settings;
     cacheMap := [];
     mapSources := default false (BCC_Settings.mapSources settings) |}.

Definition addCacheSource (this : BCC) (handle source_ : string) : BCC :=
  {| tsSource := tsSource this;
     bundleFolder := bundleFolder this;
     compiledFolder := compiledFolder this;
     cacheFolder := cacheFolder this;
     cacheRoot := cacheRoot this;
     cacheMap := JS.map_set handle source_ (cacheMap this);
     mapSources := mapSources this |}.

Definition validSource (this : BCC) (handle : string) : bool :=
  JS.map_has handle (cacheMap this).

Definition mapEntry (this : BCC) (c2 : string) (entry : string * string) : string :=
  let '(handle, source_) := entry in
  JS.replaceAll source_ (cacheRoot this +:+ "/" +:+ handle +:+ "/") c2.

Definition mapExternalSources (this : BCC) (code : string) : string :=
  if mapSources this then fold_left (mapEntry this) (cacheMap this) code else code.

Section with_runtime.
Context (rt : Runtime).

Definition generatedPaths (this : BCC) (script : string) : paths :=
  {| source := "./" +:+ tsSource this +:+ "/" +:+ script;
     sourceURI := "file://" +:+ Deno_cwd rt +:+ "/" +:+ tsSource this +:+ "/";
     bundle_path := "./" +:+ bundleFolder this +:+ "/" +:+ script;
     compiled := "./" +:+ compiledFolder this +:+ "/" +:+ script |}.

Definition clearBundleCache (this : BCC) : M unit :=
  fs.emptyDir rt ("./" +:+ bundleFolder this +:+ "/").

Definition clearCompileCache (this : BCC) : M unit :=
  fs.emptyDir rt ("./" +:+ compiledFolder this +:+ "/").

Definition clearExternalCache (this : BCC) : M unit :=
  fs.emptyDir rt ("./" +:+ cacheFolder this +:+ "/").

Definition clearAllCache (this : BCC) : M unit :=
  promise_all [clearBundleCache this; clearCompileCache this; clearExternalCache this].

Definition valid (this : BCC) (script : option string) : M bool :=
  if negb (JS.truthy script) then ret false
  else fs.exists_ rt (source (generatedPaths this (JS.interp script))).

Definition failed_to_find (functionName script : string) : string :=
  "throw new Error(" +:+ dquote +:+ functionName +:+ " failed to find file '"
    +:+ script +:+ "'." +:+ dquote +:+ ")".

Definition cacheOrGen (script cachePath : string)
    (generator : string -> M unit) (functionName : string) : M string :=
  try_catch (Deno.readTextFile rt cachePath)
    (fun _ =>
       generator (JS.strip_js script) ;;
       try_catch (Deno.readTextFile rt cachePath)
         (fun _ => ret (failed_to_find functionName script))).

Fixpoint compile_emit (this : BCC) (dir : string)
    (emitMap : list (string * string)) : M unit :=
  match emitMap with
  | [] => ret tt
  | (resource, text) :: rest =>
      let code := mapExternalSources this text in
      Deno.writeTextFile rt (dir +:+ ".js") code ;;
      compile_emit this dir rest
  end.

Definition compile (this : BCC) (script : string) : M unit :=
  let paths := generatedPaths this script in
  '(diagnostics, emitMap) ← Deno.compile rt (source paths);
  assert (bool_decide (diagnostics = None))
    ("Compile Error: " +:+ JS.interp diagnostics) ;;
  compile_emit this (compiled paths) emitMap.

Definition cachedCompile (this : BCC) (script : string) : M string :=
  cacheOrGen script (compiled (generatedPaths this script)) (compile this) "cachedCompile".

Definition bundle (this : BCC) (script : string) : M unit :=
  let paths := generatedPaths this script in
  '(diagnostics, emit) ← Deno.bundle rt (source paths);
  assert (bool_decide (diagnostics = None))
    ("Compile Error: " +:+ JS.interp diagnostics) ;;
  let dir := bundle_path paths in
  let code := mapExternalSources this emit in
  Deno.writeTextFile rt (dir +:+ ".js") code.

Definition cachedBundle (this : BCC) (script : string) : M string :=
  cacheOrGen script (bundle_path (generatedPaths this script)) (bundle this) "cachedBundle".

Definition updateCache (this : BCC) (script src uri : string) : M unit :=
  resp ← fetch rt (JS.interp (JS.map_get src (cacheMap this)) +:+ script);
  let code := mapExternalSources this resp in
  fs.ensureDir rt ("./cache/" +:+ src +:+ "/") ;;
  Deno.writeTextFile rt ("./cache/" +:+ src +:+ "/" +:+ md5 rt script) code.

Definition missing_file (script handle : string) : string :=
  "throw new Error(" +:+ dquote +:+ "external cache missing file '" +:+ script
    +:+ "' for source '" +:+ handle +:+ "'." +:+ dquote +:+ ")".

Definition scriptCache (this : BCC) (script handle : string) : M string :=
  let uri := "./" +:+ cacheFolder this +:+ "/" +:+ handle +:+ "/" +:+ md5 rt script in
  try_catch (Deno.readTextFile rt uri)
    (fun _ =>
       updateCache this script handle uri ;;
       try_catch (Deno.readTextFile rt uri)
         (fun _ => ret (missing_file script handle))).
End with_runtime.

End BCC_part_000.

(** ** The middleware of [src/BCC_Middleware.ts] *)

Module RegExp.

(** A pattern is what [exec] gives on a path: nothing, or the captured
    groups the caller destructures (one for bundle and compile, two for the
    cache). The patterns have neither the [g] nor the [y] flag, so [exec] is
    a function of its input and [test] says whether [exec] matches. *)
Record t (G : Type) : Type := mk { exec : string -> option G }.
Arguments mk {G} exec.
Arguments exec {G} _ _.

Definition test {G} (r : t G) (s : string) : bool :=
  match exec r s with
  | Some _ => true
  | None => false
  end.

(** [(.+)] at the end of a pattern: as many characters as there are before
    a line terminator. *)
Fixpoint dot_plus (s : string) : string :=
  match s with
  | EmptyString => EmptyString
  | String c s' =>
      if JS.is_line_terminator c then EmptyString else String c (dot_plus s')
  end.

(** [lit(.+)] tried at the start of [s]. *)
Definition lit_group_here (lit s : string) : option string :=
  if String.prefix lit s
  then match dot_plus (JS.drop_string (String.length lit) s) with
       | EmptyString => None
       | String c g => Some (String c g)
       end
  else None.

(** [/lit(.+)/]: the leftmost place where [lit] is followed by a
    non-empty group. *)
Fixpoint exec_lit_group (lit s : string) : option string :=
  match lit_group_here lit s with
  | Some g => Some g
  | None =>
      match s with
      | EmptyString => None
      | String _ s' => exec_lit_group lit s'
      end
  end.

(** [(.+?)\/(.+)]: the shortest non-empty first group that a slash and a
    non-empty second group follow. *)
Fixpoint lazy_group_slash_group (acc s : string) : option (string * string) :=
  match s with
  | EmptyString => None
  | String c s' =>
      if JS.is_line_terminator c then None
      else
        match s' with
        | EmptyString => None
        | String d s'' =>
            match (if Ascii.eqb d "/" then dot_plus s'' else EmptyString) with
            | String e g => Some (acc +:+ String c EmptyString, String e g)
            | EmptyString => lazy_group_slash_group (acc +:+ String c EmptyString) s'
            end
        end
  end.

(** [lit(.+?)\/(.+)] tried at the start of [s]. *)
Definition lit_group_slash_group_here (lit s : string) : option (string * string) :=
  if String.prefix lit s
  then lazy_group_slash_group EmptyString (JS.drop_string (String.length lit) s)
  else None.

(** [/lit(.+?)\/(.+)/]. *)
Fixpoint exec_lit_group_slash_group (lit s : string) : option (string * string) :=
  match lit_group_slash_group_here lit s with
  | Some g => Some g
  | None =>
      match s with
      | EmptyString => None
      | String _ s' => exec_lit_group_slash_group lit s'
      end
  end.

End RegExp.

Module BCC_Middleware_ts.

Import BCC_ts.

Record BCC_Middleware_Settings : Type := mkSettings {
  BCC_Settings : BCC_Settings.t;
  (** [undefined] is [None], [null] is [Some None]. *)
  BundleRegEx_opt : option (option (RegExp.t string));
  CompileRegEx_opt : option (option (RegExp.t string));
  CacheRegEx_opt : option (option (RegExp.t (string * string)))
  }.

Record BCC_Middleware : Type := mkMiddleware {
  BundleRegEx : option (RegExp.t string);
  CompileRegEx : option (RegExp.t string);
  CacheRegEx : option (RegExp.t (string * string));
  bcc : BCC
  }.

(** The initial values of the three fields. *)
Definition BundleRegEx_default : RegExp.t string :=
  RegExp.mk (RegExp.exec_lit_group "/bundled/").
Definition CompileRegEx_default : RegExp.t string :=
  RegExp.mk (RegExp.exec_lit_group "/compiled/").
Definition CacheRegEx_default : RegExp.t (string * string) :=
  RegExp.mk (RegExp.exec_lit_group_slash_group "/cache/").

(** [settings.X != undefined]: neither [undefined] nor [null]. *)
Definition supplied {G} (field : option (option (RegExp.t G))) (current : option (RegExp.t G))
    : option (RegExp.t G) :=
  match field with
  | Some (Some r) => Some r
  | _ => current
  end.

(** [if (!folder) this.X = null]. *)
Definition unless_folder {G} (folder : option string) (current : option (RegExp.t G))
    : option (RegExp.t G) :=
  if negb (JS.truthy folder) then None else current.

Definition constructor (settings : BCC_Middleware_Settings) : BCC_Middleware :=
  {| bcc := BCC_ts.constructor (BCC_Settings settings);
     BundleRegEx :=
       unless_folder (BCC_Settings.bundleFolder (BCC_Settings settings))
         (supplied (BundleRegEx_opt settings) (Some BundleRegEx_default));
     CompileRegEx :=
       unless_folder (BCC_Settings.compiledFolder (BCC_Settings settings))
         (supplied (CompileRegEx_opt settings) (Some CompileRegEx_default));
     CacheRegEx :=
       unless_folder (BCC_Settings.cacheFolder (BCC_Settings settings))
         (supplied (CacheRegEx_opt settings) (Some CacheRegEx_default)) |}.

(** What the handler sees of the oak context. *)
Record Context : Type := mkContext {
  pathname : string;
  response_body : option string;
  response_type : option string
  }.

Definition respond (context : Context) (body : string) : Context :=
  {| pathname := pathname context;
     response_body := Some body;
     response_type := Some "text/javascript" |}.

(** [re?.test(path)] and then [re.exec(path)]. *)
Definition matches {G} (re : option (RegExp.t G)) (path : string) : option G :=
  match re with
  | Some r => if RegExp.test r path then RegExp.exec r path else None
  | None => None
  end.

Section with_runtime.
Context (rt : Runtime).

(** The handler [middleware()] returns. *)
Definition middleware (this : BCC_Middleware) (context : Context)
    (next : Context -> M Context) : M Context :=
  match matches (BundleRegEx this) (pathname context) with
  | Some script =>
      body ← cachedBundle rt (bcc this) script;
      ret (respond context body)
  | None =>
      match matches (CompileRegEx this) (pathname context) with
      | Some script =>
          body ← cachedCompile rt (bcc this) script;
          ret (respond context body)
      | None =>
          match matches (CacheRegEx this) (pathname context) with
          | Some (src, script) =>
              body ← scriptCache rt (bcc this) script src;
              ret (respond context body)
          | None => next context
          end
      end
  end.
End with_runtime.

End BCC_Middleware_ts.

(** ** A small runtime and a small world, for the examples *)

Module Sample.

(** A compiler that reads its root from the file store: a missing root is a
    fault, a text that starts with [!] is ill-formed, any other is emitted
    as one resource. *)
Definition compile_fn (store : gmap (list string) string) (rootName : string)
    : Res (option string * list (string * string)) :=
  match store !! Path.resolve ["srv"] rootName with
  | Some text =>
      if String.prefix "!" text then Ok (Some "[1 error]", [])
      else Ok (None, [(rootName +:+ ".js", "/*compiled*/" +:+ text)])
  | None => Throw (Err "NotFound" rootName)
  end.

Definition bundle_fn (store : gmap (list string) string) (rootName : string)
    : Res (option string * string) :=
  match store !! Path.resolve ["srv"] rootName with
  | Some text =>
      if String.prefix "!" text then Ok (Some "[1 error]", "")
      else Ok (None, "/*bundled*/" +:+ text)
  | None => Throw (Err "NotFound" rootName)
  end.

Definition transpile_fn (source : string) : Res string :=
  Ok ("/*transpiled*/" +:+ source).

(** One remote source answers; any other address is refused. *)
Definition fetch_fn (url : string) : Res string :=
  if String.prefix "https://cdn.example/lib/" url then Ok ("/*remote*/" +:+ url)
  else Throw (Err "TypeError" url).


(** The md5 digests of the script paths of the examples. *)
Definition md5_fn (s : string) : string :=
  if String.eqb s "utils.js" then "14ef994fa167d355bdaf9b44add54b87"
  else if String.eqb s "mod.ts" then "e38fb0e81da115ce0eb28e3d2e76d0c1"
  else "d41d8cd98f00b204e9800998ecf8427e".

Definition rt : Runtime :=
  {| Deno_cwd := "/srv";
     Deno_compile := compile_fn;
     Deno_bundle := bundle_fn;
     Deno_transpileOnly := transpile_fn;
     fetch_text := fetch_fn;
     md5 := md5_fn |}.


(** The sources [src/app], [src/app.ts] and the ill-formed [src/bad.ts]; the
    output directories exist and are empty. *)
Definition w0 : World :=
  {| files := {[ ["srv"; "src"; "app"] := "let a = 1;";
                 ["srv"; "src"; "app.ts"] := "let b: number = 2;";
                 ["srv"; "src"; "bad.ts"] := "!let" ]};
     dirs := {[ ["srv"]; ["srv"; "src"]; ["srv"; "bundled"]; ["srv"; "compiled"];
                ["srv"; "cache"] ]};
     trace := [] |}.

(** Only the sources; no output directory yet. *)
Definition w_bare : World :=
  {| files := {[ ["srv"; "src"; "app"] := "let a = 1;";
                 ["srv"; "src"; "app.ts"] := "let b: number = 2;" ]};
     dirs := {[ ["srv"]; ["srv"; "src"] ]};
     trace := [] |}.

Definition only_compiled_settings : BCC_ts.BCC_Settings.t :=
  {| BCC_ts.BCC_Settings.tsSource := "src";
     BCC_ts.BCC_Settings.bundleFolder := None;
     BCC_ts.BCC_Settings.compiledFolder := Some "compiled";
     BCC_ts.BCC_Settings.transpileFolder := None;
     BCC_ts.BCC_Settings.cacheFolder := None;
     BCC_ts.BCC_Settings.cacheRoot := None;
     BCC_ts.BCC_Settings.mapSources := None |}.

Definition only_compiled : BCC_ts.BCC := BCC_ts.constructor only_compiled_settings.

Definition all_settings : BCC_ts.BCC_Settings.t :=
  {| BCC_ts.BCC_Settings.tsSource := "src";
     BCC_ts.BCC_Settings.bundleFolder := Some "bundled";
     BCC_ts.BCC_Settings.compiledFolder := Some "compiled";
     BCC_ts.BCC_Settings.transpileFolder := Some "transpiled";
     BCC_ts.BCC_Settings.cacheFolder := Some "cache";
     BCC_ts.BCC_Settings.cacheRoot := Some "/cache";
     BCC_ts.BCC_Settings.mapSources := Some true |}.

Definition all_kinds : BCC_ts.BCC := BCC_ts.constructor all_settings.

Definition with_lib : BCC_ts.BCC :=
  BCC_ts.addCacheSource all_kinds "lib" "https://cdn.example/lib/".

(** Two sources of which one address begins the other, and a source
    whose address is a path of the site. *)
Definition overlapping : BCC_ts.BCC :=
  BCC_ts.addCacheSource (BCC_ts.addCacheSource all_kinds "std" "https://deno.land/")
    "x" "https://deno.land/x/".

Definition site_relative : BCC_ts.BCC := BCC_ts.addCacheSource all_kinds "lib" "/lib/".

(** The cache folder given as an absolute path. *)
Definition absolute_cache : BCC_ts.BCC :=
  BCC_ts.addCacheSource
    (BCC_ts.constructor
       {| BCC_ts.BCC_Settings.tsSource := "src";
          BCC_ts.BCC_Settings.bundleFolder := None;
          BCC_ts.BCC_Settings.compiledFolder := None;
          BCC_ts.BCC_Settings.transpileFolder := None;
          BCC_ts.BCC_Settings.cacheFolder := Some "/var/cache";
          BCC_ts.BCC_Settings.cacheRoot := Some "/cache";
          BCC_ts.BCC_Settings.mapSources := None |})
    "lib" "https://cdn.example/lib/".

Definition plain : BCC_part_000.BCC :=
  BCC_part_000.constructor
    {| BCC_part_000.BCC_Settings.tsSource := "src";
       BCC_part_000.BCC_Settings.bundleFolder := "bundled";
       BCC_part_000.BCC_Settings.compiledFolder := "compiled";
       BCC_part_000.BCC_Settings.cacheFolder := "cache";
       BCC_part_000.BCC_Settings.cacheRoot := "/cache";
       BCC_part_000.BCC_Settings.mapSources := Some true |}.

(** A middleware with its own patterns left out, and one that is given a
    bundle pattern although only the compiled folder is configured. *)
Definition middleware_all : BCC_Middleware_ts.BCC_Middleware :=
  BCC_Middleware_ts.constructor
    {| BCC_Middleware_ts.BCC_Settings := all_settings;
       BCC_Middleware_ts.BundleRegEx_opt := None;
       BCC_Middleware_ts.CompileRegEx_opt := None;
       BCC_Middleware_ts.CacheRegEx_opt := None |}.

Definition middleware_only_compiled : BCC_Middleware_ts.BCC_Middleware :=
  BCC_Middleware_ts.constructor
    {| BCC_Middleware_ts.BCC_Settings := only_compiled_settings;
       BCC_Middleware_ts.BundleRegEx_opt := Some (Some BCC_Middleware_ts.BundleRegEx_default);
       BCC_Middleware_ts.CompileRegEx_opt := None;
       BCC_Middleware_ts.CacheRegEx_opt := None |}.

Definition request (path : string) : BCC_Middleware_ts.Context :=
  {| BCC_Middleware_ts.pathname := path;
     BCC_Middleware_ts.response_body := None;
     BCC_Middleware_ts.response_type := None |}.

(** A next handler that answers with a body of its own. *)
Definition next_handler (context : BCC_Middleware_ts.Context) : M BCC_Middleware_ts.Context :=
  ret {| BCC_Middleware_ts.pathname := BCC_Middleware_ts.pathname context;
         BCC_Middleware_ts.response_body := Some "not found";
         BCC_Middleware_ts.response_type := None |}.

End Sample.

(** ** Vocabulary of the properties *)

Section vocabulary.
Context (rt : Runtime) (this : BCC_ts.BCC).
Import BCC_ts.

(** The entry [scriptCache] reads. *)
Definition entry_uri (script handle : string) : string :=
  "./" +:+ JS.interp (cacheFolder this) +:+ "/" +:+ handle +:+ "/" +:+ md5 rt script.

(** The address [updateCache] fetches. *)
Definition remote_url (script handle : string) : string :=
  JS.interp (JS.map_get handle (cacheMap this)) +:+ script.
End vocabulary.

(** The engine with toggles set up as the engine without toggles is: every
    folder present, no transpile folder. *)
Definition toggled_of (b : BCC_part_000.BCC) : BCC_ts.BCC :=
  {| BCC_ts.tsSource := BCC_part_000.tsSource b;
     BCC_ts.bundleFolder := Some (BCC_part_000.bundleFolder b);
     BCC_ts.compiledFolder := Some (BCC_part_000.compiledFolder b);
     BCC_ts.transpileFolder := None;
     BCC_ts.cacheFolder := Some (BCC_part_000.cacheFolder b);
     BCC_ts.cacheRoot := Some (BCC_part_000.cacheRoot b);
     BCC_ts.cacheMap := BCC_part_000.cacheMap b;
     BCC_ts.mapSources := BCC_part_000.mapSources b |}.

(** Every folder of the engine without toggles is a non-empty text. *)
Definition folders_set (b : BCC_part_000.BCC) : Prop :=
  BCC_part_000.bundleFolder b <> "" /\ BCC_part_000.compiledFolder b <> ""
  /\ BCC_part_000.cacheFolder b <> "".

(** Two worlds with the same files and directories: the logs may differ. *)
Definition same_store (w w' : World) : Prop :=
  files w = files w' /\ dirs w = dirs w'.

(** Two runs with the same result that leave the same files and
    directories. *)
Definition same_outcome {A} (x y : Res A * World) : Prop :=
  fst x = fst y /\ same_store (snd x) (snd y).

(** The directory at [k] and all above it are there, and no file stands in
    their place. *)
Definition dir_ready (w : World) (k : list string) : Prop :=
  Deno.blocked w k = false /\ Forall (fun a => a ∈ dirs w) (Path.ancestors_or_self k).

(** [u] occurs in [s]. *)
Fixpoint occurs (u s : string) : bool :=
  (String.prefix u s ||
   match s with
   | EmptyString => false
   | String _ s' => occurs u s'
   end)%bool.

(** In [p] followed by [u], the only place where [u] occurs is the end. *)
Fixpoint no_early (u p : string) : bool :=
  match p with
  | EmptyString => true
  | String _ p' => (negb (String.prefix u (p +:+ u)) && no_early u p')%bool
  end.

(** A replacement text in which no dollar stands. *)
Definition dollar_free (r : string) : bool := negb (occurs "$" r).

(** The pieces, each followed by [sep], and then [last]. *)
Fixpoint stitch (sep : string) (pieces : list string) (last : string) : string :=
  match pieces with
  | [] => last
  | p :: ps => p +:+ sep +:+ stitch sep ps last
  end.

(** The response of a route: the text the operation returns becomes the
    body, marked as script text; a fault of the operation stays a fault. *)
Definition served (op : M string) (context : BCC_Middleware_ts.Context)
    : M BCC_Middleware_ts.Context :=
  fun w =>
    match op w with
    | (Ok body, w') =>
        (Ok {| BCC_Middleware_ts.pathname := BCC_Middleware_ts.pathname context;
               BCC_Middleware_ts.response_body := Some body;
               BCC_Middleware_ts.response_type := Some "text/javascript" |}, w')
    | (Throw e, w') => (Throw e, w')
    end.

(** The log only grows. *)
Definition extends (w w' : World) : Prop := exists more, trace w' = trace w ++ more.

(** ** Vocabulary of the further properties *)

(** The engine after a list of registrations, the first one first. *)
Definition register_all (this : BCC_ts.BCC) (regs : list (string * string)) : BCC_ts.BCC :=
  fold_left (fun t reg => BCC_ts.addCacheSource t (fst reg) (snd reg)) regs this.

(** No character of [s] is a line terminator. *)
Fixpoint no_line_terminator (s : string) : bool :=
  match s with
  | EmptyString => true
  | String c s' => (negb (JS.is_line_terminator c) && no_line_terminator s')%bool
  end.

(** No character of [s] is a slash. *)
Fixpoint no_slash (s : string) : bool :=
  match s with
  | EmptyString => true
  | String c s' => (negb (Ascii.eqb c "/") && no_slash s')%bool
  end.

(** A name of one file in a directory: not empty, without a slash, and
    neither [.] nor [..]. *)
Definition plain_name (s : string) : bool :=
  (no_slash s && negb (String.eqb s "") && negb (String.eqb s ".")
   && negb (String.eqb s ".."))%bool.

(** From [w] to [w'] no file but the one at [k0] has changed, and no file
    has been removed. *)
Definition only_writes (k0 : list string) (w w' : World) : Prop :=
  forall k,
    (k <> k0 -> files w' !! k = files w !! k)
    /\ (is_Some (files w !! k) -> is_Some (files w' !! k)).

(** A compiler that emits the root and then a module the root imports. *)
Definition compile_two_modules (store : gmap (list string) string) (rootName : string)
    : Res (option string * list (string * string)) :=
  match store !! Path.resolve ["srv"] rootName with
  | Some text =>
      Ok (None, [(rootName +:+ ".js", "/*root*/" +:+ text);
                 ("./src/dep.ts.js", "/*dep*/export {};")])
  | None => Throw (Err "NotFound" rootName)
  end.

Definition rt_two_modules : Runtime :=
  {| Deno_cwd := "/srv";
     Deno_compile := compile_two_modules;
     Deno_bundle := Sample.bundle_fn;
     Deno_transpileOnly := Sample.transpile_fn;
     fetch_text := Sample.fetch_fn;
     md5 := Sample.md5_fn |}.

(** The folders that [clearAllCache] empties, in its order. *)
Definition configured_folders (this : BCC_ts.BCC) : list string :=
  omap (fun folder => if JS.truthy folder then Some ("./" +:+ JS.interp folder +:+ "/") else None)
    [BCC_ts.bundleFolder this; BCC_ts.compiledFolder this;
     BCC_ts.transpileFolder this; BCC_ts.cacheFolder this].

(** The calls the routes of the middleware may make: reads and writes of
    the cache, the making of its folders, the network, the compiler and the
    bundler. *)
Definition is_serving_event (e : Event) : bool :=
  match e with
  | EvReadTextFile _ | EvWriteTextFile _ _ | EvEnsureDir _
  | EvFetch _ | EvCompile _ | EvBundle _ => true
  | _ => false
  end.

(** The calls that cost: a generator or the network. *)
Definition is_costly_event (e : Event) : bool :=
  (is_generator_event e || is_fetch_event e)%bool.

(** From [w] to [w'] the log has grown by calls a route may make, at most
    [n] of them costly. *)
Definition serving_footprint (n : nat) (w w' : World) : Prop :=
  exists more,
    trace w' = trace w ++ more
    /\ forallb is_serving_event more = true
    /\ count_events is_costly_event more <= n.

(** * Properties *)

(** ** The primitives on small inputs *)

Example strip_js_app_js : JS.strip_js "app.js" = "app".
Proof. reflexivity. Qed.

Example strip_js_appjs : JS.strip_js "appjs" = "ap".
Proof. reflexivity. Qed.

Example replaceAll_ex : JS.replaceAll "ab" "X" "cababbab" = "cXXbX".
Proof. reflexivity. Qed.

Example replaceAll_empty_ex : JS.replaceAll "" "-" "ab" = "-a-b-".
Proof. reflexivity. Qed.

Example replaceAll_dollar_ex : JS.replaceAll "b" "[$&$$$`$'$1]" "abc" = "a[b$ac$1]c".
Proof. reflexivity. Qed.

Example resolve_dot : Path.resolve ["w"] "./out/app.js" = ["w"; "out"; "app.js"].
Proof. reflexivity. Qed.

Example resolve_plain : Path.resolve ["w"] "out/lib/" = ["w"; "out"; "lib"].
Proof. reflexivity. Qed.

Example resolve_dot_abs : Path.resolve ["w"] ".//tmp/c/x" = ["w"; "tmp"; "c"; "x"].
Proof. reflexivity. Qed.

Example resolve_abs : Path.resolve ["w"] "/tmp/c/x" = ["tmp"; "c"; "x"].
Proof. reflexivity. Qed.

Example ancestors_ex : Path.ancestors_or_self ["a"; "b"] = [["a"]; ["a"; "b"]].
Proof. reflexivity. Qed.

Example bundle_route :
  RegExp.exec BCC_Middleware_ts.BundleRegEx_default "/static/bundled/app.ts.js" = Some "app.ts.js".
Proof. reflexivity. Qed.

Example bundle_route_empty :
  RegExp.exec BCC_Middleware_ts.BundleRegEx_default "/bundled/" = None.
Proof. reflexivity. Qed.

Example cache_route :
  RegExp.exec BCC_Middleware_ts.CacheRegEx_default "/cache/lib/a/b.js" = Some ("lib", "a/b.js").
Proof. reflexivity. Qed.

Example cache_route_none :
  RegExp.exec BCC_Middleware_ts.CacheRegEx_default "/cache/lib/" = None.
Proof. reflexivity. Qed.

(** ** Reading, and the four ways out of [cacheOrGen] *)

Section read_lemmas.
Context (rt : Runtime).

Lemma readTextFile_hit path w data :
  files w !! Deno.locate rt path = Some data ->
  Deno.readTextFile rt path w = (Ok data, log (EvReadTextFile path) w).
Proof. intros H. unfold Deno.readTextFile. by rewrite H. Qed.

Lemma readTextFile_miss path w :
  files w !! Deno.locate rt path = None ->
  Deno.readTextFile rt path w = (Throw NotFound, log (EvReadTextFile path) w).
Proof. intros H. unfold Deno.readTextFile. by rewrite H. Qed.

Lemma files_log e w : files (log e w) = files w.
Proof. reflexivity. Qed.

Lemma dirs_log e w : dirs (log e w) = dirs w.
Proof. reflexivity. Qed.

Lemma trace_log e w : trace (log e w) = trace w ++ [e].
Proof. reflexivity. Qed.
End read_lemmas.

Section cacheOrGen_lemmas.
Context (rt : Runtime).
Import BCC_ts.

Lemma cacheOrGen_disabled script cachePath generator functionName w :
  JS.truthy cachePath = false ->
  cacheOrGen rt script cachePath generator functionName w
  = (Ok (is_disabled functionName), w).
Proof. intros H. unfold cacheOrGen. by rewrite H. Qed.

Lemma cacheOrGen_hit script path generator functionName w data :
  JS.truthy (Some path) = true ->
  files w !! Deno.locate rt path = Some data ->
  cacheOrGen rt script (Some path) generator functionName w
  = (Ok data, log (EvReadTextFile path) w).
Proof.
  intros Ht Hf. unfold cacheOrGen, try_catch. rewrite Ht. simpl JS.interp.
  by rewrite (readTextFile_hit rt path w data Hf).
Qed.

Lemma cacheOrGen_fault script path generator functionName w e w' :
  JS.truthy (Some path) = true ->
  files w !! Deno.locate rt path = None ->
  generator (JS.strip_js script) (log (EvReadTextFile path) w) = (Throw e, w') ->
  cacheOrGen rt script (Some path) generator functionName w = (Throw e, w').
Proof.
  intros Ht Hf Hg. unfold cacheOrGen, try_catch, bind. rewrite Ht. simpl JS.interp.
  rewrite (readTextFile_miss rt path w Hf). by rewrite Hg.
Qed.

Lemma cacheOrGen_generated script path generator functionName w w' data :
  JS.truthy (Some path) = true ->
  files w !! Deno.locate rt path = None ->
  generator (JS.strip_js script) (log (EvReadTextFile path) w) = (Ok tt, w') ->
  files w' !! Deno.locate rt path = Some data ->
  cacheOrGen rt script (Some path) generator functionName w
  = (Ok data, log (EvReadTextFile path) w').
Proof.
  intros Ht Hf Hg Hf'. unfold cacheOrGen, try_catch, bind. rewrite Ht. simpl JS.interp.
  rewrite (readTextFile_miss rt path w Hf), Hg.
  by rewrite (readTextFile_hit rt path w' data Hf').
Qed.

Lemma cacheOrGen_still_missing script path generator functionName w w' :
  JS.truthy (Some path) = true ->
  files w !! Deno.locate rt path = None ->
  generator (JS.strip_js script) (log (EvReadTextFile path) w) = (Ok tt, w') ->
  files w' !! Deno.locate rt path = None ->
  cacheOrGen rt script (Some path) generator functionName w
  = (Ok (failed_to_find functionName script), log (EvReadTextFile path) w').
Proof.
  intros Ht Hf Hg Hf'. unfold cacheOrGen, try_catch, bind. rewrite Ht. simpl JS.interp.
  rewrite (readTextFile_miss rt path w Hf), Hg.
  by rewrite (readTextFile_miss rt path w' Hf').
Qed.

(** A planned path is a non-empty text. *)
Lemma truthy_planned folder script :
  JS.truthy (Some ("./" +:+ folder +:+ "/" +:+ script)) = true.
Proof. reflexivity. Qed.

Lemma truthy_interp v : JS.truthy v = true -> v = Some (JS.interp v).
Proof. destruct v as [[|c s]|]; simpl; congruence. Qed.
End cacheOrGen_lemmas.

(** ** A kind that is not configured *)

(** C2. When the folder of a kind is not configured (absent, or the empty
    text), the cached operation of that kind returns the text that names the
    disabled operation and leaves the world as it was: no entry is added to the
    log, so neither the file system nor the network is reached. The same
    holds of [scriptCache] when [cacheFolder] is not configured. *)
Theorem disabled_kind_short_circuit (rt : Runtime) (this : BCC_ts.BCC)
    (script handle : string) (w : World) :
  (JS.truthy (BCC_ts.bundleFolder this) = false ->
   BCC_ts.cachedBundle rt this script w
   = (Ok ("throw new Error(" +:+ dquote
          +:+ "cachedBundle is disabled in the BCC configuration." +:+ dquote +:+ ")"), w))
  /\ (JS.truthy (BCC_ts.compiledFolder this) = false ->
      BCC_ts.cachedCompile rt this script w
      = (Ok ("throw new Error(" +:+ dquote
             +:+ "cachedCompile is disabled in the BCC configuration." +:+ dquote +:+ ")"), w))
  /\ (JS.truthy (BCC_ts.transpileFolder this) = false ->
      BCC_ts.cachedTranspile rt this script w
      = (Ok ("throw new Error(" +:+ dquote
             +:+ "cachedTranspile is disabled in the BCC configuration." +:+ dquote +:+ ")"), w))
  /\ (JS.truthy (BCC_ts.cacheFolder this) = false ->
      BCC_ts.scriptCache rt this script handle w
      = (Ok ("throw new Error(" +:+ dquote +:+ "External cache disabled." +:+ dquote +:+ ")"), w)).
Proof.
  repeat split; intros H.
  - unfold BCC_ts.cachedBundle. rewrite cacheOrGen_disabled; [done|].
    simpl. by rewrite H.
  - unfold BCC_ts.cachedCompile. rewrite cacheOrGen_disabled; [done|].
    simpl. by rewrite H.
  - unfold BCC_ts.cachedTranspile. rewrite cacheOrGen_disabled; [done|].
    simpl. by rewrite H.
  - unfold BCC_ts.scriptCache. by rewrite H.
Qed.

Lemma disabled_kind_short_circuit_witness :
  BCC_ts.cachedBundle Sample.rt Sample.only_compiled "app" Sample.w0
  = (Ok ("throw new Error(" +:+ dquote
         +:+ "cachedBundle is disabled in the BCC configuration." +:+ dquote +:+ ")"),
     Sample.w0)
  /\ BCC_ts.scriptCache Sample.rt Sample.only_compiled "utils.js" "lib" Sample.w0
     = (Ok ("throw new Error(" +:+ dquote +:+ "External cache disabled." +:+ dquote +:+ ")"),
        Sample.w0).
Proof.
  split.
  - apply (proj1 (disabled_kind_short_circuit Sample.rt Sample.only_compiled
                    "app" "lib" Sample.w0)).
    reflexivity.
  - apply (proj2 (proj2 (proj2 (disabled_kind_short_circuit Sample.rt Sample.only_compiled
                                  "utils.js" "lib" Sample.w0)))).
    reflexivity.
Defined.

(** ** Faults of the generators *)

Section generator_faults.
Context (rt : Runtime) (this : BCC_ts.BCC).
Import BCC_ts.

Lemma compiled_enabled script :
  JS.truthy (compiledFolder this) = true ->
  compiled (generatedPaths rt this script)
  = Some ("./" +:+ JS.interp (compiledFolder this) +:+ "/" +:+ script).
Proof. intros H. simpl. by rewrite H. Qed.

Lemma bundle_enabled script :
  JS.truthy (bundleFolder this) = true ->
  bundle_path (generatedPaths rt this script)
  = Some ("./" +:+ JS.interp (bundleFolder this) +:+ "/" +:+ script).
Proof. intros H. simpl. by rewrite H. Qed.

Lemma transpile_enabled script :
  JS.truthy (transpileFolder this) = true ->
  transpile_path (generatedPaths rt this script)
  = Some ("./" +:+ JS.interp (transpileFolder this) +:+ "/" +:+ script).
Proof. intros H. simpl. by rewrite H. Qed.

Lemma compile_outcome script w :
  JS.truthy (compiledFolder this) = true ->
  compile rt this script w
  = match Deno_compile rt (files w) ("./" +:+ tsSource this +:+ "/" +:+ script) with
    | Throw e => (Throw e, log (EvCompile ("./" +:+ tsSource this +:+ "/" +:+ script)) w)
    | Ok (Some d, _) =>
        (Throw (Err "AssertionError" ("Compile Error: " +:+ d)),
         log (EvCompile ("./" +:+ tsSource this +:+ "/" +:+ script)) w)
    | Ok (None, emitMap) =>
        compile_emit rt this ("./" +:+ JS.interp (compiledFolder this) +:+ "/" +:+ script)
          (JS.interp (compiledFolder this)) emitMap
          (log (EvCompile ("./" +:+ tsSource this +:+ "/" +:+ script)) w)
    end.
Proof.
  intros H. unfold compile. rewrite (compiled_enabled script H), H. simpl.
  unfold bind, Deno.compile.
  destruct (Deno_compile rt (files w) _) as [[[d|] emitMap]|e]; reflexivity.
Qed.

Lemma bundle_outcome script w :
  JS.truthy (bundleFolder this) = true ->
  bundle rt this script w
  = match Deno_bundle rt (files w) ("./" +:+ tsSource this +:+ "/" +:+ script) with
    | Throw e => (Throw e, log (EvBundle ("./" +:+ tsSource this +:+ "/" +:+ script)) w)
    | Ok (Some d, _) =>
        (Throw (Err "AssertionError" ("Compile Error: " +:+ d)),
         log (EvBundle ("./" +:+ tsSource this +:+ "/" +:+ script)) w)
    | Ok (None, emit) =>
        (fs.ensureDir rt (JS.interp (bundleFolder this)) ;;
         Deno.writeTextFile rt
           (("./" +:+ JS.interp (bundleFolder this) +:+ "/" +:+ script) +:+ ".js")
           (mapExternalSources this emit))
          (log (EvBundle ("./" +:+ tsSource this +:+ "/" +:+ script)) w)
    end.
Proof.
  intros H. unfold bundle. rewrite (bundle_enabled script H), H. simpl.
  unfold bind at 1. unfold Deno.bundle.
  destruct (Deno_bundle rt (files w) _) as [[[d|] emit]|e]; reflexivity.
Qed.

Lemma transpile_outcome script w :
  JS.truthy (transpileFolder this) = true ->
  transpile rt this script w
  = match Deno_transpileOnly rt ("./" +:+ tsSource this +:+ "/" +:+ script) with
    | Throw e => (Throw e, log (EvTranspile ("./" +:+ tsSource this +:+ "/" +:+ script)) w)
    | Ok emit =>
        match mapExternalSources_undefined this with
        | Throw e =>
            (Throw e, log (EvTranspile ("./" +:+ tsSource this +:+ "/" +:+ script)) w)
        | Ok code =>
            (fs.ensureDir rt (JS.interp (transpileFolder this)) ;;
             Deno.writeTextFile rt
               ("./" +:+ JS.interp (transpileFolder this) +:+ "/" +:+ script)
               (JS.encode code))
              (log (EvTranspile ("./" +:+ tsSource this +:+ "/" +:+ script)) w)
        end
    end.
Proof.
  intros H. unfold transpile. rewrite (transpile_enabled script H), H. simpl.
  unfold bind at 1. unfold Deno.transpileOnly.
  destruct (Deno_transpileOnly rt _) as [emit|e]; [|reflexivity].
  unfold bind at 1, of_res.
  destruct (mapExternalSources_undefined this) as [code|e]; reflexivity.
Qed.
End generator_faults.

(** C6. With the kind enabled and no artifact at the planned path, a fault
    of the generator leaves the cached operation as a fault, and no text is
    returned: diagnostics that are not null make [cachedCompile] and
    [cachedBundle] throw the assertion error that carries them, and a fault
    thrown by the compiler, the bundler or the transpiler itself is thrown
    on unchanged. The generator is given the script with its [.js] stripped.
    Nothing is written. *)
Theorem generator_fault_propagates (rt : Runtime) (this : BCC_ts.BCC)
    (script : string) (w : World) :
  let src := "./" +:+ BCC_ts.tsSource this +:+ "/" +:+ JS.strip_js script in
  (forall path,
     BCC_ts.compiled (BCC_ts.generatedPaths rt this script) = Some path ->
     files w !! Deno.locate rt path = None ->
     (forall d emitMap,
        Deno_compile rt (files w) src = Ok (Some d, emitMap) ->
        BCC_ts.cachedCompile rt this script w
        = (Throw (Err "AssertionError" ("Compile Error: " +:+ d)),
           log (EvCompile src) (log (EvReadTextFile path) w)))
     /\ (forall e,
           Deno_compile rt (files w) src = Throw e ->
           BCC_ts.cachedCompile rt this script w
           = (Throw e, log (EvCompile src) (log (EvReadTextFile path) w))))
  /\ (forall path,
        BCC_ts.bundle_path (BCC_ts.generatedPaths rt this script) = Some path ->
        files w !! Deno.locate rt path = None ->
        (forall d emit,
           Deno_bundle rt (files w) src = Ok (Some d, emit) ->
           BCC_ts.cachedBundle rt this script w
           = (Throw (Err "AssertionError" ("Compile Error: " +:+ d)),
              log (EvBundle src) (log (EvReadTextFile path) w)))
        /\ (forall e,
              Deno_bundle rt (files w) src = Throw e ->
              BCC_ts.cachedBundle rt this script w
              = (Throw e, log (EvBundle src) (log (EvReadTextFile path) w))))
  /\ (forall path,
        BCC_ts.transpile_path (BCC_ts.generatedPaths rt this script) = Some path ->
        files w !! Deno.locate rt path = None ->
        forall e,
          Deno_transpileOnly rt src = Throw e ->
          BCC_ts.cachedTranspile rt this script w
          = (Throw e, log (EvTranspile src) (log (EvReadTextFile path) w))).
Proof.
  intros src. split; [|split].
  - intros path H Hmiss.
    assert (Ht : JS.truthy (BCC_ts.compiledFolder this) = true).
    { simpl in H. by destruct (JS.truthy (BCC_ts.compiledFolder this)). }
    unfold BCC_ts.cachedCompile. rewrite H.
    rewrite (compiled_enabled rt this script Ht) in H. injection H as <-.
    split.
    + intros d emitMap Hd. apply cacheOrGen_fault; [done|exact Hmiss|].
      rewrite (compile_outcome rt this _ _ Ht), files_log. fold src. by rewrite Hd.
    + intros e He. apply cacheOrGen_fault; [done|exact Hmiss|].
      rewrite (compile_outcome rt this _ _ Ht), files_log. fold src. by rewrite He.
  - intros path H Hmiss.
    assert (Ht : JS.truthy (BCC_ts.bundleFolder this) = true).
    { simpl in H. by destruct (JS.truthy (BCC_ts.bundleFolder this)). }
    unfold BCC_ts.cachedBundle. rewrite H.
    rewrite (bundle_enabled rt this script Ht) in H. injection H as <-.
    split.
    + intros d emit Hd. apply cacheOrGen_fault; [done|exact Hmiss|].
      rewrite (bundle_outcome rt this _ _ Ht), files_log. fold src. by rewrite Hd.
    + intros e He. apply cacheOrGen_fault; [done|exact Hmiss|].
      rewrite (bundle_outcome rt this _ _ Ht), files_log. fold src. by rewrite He.
  - intros path H Hmiss e He.
    assert (Ht : JS.truthy (BCC_ts.transpileFolder this) = true).
    { simpl in H. by destruct (JS.truthy (BCC_ts.transpileFolder this)). }
    unfold BCC_ts.cachedTranspile. rewrite H.
    rewrite (transpile_enabled rt this script Ht) in H. injection H as <-.
    apply cacheOrGen_fault; [done|exact Hmiss|].
    rewrite (transpile_outcome rt this _ _ Ht). fold src. by rewrite He.
Qed.

Lemma generator_fault_propagates_witness :
  BCC_ts.cachedCompile Sample.rt Sample.all_kinds "bad.ts" Sample.w0
  = (Throw (Err "AssertionError" ("Compile Error: " +:+ "[1 error]")),
     log (EvCompile "./src/bad.ts") (log (EvReadTextFile "./compiled/bad.ts") Sample.w0)).
Proof.
  apply (proj1 (proj1 (generator_fault_propagates Sample.rt Sample.all_kinds "bad.ts" Sample.w0)
                  "./compiled/bad.ts" eq_refl ltac:(vm_compute; reflexivity))
           "[1 error]" []).
  vm_compute. reflexivity.
Defined.

(** ** The cache of remote scripts *)

Section scriptCache_lemmas.
Context (rt : Runtime) (this : BCC_ts.BCC).
Import BCC_ts.

Lemma updateCache_outcome script src uri w :
  JS.truthy (cacheFolder this) = true ->
  updateCache rt this script src uri w
  = match fetch_text rt (remote_url this script src) with
    | Throw e => (Throw e, log (EvFetch (remote_url this script src)) w)
    | Ok resp =>
        (fs.ensureDir rt (JS.interp (cacheFolder this) +:+ "/" +:+ src +:+ "/") ;;
         Deno.writeTextFile rt
           (JS.interp (cacheFolder this) +:+ "/" +:+ src +:+ "/" +:+ md5 rt script)
           (mapExternalSources this resp))
          (log (EvFetch (remote_url this script src)) w)
    end.
Proof.
  intros H. unfold updateCache. rewrite H. simpl negb. cbv iota.
  unfold bind at 1. unfold fetch, remote_url.
  destruct (fetch_text rt _) as [resp|e]; reflexivity.
Qed.

Lemma scriptCache_hit script handle w data :
  JS.truthy (cacheFolder this) = true ->
  files w !! Deno.locate rt (entry_uri rt this script handle) = Some data ->
  scriptCache rt this script handle w
  = (Ok data, log (EvReadTextFile (entry_uri rt this script handle)) w).
Proof.
  intros Ht Hf. unfold scriptCache, try_catch. rewrite Ht. fold (entry_uri rt this script handle).
  cbv zeta. by rewrite (readTextFile_hit rt _ w data Hf).
Qed.

Lemma scriptCache_miss script handle w :
  JS.truthy (cacheFolder this) = true ->
  files w !! Deno.locate rt (entry_uri rt this script handle) = None ->
  scriptCache rt this script handle w
  = match updateCache rt this script handle (entry_uri rt this script handle)
            (log (EvReadTextFile (entry_uri rt this script handle)) w) with
    | (Throw e, w') => (Throw e, w')
    | (Ok _, w') =>
        match files w' !! Deno.locate rt (entry_uri rt this script handle) with
        | Some data => (Ok data, log (EvReadTextFile (entry_uri rt this script handle)) w')
        | None =>
            (Ok (missing_file script handle),
             log (EvReadTextFile (entry_uri rt this script handle)) w')
        end
    end.
Proof.
  intros Ht Hf. unfold scriptCache, try_catch. rewrite Ht. fold (entry_uri rt this script handle).
  cbv zeta. rewrite (readTextFile_miss rt _ w Hf). unfold bind.
  destruct (updateCache rt this script handle _ _) as [[[]|e] w']; [|done].
  unfold Deno.readTextFile.
  by destruct (files w' !! Deno.locate rt (entry_uri rt this script handle)).
Qed.

Lemma unregistered_get handle :
  validSource this handle = false -> JS.map_get handle (cacheMap this) = None.
Proof.
  unfold validSource, JS.map_has.
  by destruct (JS.map_get handle (cacheMap this)).
Qed.
End scriptCache_lemmas.

Section extends_lemmas.
Context (rt : Runtime).

Lemma extends_refl w : extends w w.
Proof. exists []. by rewrite app_nil_r. Qed.

Lemma extends_trans w1 w2 w3 : extends w1 w2 -> extends w2 w3 -> extends w1 w3.
Proof.
  intros [m1 H1] [m2 H2]. exists (m1 ++ m2). by rewrite H2, H1, app_assoc.
Qed.

Lemma extends_log e w : extends w (log e w).
Proof. by exists [e]. Qed.

Lemma extends_after_log e w w' : extends (log e w) w' -> extends w w'.
Proof. apply extends_trans, extends_log. Qed.

Lemma readTextFile_extends path w : extends w (snd (Deno.readTextFile rt path w)).
Proof.
  unfold Deno.readTextFile. destruct (files w !! _); apply extends_log.
Qed.

Lemma ensureDir_extends path w : extends w (snd (fs.ensureDir rt path w)).
Proof.
  unfold fs.ensureDir. destruct (Deno.blocked w _); apply extends_log.
Qed.

Lemma writeTextFile_extends path data w :
  extends w (snd (Deno.writeTextFile rt path data w)).
Proof.
  unfold Deno.writeTextFile.
  destruct (Deno.is_dir w _); [apply extends_log|].
  destruct (Deno.is_dir w _); apply extends_log.
Qed.

Lemma bind_extends {A B} (m : M A) (k : A -> M B) w :
  extends w (snd (m w)) ->
  (forall a w', extends w' (snd (k a w'))) ->
  extends w (snd (bind m k w)).
Proof.
  intros Hm Hk. unfold bind. destruct (m w) as [[a|e] w']; simpl in *.
  - eapply extends_trans; [exact Hm|apply Hk].
  - exact Hm.
Qed.

(** A directory is ensured, then a file is written in it. *)
Lemma store_extends dir path data w :
  extends w (snd ((fs.ensureDir rt dir ;; Deno.writeTextFile rt path data) w)).
Proof.
  apply bind_extends; [apply ensureDir_extends|].
  intros _ w'. apply writeTextFile_extends.
Qed.
End extends_lemmas.




(** C4, as the code has it. [scriptCache] does not consult the registry.
    For a handle that was never registered ([validSource] is false) and a
    configured [cacheFolder]: an entry already at the planned place is
    returned as it is; otherwise the entry is read, then the address made of
    the text [undefined] and the script path is fetched, and a fault of that
    fetch leaves [scriptCache] as a fault. *)
Theorem unregistered_handle_not_rejected (rt : Runtime) (this : BCC_ts.BCC)
    (script handle : string) (w : World) :
  BCC_ts.validSource this handle = false ->
  JS.truthy (BCC_ts.cacheFolder this) = true ->
  (forall data,
     files w !! Deno.locate rt (entry_uri rt this script handle) = Some data ->
     BCC_ts.scriptCache rt this script handle w
     = (Ok data, log (EvReadTextFile (entry_uri rt this script handle)) w))
  /\ (files w !! Deno.locate rt (entry_uri rt this script handle) = None ->
      extends (log (EvFetch ("undefined" +:+ script))
                 (log (EvReadTextFile (entry_uri rt this script handle)) w))
        (snd (BCC_ts.scriptCache rt this script handle w))
      /\ forall e,
           fetch_text rt ("undefined" +:+ script) = Throw e ->
           BCC_ts.scriptCache rt this script handle w
           = (Throw e,
              log (EvFetch ("undefined" +:+ script))
                (log (EvReadTextFile (entry_uri rt this script handle)) w))).
Proof.
  intros Hv Ht. split.
  - intros data Hf. by apply scriptCache_hit.
  - intros Hf. rewrite (scriptCache_miss rt this script handle w Ht Hf).
    rewrite (updateCache_outcome rt this _ _ _ _ Ht).
    unfold remote_url. rewrite (unregistered_get this handle Hv). simpl JS.interp.
    split.
    + destruct (fetch_text rt ("undefined" +:+ script)) as [resp|e];
        [|apply extends_refl].
      set (w1 := log (EvFetch _) _).
      pose proof (store_extends rt
                    (JS.interp (BCC_ts.cacheFolder this) +:+ "/" +:+ handle +:+ "/")
                    (JS.interp (BCC_ts.cacheFolder this) +:+ "/" +:+ handle
                     +:+ "/" +:+ md5 rt script)
                    (BCC_ts.mapExternalSources this resp) w1) as He.
      destruct (bind _ _ w1) as [[[]|e] w2]; simpl in He; [|exact He].
      destruct (files w2 !! _); simpl;
        (eapply extends_trans; [exact He|apply extends_log]).
    + intros e He. by rewrite He.
Qed.

Lemma unregistered_handle_not_rejected_witness :
  BCC_ts.scriptCache Sample.rt Sample.all_kinds "utils.js" "lib" Sample.w0
  = (Throw (Err "TypeError" "undefinedutils.js"),
     log (EvFetch "undefinedutils.js")
       (log (EvReadTextFile "./cache/lib/14ef994fa167d355bdaf9b44add54b87") Sample.w0)).
Proof.
  apply (proj2 (proj2 (unregistered_handle_not_rejected Sample.rt Sample.all_kinds
                         "utils.js" "lib" Sample.w0 eq_refl eq_refl)
                  ltac:(vm_compute; reflexivity))
           (Err "TypeError" "undefinedutils.js")).
  reflexivity.
Defined.

(** C4, as the claim has it, fails: the handle [lib] was never registered,
    and [scriptCache] returns no text at all, after one fetch. *)
Lemma unregistered_handle_counterexample :
  ~ (forall (rt : Runtime) (this : BCC_ts.BCC) (script handle : string) (w : World),
       BCC_ts.validSource this handle = false ->
       fst (BCC_ts.scriptCache rt this script handle w) = Ok BCC_ts.cache_disabled
       /\ count_events is_fetch_event (trace (snd (BCC_ts.scriptCache rt this script handle w)))
          = count_events is_fetch_event (trace w)
       /\ files (snd (BCC_ts.scriptCache rt this script handle w)) = files w).
Proof.
  intros H.
  destruct (H Sample.rt Sample.all_kinds "utils.js" "lib" Sample.w0 eq_refl) as (_ & Hn & _).
  vm_compute in Hn. discriminate Hn.
Qed.

(** An entry left in the cache directory is served for a handle that is not
    registered. *)
Example unregistered_handle_hit :
  let w := Deno.put_file ["srv"; "cache"; "lib"; "14ef994fa167d355bdaf9b44add54b87"]
             "/*kept*/" Sample.w0 in
  BCC_ts.validSource Sample.all_kinds "lib" = false
  /\ fst (BCC_ts.scriptCache Sample.rt Sample.all_kinds "utils.js" "lib" w) = Ok "/*kept*/".
Proof. intros; repeat split; vm_compute; reflexivity. Qed.

(** ** Every operation only adds to the log *)

Section generators_extend.
Context (rt : Runtime) (this : BCC_ts.BCC).
Import BCC_ts.

Lemma ret_extends {A} (a : A) w : extends w (snd (ret a w)).
Proof. apply extends_refl. Qed.

Lemma assert_extends c msg w : extends w (snd (assert c msg w)).
Proof. destruct c; apply extends_refl. Qed.

Lemma compile_emit_extends dir folder emitMap w :
  extends w (snd (compile_emit rt this dir folder emitMap w)).
Proof.
  revert w. induction emitMap as [|[resource text] rest IH]; intros w.
  - apply extends_refl.
  - simpl. apply bind_extends; [apply ensureDir_extends|]. intros _ w1.
    apply bind_extends; [apply writeTextFile_extends|]. intros _ w2. apply IH.
Qed.

Lemma compile_extends script w : extends w (snd (compile rt this script w)).
Proof.
  unfold compile. destruct (_ || _)%bool; [apply extends_refl|].
  apply bind_extends; [apply extends_log|]. intros [d emitMap] w1.
  apply bind_extends; [apply assert_extends|]. intros _ w2.
  apply compile_emit_extends.
Qed.

Lemma bundle_extends script w : extends w (snd (bundle rt this script w)).
Proof.
  unfold bundle. destruct (_ || _)%bool; [apply extends_refl|].
  apply bind_extends; [apply extends_log|]. intros [d emit] w1.
  apply bind_extends; [apply assert_extends|]. intros _ w2.
  apply store_extends.
Qed.

Lemma transpile_extends script w : extends w (snd (transpile rt this script w)).
Proof.
  unfold transpile. destruct (_ || _)%bool; [apply extends_refl|].
  apply bind_extends; [apply extends_log|]. intros emit w1.
  apply bind_extends; [apply extends_refl|]. intros code w2.
  apply store_extends.
Qed.

(** An enabled kind begins with the read of the planned path. *)
Lemma cacheOrGen_reads_first script path generator functionName w :
  JS.truthy (Some path) = true ->
  (forall s w', extends w' (snd (generator s w'))) ->
  extends (log (EvReadTextFile path) w)
    (snd (cacheOrGen rt script (Some path) generator functionName w)).
Proof.
  intros Ht Hg. unfold cacheOrGen, try_catch. rewrite Ht. simpl JS.interp.
  unfold Deno.readTextFile at 1.
  destruct (files w !! Deno.locate rt path); [apply extends_refl|].
  apply bind_extends; [apply Hg|]. intros _ w1.
  unfold Deno.readTextFile.
  destruct (files w1 !! Deno.locate rt path); simpl; apply extends_log.
Qed.
End generators_extend.

(** ** The empty identifier *)

Section patterns.
Import RegExp.

Lemma exec_lit_group_nonempty lit s g :
  exec_lit_group lit s = Some g -> g <> "".
Proof.
  assert (Hh : forall s', lit_group_here lit s' = Some g -> g <> "").
  { intros s'. unfold lit_group_here. destruct (String.prefix lit s'); [|done].
    destruct (dot_plus _); [done|]. by intros [= <-]. }
      induction s as [|c s IH]; cbn [exec_lit_group].
  - destruct (lit_group_here lit "") eqn:E; [|done]. intros [= <-]. by eapply Hh.
  - destruct (lit_group_here lit (String c s)) eqn:E; [|exact IH].
    intros [= <-]. by eapply Hh.
Qed.

Lemma append_char_nonempty acc c : acc +:+ String c "" <> "".
Proof. by destruct acc. Qed.

Lemma lazy_group_slash_group_nonempty acc s src script :
  lazy_group_slash_group acc s = Some (src, script) -> src <> "" /\ script <> "".
Proof.
  revert acc. induction s as [|c s IH]; intros acc; cbn [lazy_group_slash_group]; [done|].
  destruct (JS.is_line_terminator c); [done|].
  destruct s as [|d s']; [done|].
  destruct (if Ascii.eqb d "/" then dot_plus s' else "") as [|e g].
  - apply IH.
  - intros [= <- <-]. split; [apply append_char_nonempty|done].
Qed.

Lemma exec_lit_group_slash_group_nonempty lit s src script :
  exec_lit_group_slash_group lit s = Some (src, script) -> src <> "" /\ script <> "".
Proof.
  assert (Hh : forall s', lit_group_slash_group_here lit s' = Some (src, script) ->
                          src <> "" /\ script <> "").
  { intros s'. unfold lit_group_slash_group_here. destruct (String.prefix lit s'); [|done].
    apply lazy_group_slash_group_nonempty. }
      induction s as [|c s IH]; cbn [exec_lit_group_slash_group].
  - destruct (lit_group_slash_group_here lit "") as [[a b]|] eqn:E; [|done].
    intros [= <- <-]. by eapply Hh.
  - destruct (lit_group_slash_group_here lit (String c s)) as [[a b]|] eqn:E; [|exact IH].
    intros [= <- <-]. by eapply Hh.
Qed.
End patterns.

(** C10, as the code has it. [valid] answers false for an absent or empty
    identifier and leaves the world as it was, the file system untouched. The
    cached operations make no such test: with the kind enabled, the first
    thing an operation given the empty identifier does is read the path of
    the folder. The patterns the middleware starts with never capture an
    empty identifier. *)
Theorem empty_identifier_rejected_by_valid_only (rt : Runtime) (this : BCC_ts.BCC)
    (w : World) :
  BCC_ts.valid rt this None w = (Ok false, w)
  /\ BCC_ts.valid rt this (Some "") w = (Ok false, w)
  /\ (forall folder,
        BCC_ts.compiledFolder this = Some folder -> JS.truthy (Some folder) = true ->
        extends (log (EvReadTextFile ("./" +:+ folder +:+ "/")) w)
          (snd (BCC_ts.cachedCompile rt this "" w)))
  /\ (forall folder,
        BCC_ts.bundleFolder this = Some folder -> JS.truthy (Some folder) = true ->
        extends (log (EvReadTextFile ("./" +:+ folder +:+ "/")) w)
          (snd (BCC_ts.cachedBundle rt this "" w)))
  /\ (forall folder,
        BCC_ts.transpileFolder this = Some folder -> JS.truthy (Some folder) = true ->
        extends (log (EvReadTextFile ("./" +:+ folder +:+ "/")) w)
          (snd (BCC_ts.cachedTranspile rt this "" w)))
  /\ (forall path script,
        RegExp.exec BCC_Middleware_ts.BundleRegEx_default path = Some script -> script <> "")
  /\ (forall path script,
        RegExp.exec BCC_Middleware_ts.CompileRegEx_default path = Some script -> script <> "")
  /\ (forall path src script,
        RegExp.exec BCC_Middleware_ts.CacheRegEx_default path = Some (src, script) ->
        script <> "").
Proof.
  split; [reflexivity|]. split; [reflexivity|].
  split; [|split; [|split; [|split; [|split]]]].
  - intros folder Hf Ht. unfold BCC_ts.cachedCompile.
    rewrite <- Hf in Ht. rewrite (compiled_enabled rt this "" Ht), Hf. simpl JS.interp.
    apply cacheOrGen_reads_first; [done|]. apply compile_extends.
  - intros folder Hf Ht. unfold BCC_ts.cachedBundle.
    rewrite <- Hf in Ht. rewrite (bundle_enabled rt this "" Ht), Hf. simpl JS.interp.
    apply cacheOrGen_reads_first; [done|]. apply bundle_extends.
  - intros folder Hf Ht. unfold BCC_ts.cachedTranspile.
    rewrite <- Hf in Ht. rewrite (transpile_enabled rt this "" Ht), Hf. simpl JS.interp.
    apply cacheOrGen_reads_first; [done|]. apply transpile_extends.
  - intros path script. apply exec_lit_group_nonempty.
  - intros path script. apply exec_lit_group_nonempty.
  - intros path src script H.
    exact (proj2 (exec_lit_group_slash_group_nonempty _ _ _ _ H)).
Qed.

Lemma empty_identifier_rejected_by_valid_only_witness :
  extends (log (EvReadTextFile "./compiled/") Sample.w0)
    (snd (BCC_ts.cachedCompile Sample.rt Sample.all_kinds "" Sample.w0)).
Proof.
  apply (proj1 (proj2 (proj2 (empty_identifier_rejected_by_valid_only
                                Sample.rt Sample.all_kinds Sample.w0)))
           "compiled" eq_refl eq_refl).
Defined.

(** C10, as the claim has it, fails: [cachedCompile] given the empty
    identifier reaches the file system (it reads [./compiled/]) and rejects
    nothing. *)
Lemma empty_identifier_counterexample :
  ~ (forall (rt : Runtime) (this : BCC_ts.BCC) (w : World),
       BCC_ts.valid rt this (Some "") w = (Ok false, w)
       /\ count_events is_fs_event (trace (snd (BCC_ts.cachedCompile rt this "" w)))
          = count_events is_fs_event (trace w)
       /\ count_events is_fs_event (trace (snd (BCC_ts.cachedBundle rt this "" w)))
          = count_events is_fs_event (trace w)
       /\ count_events is_fs_event (trace (snd (BCC_ts.cachedTranspile rt this "" w)))
          = count_events is_fs_event (trace w)).
Proof.
  intros H.
  destruct (H Sample.rt Sample.all_kinds Sample.w0) as (_ & Hn & _).
  vm_compute in Hn. discriminate Hn.
Qed.

Example empty_identifier_trace :
  trace (snd (BCC_ts.cachedCompile Sample.rt Sample.all_kinds "" Sample.w0))
  = [EvReadTextFile "./compiled/"; EvCompile "./src/"].
Proof. vm_compute. reflexivity. Qed.

(** ** The router *)

Section router.
Context (rt : Runtime).
Import BCC_Middleware_ts.

Lemma matches_some {G} (r : RegExp.t G) path g :
  RegExp.exec r path = Some g -> matches (Some r) path = Some g.
Proof. intros H. unfold matches, RegExp.test. by rewrite H. Qed.

Lemma matches_none_iff {G} (re : option (RegExp.t G)) path :
  matches re path = None <-> re = None \/ exists r, re = Some r /\ RegExp.exec r path = None.
Proof.
  unfold matches, RegExp.test. destruct re as [r|].
  - destruct (RegExp.exec r path) as [g|] eqn:E; split; try done.
    + intros [|(r' & [= <-] & H)]; congruence.
    + intros _. right. by exists r.
  - split; [by left|done].
Qed.

Lemma served_bind op context w :
  (body ← op; ret (respond context body)) w = served op context w.
Proof. unfold bind, served, respond, ret. by destruct (op w) as [[body|e] w']. Qed.

Lemma unless_folder_off {G} folder (current : option (RegExp.t G)) :
  JS.truthy folder = false -> unless_folder folder current = None.
Proof. intros H. unfold unless_folder. by rewrite H. Qed.
End router.

(** C8. The handler tries the bundle pattern, then the compile pattern,
    then the cache pattern, on the path of the request. The first that
    matches decides: the cached operation of that route is called with the
    captured script (and, for the cache, the captured handle), the text it
    returns becomes the body of the response and the type of the response
    is [text/javascript]. When none matches, the next handler is called. A
    pattern whose folder is not configured is null after construction,
    whatever pattern the settings supply, so its route matches no path. *)
Theorem router_dispatch (rt : Runtime) (this : BCC_Middleware_ts.BCC_Middleware)
    (context : BCC_Middleware_ts.Context)
    (next : BCC_Middleware_ts.Context -> M BCC_Middleware_ts.Context) (w : World) :
  let path := BCC_Middleware_ts.pathname context in
  (forall r script,
     BCC_Middleware_ts.BundleRegEx this = Some r ->
     RegExp.exec r path = Some script ->
     BCC_Middleware_ts.middleware rt this context next w
     = served (BCC_ts.cachedBundle rt (BCC_Middleware_ts.bcc this) script) context w)
  /\ (forall r script,
        BCC_Middleware_ts.matches (BCC_Middleware_ts.BundleRegEx this) path = None ->
        BCC_Middleware_ts.CompileRegEx this = Some r ->
        RegExp.exec r path = Some script ->
        BCC_Middleware_ts.middleware rt this context next w
        = served (BCC_ts.cachedCompile rt (BCC_Middleware_ts.bcc this) script) context w)
  /\ (forall r src script,
        BCC_Middleware_ts.matches (BCC_Middleware_ts.BundleRegEx this) path = None ->
        BCC_Middleware_ts.matches (BCC_Middleware_ts.CompileRegEx this) path = None ->
        BCC_Middleware_ts.CacheRegEx this = Some r ->
        RegExp.exec r path = Some (src, script) ->
        BCC_Middleware_ts.middleware rt this context next w
        = served (BCC_ts.scriptCache rt (BCC_Middleware_ts.bcc this) script src) context w)
  /\ (BCC_Middleware_ts.matches (BCC_Middleware_ts.BundleRegEx this) path = None ->
      BCC_Middleware_ts.matches (BCC_Middleware_ts.CompileRegEx this) path = None ->
      BCC_Middleware_ts.matches (BCC_Middleware_ts.CacheRegEx this) path = None ->
      BCC_Middleware_ts.middleware rt this context next w = next context w)
  /\ (forall settings any_path,
        (JS.truthy (BCC_ts.BCC_Settings.bundleFolder
                      (BCC_Middleware_ts.BCC_Settings settings)) = false ->
         BCC_Middleware_ts.BundleRegEx (BCC_Middleware_ts.constructor settings) = None
         /\ BCC_Middleware_ts.matches
              (BCC_Middleware_ts.BundleRegEx (BCC_Middleware_ts.constructor settings))
              any_path = None)
        /\ (JS.truthy (BCC_ts.BCC_Settings.compiledFolder
                         (BCC_Middleware_ts.BCC_Settings settings)) = false ->
            BCC_Middleware_ts.CompileRegEx (BCC_Middleware_ts.constructor settings) = None
            /\ BCC_Middleware_ts.matches
                 (BCC_Middleware_ts.CompileRegEx (BCC_Middleware_ts.constructor settings))
                 any_path = None)
        /\ (JS.truthy (BCC_ts.BCC_Settings.cacheFolder
                         (BCC_Middleware_ts.BCC_Settings settings)) = false ->
            BCC_Middleware_ts.CacheRegEx (BCC_Middleware_ts.constructor settings) = None
            /\ BCC_Middleware_ts.matches
                 (BCC_Middleware_ts.CacheRegEx (BCC_Middleware_ts.constructor settings))
                 any_path = None)).
Proof.
  intros path. split; [|split; [|split; [|split]]].
  - intros r script Hr He. unfold BCC_Middleware_ts.middleware. fold path.
    rewrite Hr, (matches_some r path script He). apply served_bind.
  - intros r script Hb Hr He. unfold BCC_Middleware_ts.middleware. fold path.
    rewrite Hb, Hr, (matches_some r path script He). apply served_bind.
  - intros r src script Hb Hc Hr He. unfold BCC_Middleware_ts.middleware. fold path.
    rewrite Hb, Hc, Hr, (matches_some r path (src, script) He). apply served_bind.
  - intros Hb Hc Hx. unfold BCC_Middleware_ts.middleware. fold path.
    by rewrite Hb, Hc, Hx.
  - intros settings any_path.
    split; [|split]; intros Hoff; simpl; by rewrite (unless_folder_off _ _ Hoff).
Qed.

Lemma router_dispatch_witness :
  BCC_Middleware_ts.middleware Sample.rt Sample.middleware_all
    (Sample.request "/bundled/app.ts.js") Sample.next_handler Sample.w0
  = served (BCC_ts.cachedBundle Sample.rt Sample.all_kinds "app.ts.js")
      (Sample.request "/bundled/app.ts.js") Sample.w0
  /\ BCC_Middleware_ts.middleware Sample.rt Sample.middleware_only_compiled
       (Sample.request "/bundled/app.ts.js") Sample.next_handler Sample.w0
     = Sample.next_handler (Sample.request "/bundled/app.ts.js") Sample.w0.
Proof.
  split.
  - apply (proj1 (router_dispatch Sample.rt Sample.middleware_all
                    (Sample.request "/bundled/app.ts.js") Sample.next_handler Sample.w0)
             BCC_Middleware_ts.BundleRegEx_default "app.ts.js" eq_refl eq_refl).
  - apply (proj1 (proj2 (proj2 (proj2 (router_dispatch Sample.rt Sample.middleware_only_compiled
                    (Sample.request "/bundled/app.ts.js") Sample.next_handler Sample.w0))))
             eq_refl eq_refl eq_refl).
Defined.

Example router_serves_bundle :
  fst (BCC_Middleware_ts.middleware Sample.rt Sample.middleware_all
         (Sample.request "/bundled/app.ts.js") Sample.next_handler Sample.w0)
  = Ok {| BCC_Middleware_ts.pathname := "/bundled/app.ts.js";
          BCC_Middleware_ts.response_body := Some "/*bundled*/let b: number = 2;";
          BCC_Middleware_ts.response_type := Some "text/javascript" |}.
Proof. vm_compute. reflexivity. Qed.

(** ** Stripping and reattaching the extension *)

Lemma list_ascii_of_string_app a b :
  String.list_ascii_of_string (a +:+ b)
  = String.list_ascii_of_string a ++ String.list_ascii_of_string b.
Proof. induction a as [|c a IH]; simpl; [done|]. by rewrite IH. Qed.

(** What [/.js$/] strips: the last three characters, whatever the first of
    them is, a line terminator apart. *)
Lemma strip_js_suffix p c :
  JS.is_line_terminator c = false -> JS.strip_js (p +:+ String c "js") = p.
Proof.
  intros Hc. unfold JS.strip_js. rewrite list_ascii_of_string_app. simpl.
  rewrite rev_app_distr. simpl. rewrite Hc. simpl.
  by rewrite rev_involutive, String.string_of_list_ascii_of_string.
Qed.

Lemma strip_js_dot_js p : JS.strip_js (p +:+ ".js") = p.
Proof. by apply strip_js_suffix. Qed.

(** Reattaching [.js] to the stripped identifier gives the identifier back
    exactly when it ends with [.js]. *)
Lemma reattach_iff s : JS.strip_js s +:+ ".js" = s <-> exists p, s = p +:+ ".js".
Proof.
  split.
  - intros H. by exists (JS.strip_js s).
  - intros [p ->]. by rewrite strip_js_dot_js.
Qed.

(** An identifier that ends with [.js] is not what the generator is given. *)
Lemma strip_js_changes p : JS.strip_js (p +:+ ".js") <> p +:+ ".js".
Proof.
  rewrite strip_js_dot_js. intros H.
  assert (Hl : String.length p = String.length (p +:+ ".js")) by (by rewrite <- H).
  revert Hl. clear H. induction p as [|c p IH]; simpl; [done|].
  intros [= Hl]. by apply IH.
Qed.

(** C7 at the inputs where the code fails it. The identifier [appjs] does
    not end with [.js], and the generator is given [ap]. For the identifier
    [app.ts], bundling writes [./bundled/app.ts.js] while the cache is read
    at [./bundled/app.ts]: the artifact is never found. For the identifier
    [app.ts.js], compiling writes [./compiled/app.ts], the extension not
    reattached, while the cache is read at [./compiled/app.ts.js]. *)
Theorem extension_normalization_mismatch :
  JS.strip_js "appjs" = "ap"
  /\ BCC_ts.cachedBundle Sample.rt Sample.all_kinds "app.ts" Sample.w0
     = (Ok (BCC_ts.failed_to_find "cachedBundle" "app.ts"),
        Deno.put_file ["srv"; "bundled"; "app.ts.js"] "/*bundled*/let b: number = 2;"
          {| files := files Sample.w0;
             dirs := dirs Sample.w0;
             trace := [EvReadTextFile "./bundled/app.ts";
                       EvBundle "./src/app.ts";
                       EvEnsureDir "bundled";
                       EvWriteTextFile "./bundled/app.ts.js" "/*bundled*/let b: number = 2;";
                       EvReadTextFile "./bundled/app.ts"] |})
  /\ fst (BCC_ts.cachedCompile Sample.rt Sample.all_kinds "app.ts.js" Sample.w0)
     = Ok (BCC_ts.failed_to_find "cachedCompile" "app.ts.js")
  /\ trace (snd (BCC_ts.cachedCompile Sample.rt Sample.all_kinds "app.ts.js" Sample.w0))
     = [EvReadTextFile "./compiled/app.ts.js";
        EvCompile "./src/app.ts";
        EvEnsureDir "compiled";
        EvWriteTextFile "./compiled/app.ts" "/*compiled*/let b: number = 2;";
        EvReadTextFile "./compiled/app.ts.js"].
Proof.
  split; [reflexivity|]. split; [|split].
  - vm_compute. reflexivity.
  - vm_compute. reflexivity.
  - vm_compute. reflexivity.
Qed.

(** ** Reading through the cache *)

(** When the generator leaves an artifact at the planned path, the first
    request returns it and a second request returns the same text from the
    cache: its only entry in the log is one read. *)
Lemma cacheOrGen_read_through (rt : Runtime) script path generator functionName w w1 data :
  JS.truthy (Some path) = true ->
  files w !! Deno.locate rt path = None ->
  generator (JS.strip_js script) (log (EvReadTextFile path) w) = (Ok tt, w1) ->
  files w1 !! Deno.locate rt path = Some data ->
  let first := BCC_ts.cacheOrGen rt script (Some path) generator functionName w in
  first = (Ok data, log (EvReadTextFile path) w1)
  /\ BCC_ts.cacheOrGen rt script (Some path) generator functionName (snd first)
     = (Ok data, log (EvReadTextFile path) (snd first)).
Proof.
  intros Ht Hf Hg Hf1 first.
  assert (E : first = (Ok data, log (EvReadTextFile path) w1)).
  { by apply cacheOrGen_generated. }
  split; [exact E|]. rewrite E. simpl snd.
  by apply cacheOrGen_hit.
Qed.

(** With only [compiledFolder] set and the source [src/app] in place, the
    first [cachedCompile] of [app] calls the compiler once and leaves the
    artifact at [compiled/app]; the second returns the same text and calls
    no generator. *)
Example compile_app_end_to_end :
  let first := BCC_ts.cachedCompile Sample.rt Sample.only_compiled "app" Sample.w_bare in
  let second := BCC_ts.cachedCompile Sample.rt Sample.only_compiled "app" (snd first) in
  fst first = Ok "/*compiled*/let a = 1;"
  /\ files (snd first) !! ["srv"; "compiled"; "app"] = Some "/*compiled*/let a = 1;"
  /\ count_events is_generator_event (trace (snd first)) = 1
  /\ fst second = Ok "/*compiled*/let a = 1;"
  /\ count_events is_generator_event (trace (snd second)) = 1
  /\ files (snd second) = files (snd first).
Proof. intros; repeat split; vm_compute; reflexivity. Qed.

(** The remote cache on a registered handle: one fetch, then none. *)
Example script_cache_end_to_end :
  let first := BCC_ts.scriptCache Sample.rt Sample.with_lib "utils.js" "lib" Sample.w_bare in
  let second := BCC_ts.scriptCache Sample.rt Sample.with_lib "utils.js" "lib" (snd first) in
  fst first = Ok "/*remote*//cache/lib/utils.js"
  /\ trace (snd first)
     = [EvReadTextFile "./cache/lib/14ef994fa167d355bdaf9b44add54b87";
        EvFetch "https://cdn.example/lib/utils.js";
        EvEnsureDir "cache/lib/";
        EvWriteTextFile "cache/lib/14ef994fa167d355bdaf9b44add54b87"
          "/*remote*//cache/lib/utils.js";
        EvReadTextFile "./cache/lib/14ef994fa167d355bdaf9b44add54b87"]
  /\ fst second = fst first
  /\ count_events is_fetch_event (trace (snd second)) = 1.
Proof. intros; repeat split; vm_compute; reflexivity. Qed.

(** With the cache folder an absolute path, the entry is written there and
    read under the working directory: the text for a missing file comes
    back although the fetch and the write went well. *)
Example script_cache_absolute_folder :
  let first := BCC_ts.scriptCache Sample.rt Sample.absolute_cache "utils.js" "lib" Sample.w0 in
  fst first = Ok (BCC_ts.missing_file "utils.js" "lib")
  /\ trace (snd first)
     = [EvReadTextFile ".//var/cache/lib/14ef994fa167d355bdaf9b44add54b87";
        EvFetch "https://cdn.example/lib/utils.js";
        EvEnsureDir "/var/cache/lib/";
        EvWriteTextFile "/var/cache/lib/14ef994fa167d355bdaf9b44add54b87"
          "/*remote*/https://cdn.example/lib/utils.js";
        EvReadTextFile ".//var/cache/lib/14ef994fa167d355bdaf9b44add54b87"]
  /\ files (snd first) !! ["var"; "cache"; "lib"; "14ef994fa167d355bdaf9b44add54b87"]
     = Some "/*remote*/https://cdn.example/lib/utils.js"
  /\ files (snd first) !! ["srv"; "var"; "cache"; "lib"; "14ef994fa167d355bdaf9b44add54b87"]
     = None.
Proof. intros; repeat split; vm_compute; reflexivity. Qed.

(** C1 at an input where the code fails it. The kind is enabled and the
    source [src/app.ts] is in place. The first [cachedBundle] of [app.ts]
    calls the bundler once, but the artifact goes to [bundled/app.ts.js] and
    not to the planned path [bundled/app.ts], and the text returned is the
    one for a file not found. The second request finds no artifact either
    and calls the bundler again. *)
Theorem read_through_broken_for_bundle :
  let first := BCC_ts.cachedBundle Sample.rt Sample.all_kinds "app.ts" Sample.w0 in
  let second := BCC_ts.cachedBundle Sample.rt Sample.all_kinds "app.ts" (snd first) in
  BCC_ts.valid Sample.rt Sample.all_kinds (Some "app.ts") Sample.w0
  = (Ok true, log (EvExists "./src/app.ts") Sample.w0)
  /\ fst first = Ok (BCC_ts.failed_to_find "cachedBundle" "app.ts")
  /\ count_events is_generator_event (trace (snd first)) = 1
  /\ files (snd first) !! ["srv"; "bundled"; "app.ts"] = None
  /\ files (snd first) !! ["srv"; "bundled"; "app.ts.js"]
     = Some "/*bundled*/let b: number = 2;"
  /\ fst second = Ok (BCC_ts.failed_to_find "cachedBundle" "app.ts")
  /\ count_events is_generator_event (trace (snd second)) = 2.
Proof. intros; repeat split; vm_compute; reflexivity. Qed.

(** ** The two engines *)

Section same_store_lemmas.
Context (rt : Runtime).

Lemma same_store_refl w : same_store w w.
Proof. done. Qed.

Lemma same_store_log_l e w w' : same_store w w' -> same_store (log e w) w'.
Proof. done. Qed.

Lemma same_store_log_r e w w' : same_store w w' -> same_store w (log e w').
Proof. done. Qed.

Lemma same_outcome_refl {A} (x : Res A * World) : same_outcome x x.
Proof. done. Qed.

Lemma is_dir_same w w' k : same_store w w' -> Deno.is_dir w k = Deno.is_dir w' k.
Proof. intros [_ Hd]. unfold Deno.is_dir. by rewrite Hd. Qed.

Lemma is_file_same w w' k : same_store w w' -> Deno.is_file w k = Deno.is_file w' k.
Proof. intros [Hf _]. unfold Deno.is_file. by rewrite Hf. Qed.

Lemma blocked_same w w' k : same_store w w' -> Deno.blocked w k = Deno.blocked w' k.
Proof.
  intros H. unfold Deno.blocked.
  induction (Path.ancestors_or_self k) as [|a l IH]; simpl; [done|].
  by rewrite IH, (is_file_same w w' a H).
Qed.

Lemma readTextFile_same p p' w w' :
  Deno.locate rt p = Deno.locate rt p' -> same_store w w' ->
  same_outcome (Deno.readTextFile rt p w) (Deno.readTextFile rt p' w').
Proof.
  intros Hp [Hf Hd]. unfold Deno.readTextFile. rewrite Hp, Hf.
  by destruct (files w' !! Deno.locate rt p').
Qed.

Lemma writeTextFile_same p p' data w w' :
  Deno.locate rt p = Deno.locate rt p' -> same_store w w' ->
  same_outcome (Deno.writeTextFile rt p data w) (Deno.writeTextFile rt p' data w').
Proof.
  intros Hp H. unfold Deno.writeTextFile. rewrite Hp.
  rewrite !(is_dir_same w w' _ H). destruct H as [Hf Hd].
  destruct (Deno.is_dir w' (Deno.locate rt p')); [done|].
  destruct (Deno.is_dir w' (removelast (Deno.locate rt p'))); [|done].
  split; [done|]. split; simpl; by rewrite ?Hf, ?Hd.
Qed.

Lemma ensureDir_same p p' w w' :
  Deno.locate rt p = Deno.locate rt p' -> same_store w w' ->
  same_outcome (fs.ensureDir rt p w) (fs.ensureDir rt p' w').
Proof.
  intros Hp H. unfold fs.ensureDir.
  rewrite Hp, (blocked_same w w' _ H), (is_file_same w w' _ H).
  destruct H as [Hf Hd].
  destruct (Deno.blocked w' (Deno.locate rt p')); [done|].
  split; [done|]. split; simpl; by rewrite ?Hf, ?Hd.
Qed.

(** On a directory that is there, [ensureDir] changes the log only. *)
Lemma ensureDir_ready p w :
  dir_ready w (Deno.locate rt p) ->
  same_outcome (fs.ensureDir rt p w) (Ok tt, w).
Proof.
  intros [Hb Ha]. unfold fs.ensureDir. rewrite Hb.
  split; [done|]. split; simpl; [done|].
  apply set_eq. intros x. rewrite elem_of_union, elem_of_list_to_set.
  split; [|by left]. intros [|Hx]; [done|].
  by eapply Forall_forall in Ha.
Qed.

Lemma bind_same {A B} (m m' : M A) (k k' : A -> M B) w w' :
  same_outcome (m w) (m' w') ->
  (forall a w1 w1', same_store w1 w1' -> same_outcome (k a w1) (k' a w1')) ->
  same_outcome (bind m k w) (bind m' k' w').
Proof.
  intros [Hr Hs] Hk. unfold bind.
  destruct (m w) as [[a|e] w1], (m' w') as [[a'|e'] w1']; simpl in *; try done.
  - injection Hr as <-. by apply Hk.
  - by injection Hr as <-.
Qed.

Lemma try_catch_same {A} (m m' : M A) (h h' : Error -> M A) w w' :
  same_outcome (m w) (m' w') ->
  (forall e w1 w1', same_store w1 w1' -> same_outcome (h e w1) (h' e w1')) ->
  same_outcome (try_catch m h w) (try_catch m' h' w').
Proof.
  intros [Hr Hs] Hh. unfold try_catch.
  destruct (m w) as [[a|e] w1], (m' w') as [[a'|e'] w1']; simpl in *; try done.
  injection Hr as <-. by apply Hh.
Qed.

Lemma ret_same {A} (a : A) w w' : same_store w w' -> same_outcome (ret a w) (ret a w').
Proof. done. Qed.
End same_store_lemmas.

(** Path resolution does not see a leading [./] of a relative path. *)
Lemma resolve_dot_slash cwd s :
  Path.is_absolute s = false -> Path.resolve cwd ("./" +:+ s) = Path.resolve cwd s.
Proof.
  intros Hs. unfold Path.resolve. rewrite Hs.
  change ("./" +:+ s) with (String "." (String "/" s)).
  cbn [Path.is_absolute Path.segments]. simpl Ascii.eqb. cbv iota.
  reflexivity.
Qed.

Section variants.
Context (rt : Runtime) (b : BCC_part_000.BCC).

Lemma truthy_nonempty s : s <> "" -> JS.truthy (Some s) = true.
Proof. by destruct s. Qed.

Lemma mapExternalSources_agree code :
  BCC_part_000.mapExternalSources b code = BCC_ts.mapExternalSources (toggled_of b) code.
Proof.
  unfold BCC_part_000.mapExternalSources, BCC_ts.mapExternalSources. simpl.
  destruct (BCC_part_000.mapSources b); [|done].
  revert code. induction (BCC_part_000.cacheMap b) as [|[handle source_] m IH]; intros code.
  - done.
  - simpl. apply IH.
Qed.

Lemma dir_ready_same w w' k : same_store w w' -> dir_ready w k -> dir_ready w' k.
Proof.
  intros H [Hb Ha]. split.
  - by rewrite <- (blocked_same w w' k H).
  - destruct H as [_ Hd]. by rewrite <- Hd.
Qed.

(** The second read of [cacheOrGen], in the two engines. *)
Lemma reread_same path functionName script w w' :
  same_store w w' ->
  same_outcome
    (try_catch (Deno.readTextFile rt path)
       (fun _ => ret (BCC_part_000.failed_to_find functionName script)) w)
    (try_catch (Deno.readTextFile rt path)
       (fun _ => ret (BCC_ts.failed_to_find functionName script)) w').
Proof.
  intros H. apply try_catch_same; [by apply readTextFile_same|].
  intros e w1 w1' H1. by apply ret_same.
Qed.

Lemma bundle_agree script w :
  BCC_part_000.bundleFolder b <> "" ->
  dir_ready w (Deno.locate rt (BCC_part_000.bundleFolder b)) ->
  same_outcome (BCC_part_000.bundle rt b script w) (BCC_ts.bundle rt (toggled_of b) script w).
Proof.
  intros Hne Hr.
  rewrite (bundle_outcome rt (toggled_of b) script w (truthy_nonempty _ Hne)).
  unfold BCC_part_000.bundle. simpl. unfold bind at 1. unfold Deno.bundle.
  destruct (Deno_bundle rt (files w) _) as [[[d|] emit]|e]; try done.
  unfold assert. rewrite bool_decide_eq_true_2 by done.
  unfold bind at 1. unfold ret at 1.
  set (w2 := log _ w).
  assert (Hr2 : dir_ready w2 (Deno.locate rt (BCC_part_000.bundleFolder b))).
  { by apply (dir_ready_same w w2). }
  destruct (ensureDir_ready rt _ w2 Hr2) as [He Hs]. unfold bind.
  destruct (fs.ensureDir rt (BCC_part_000.bundleFolder b) w2) as [[[]|e] w3];
    simpl in He; [|done].
  simpl in Hs. rewrite mapExternalSources_agree.
  apply writeTextFile_same; [done|]. destruct Hs as [Hf Hd]. by split.
Qed.
End variants.

Section variants_cached.
Context (rt : Runtime) (b : BCC_part_000.BCC).

Lemma cachedBundle_agree script w :
  BCC_part_000.bundleFolder b <> "" ->
  dir_ready w (Deno.locate rt (BCC_part_000.bundleFolder b)) ->
  same_outcome (BCC_part_000.cachedBundle rt b script w)
    (BCC_ts.cachedBundle rt (toggled_of b) script w).
Proof.
  intros Hne Hr.
  unfold BCC_part_000.cachedBundle, BCC_ts.cachedBundle.
  rewrite (bundle_enabled rt (toggled_of b) script (truthy_nonempty _ Hne)).
  unfold BCC_part_000.cacheOrGen, BCC_ts.cacheOrGen.
  rewrite truthy_planned. simpl JS.interp. simpl BCC_part_000.bundle_path.
  set (p := "./" +:+ BCC_part_000.bundleFolder b +:+ "/" +:+ script).
  unfold try_catch at 1 3. unfold Deno.readTextFile at 1 3.
  destruct (files w !! Deno.locate rt p); [done|].
  apply bind_same.
  - apply bundle_agree; [done|]. by apply (dir_ready_same w).
  - intros _ w1 w1' H1. by apply reread_same.
Qed.

Lemma cachedBundle_hit_agree script w data :
  BCC_part_000.bundleFolder b <> "" ->
  files w !! Deno.locate rt ("./" +:+ BCC_part_000.bundleFolder b +:+ "/" +:+ script)
  = Some data ->
  BCC_part_000.cachedBundle rt b script w
  = (Ok data, log (EvReadTextFile ("./" +:+ BCC_part_000.bundleFolder b +:+ "/" +:+ script)) w)
  /\ BCC_ts.cachedBundle rt (toggled_of b) script w
     = (Ok data,
        log (EvReadTextFile ("./" +:+ BCC_part_000.bundleFolder b +:+ "/" +:+ script)) w).
Proof.
  intros Hne Hf. split.
  - unfold BCC_part_000.cachedBundle, BCC_part_000.cacheOrGen, try_catch. simpl.
    by rewrite (readTextFile_hit rt _ w data Hf).
  - unfold BCC_ts.cachedBundle.
    rewrite (bundle_enabled rt (toggled_of b) script (truthy_nonempty _ Hne)).
    by apply cacheOrGen_hit.
Qed.

Lemma cachedCompile_hit_agree script w data :
  BCC_part_000.compiledFolder b <> "" ->
  files w !! Deno.locate rt ("./" +:+ BCC_part_000.compiledFolder b +:+ "/" +:+ script)
  = Some data ->
  BCC_part_000.cachedCompile rt b script w
  = (Ok data, log (EvReadTextFile ("./" +:+ BCC_part_000.compiledFolder b +:+ "/" +:+ script)) w)
  /\ BCC_ts.cachedCompile rt (toggled_of b) script w
     = (Ok data,
        log (EvReadTextFile ("./" +:+ BCC_part_000.compiledFolder b +:+ "/" +:+ script)) w).
Proof.
  intros Hne Hf. split.
  - unfold BCC_part_000.cachedCompile, BCC_part_000.cacheOrGen, try_catch. simpl.
    by rewrite (readTextFile_hit rt _ w data Hf).
  - unfold BCC_ts.cachedCompile.
    rewrite (compiled_enabled rt (toggled_of b) script (truthy_nonempty _ Hne)).
    by apply cacheOrGen_hit.
Qed.

Lemma scriptCache_hit_agree script handle w data :
  BCC_part_000.cacheFolder b <> "" ->
  files w !! Deno.locate rt (entry_uri rt (toggled_of b) script handle) = Some data ->
  BCC_part_000.scriptCache rt b script handle w
  = (Ok data, log (EvReadTextFile (entry_uri rt (toggled_of b) script handle)) w)
  /\ BCC_ts.scriptCache rt (toggled_of b) script handle w
     = (Ok data, log (EvReadTextFile (entry_uri rt (toggled_of b) script handle)) w).
Proof.
  intros Hne Hf. split.
  - unfold BCC_part_000.scriptCache, try_catch. cbv zeta.
    change ("./" +:+ BCC_part_000.cacheFolder b +:+ "/" +:+ handle +:+ "/" +:+ md5 rt script)
      with (entry_uri rt (toggled_of b) script handle).
    by rewrite (readTextFile_hit rt _ w data Hf).
  - apply scriptCache_hit; [|done]. by apply truthy_nonempty.
Qed.

(** With the cache folder named [cache], the place [updateCache] of the
    engine without toggles writes to is the place [scriptCache] reads. *)
Lemma scriptCache_agree script handle w :
  BCC_part_000.cacheFolder b = "cache" ->
  same_outcome (BCC_part_000.scriptCache rt b script handle w)
    (BCC_ts.scriptCache rt (toggled_of b) script handle w).
Proof.
  intros Hc. unfold BCC_part_000.scriptCache, BCC_ts.scriptCache.
  change (BCC_ts.cacheFolder (toggled_of b)) with (Some (BCC_part_000.cacheFolder b)).
  rewrite Hc. simpl JS.truthy. cbv iota zeta. simpl JS.interp.
  set (uri := "./" +:+ "cache" +:+ "/" +:+ handle +:+ "/" +:+ md5 rt script).
  apply try_catch_same; [by apply readTextFile_same|].
  intros _ w1 w1' H1. apply bind_same.
  - unfold BCC_part_000.updateCache, BCC_ts.updateCache.
    change (BCC_ts.cacheFolder (toggled_of b)) with (Some (BCC_part_000.cacheFolder b)).
    change (BCC_ts.cacheMap (toggled_of b)) with (BCC_part_000.cacheMap b).
    rewrite Hc. simpl JS.truthy. simpl negb. cbv iota.
    change (JS.interp (Some "cache")) with "cache".
    apply bind_same.
    + unfold fetch. split; [done|]. by destruct H1.
    + intros resp w2 w2' H2. rewrite mapExternalSources_agree. apply bind_same.
      * apply ensureDir_same; [|done].
        change ("./cache/" +:+ handle +:+ "/")
          with ("./" +:+ ("cache" +:+ "/" +:+ handle +:+ "/")).
        by apply resolve_dot_slash.
      * intros _ w3 w3' H3. apply writeTextFile_same; [|done].
        change ("./cache/" +:+ handle +:+ "/" +:+ md5 rt script)
          with ("./" +:+ ("cache" +:+ "/" +:+ handle +:+ "/" +:+ md5 rt script)).
        by apply resolve_dot_slash.
  - intros _ w2 w2' H2. apply try_catch_same; [by apply readTextFile_same|].
    intros e w3 w3' H3. by apply ret_same.
Qed.

Lemma clears_agree w :
  folders_set b ->
  BCC_part_000.clearBundleCache rt b w = BCC_ts.clearBundleCache rt (toggled_of b) w
  /\ BCC_part_000.clearCompileCache rt b w = BCC_ts.clearCompileCache rt (toggled_of b) w
  /\ BCC_part_000.clearExternalCache rt b w = BCC_ts.clearExternalCache rt (toggled_of b) w
  /\ BCC_part_000.clearAllCache rt b w = BCC_ts.clearAllCache rt (toggled_of b) w.
Proof.
  intros (Hb & Hc & Hx).
  assert (Eb : forall w', BCC_part_000.clearBundleCache rt b w'
                          = BCC_ts.clearBundleCache rt (toggled_of b) w').
  { intros w'. unfold BCC_part_000.clearBundleCache, BCC_ts.clearBundleCache. simpl.
    by destruct (BCC_part_000.bundleFolder b). }
      assert (Ec : forall w', BCC_part_000.clearCompileCache rt b w'
                              = BCC_ts.clearCompileCache rt (toggled_of b) w').
  { intros w'. unfold BCC_part_000.clearCompileCache, BCC_ts.clearCompileCache. simpl.
    by destruct (BCC_part_000.compiledFolder b). }
      assert (Ex : forall w', BCC_part_000.clearExternalCache rt b w'
                              = BCC_ts.clearExternalCache rt (toggled_of b) w').
  { intros w'. unfold BCC_part_000.clearExternalCache, BCC_ts.clearExternalCache. simpl.
    by destruct (BCC_part_000.cacheFolder b). }
      repeat split; try done.
  unfold BCC_part_000.clearAllCache, BCC_ts.clearAllCache. cbn [promise_all].
  rewrite <- Eb.
  destruct (BCC_part_000.clearBundleCache rt b w) as [[[]|e1] w1];
    rewrite <- Ec;
    destruct (BCC_part_000.clearCompileCache rt b w1) as [[[]|e2] w2];
    unfold BCC_ts.clearTranspileCache; simpl; unfold ret;
    rewrite <- Ex;
    by destruct (BCC_part_000.clearExternalCache rt b w2) as [[[]|e3] w3].
Qed.
End variants_cached.

(** C9, as the code has it. With every folder set, the engine without
    toggles and the engine with toggles agree on the three clear operations
    and on [clearAllCache], on the rewriting of sources and on
    [validSource], and on every request answered from the cache. On a miss
    [cachedBundle] gives the same result and leaves the same files when the
    bundle folder is there already, and [scriptCache] does when the cache
    folder is named [cache]. Nothing is said of a miss of [cachedCompile]. *)
Theorem variants_agree_where_shared (rt : Runtime) (b : BCC_part_000.BCC) (w : World) :
  folders_set b ->
  (BCC_part_000.clearBundleCache rt b w = BCC_ts.clearBundleCache rt (toggled_of b) w
   /\ BCC_part_000.clearCompileCache rt b w = BCC_ts.clearCompileCache rt (toggled_of b) w
   /\ BCC_part_000.clearExternalCache rt b w = BCC_ts.clearExternalCache rt (toggled_of b) w
   /\ BCC_part_000.clearAllCache rt b w = BCC_ts.clearAllCache rt (toggled_of b) w)
  /\ (forall code,
        BCC_part_000.mapExternalSources b code
        = BCC_ts.mapExternalSources (toggled_of b) code)
  /\ (forall handle,
        BCC_part_000.validSource b handle = BCC_ts.validSource (toggled_of b) handle)
  /\ (forall script data,
        files w !! Deno.locate rt ("./" +:+ BCC_part_000.bundleFolder b +:+ "/" +:+ script)
        = Some data ->
        BCC_part_000.cachedBundle rt b script w
        = BCC_ts.cachedBundle rt (toggled_of b) script w)
  /\ (forall script data,
        files w !! Deno.locate rt ("./" +:+ BCC_part_000.compiledFolder b +:+ "/" +:+ script)
        = Some data ->
        BCC_part_000.cachedCompile rt b script w
        = BCC_ts.cachedCompile rt (toggled_of b) script w)
  /\ (forall script handle data,
        files w !! Deno.locate rt (entry_uri rt (toggled_of b) script handle) = Some data ->
        BCC_part_000.scriptCache rt b script handle w
        = BCC_ts.scriptCache rt (toggled_of b) script handle w)
  /\ (forall script,
        dir_ready w (Deno.locate rt (BCC_part_000.bundleFolder b)) ->
        same_outcome (BCC_part_000.cachedBundle rt b script w)
          (BCC_ts.cachedBundle rt (toggled_of b) script w))
  /\ (forall script handle,
        BCC_part_000.cacheFolder b = "cache" ->
        same_outcome (BCC_part_000.scriptCache rt b script handle w)
          (BCC_ts.scriptCache rt (toggled_of b) script handle w)).
Proof.
  intros Hset. pose proof Hset as (Hb & Hc & Hx).
  split; [by apply clears_agree|].
  split; [apply mapExternalSources_agree|].
  split; [done|].
  split; [|split; [|split; [|split]]].
  - intros script data Hf.
    destruct (cachedBundle_hit_agree rt b script w data Hb Hf) as [-> ->]. done.
  - intros script data Hf.
    destruct (cachedCompile_hit_agree rt b script w data Hc Hf) as [-> ->]. done.
  - intros script handle data Hf.
    destruct (scriptCache_hit_agree rt b script handle w data Hx Hf) as [-> ->]. done.
  - intros script Hr. by apply cachedBundle_agree.
  - intros script handle Hcache. by apply scriptCache_agree.
Qed.

Lemma variants_agree_where_shared_witness :
  same_outcome (BCC_part_000.cachedBundle Sample.rt Sample.plain "app.ts.js" Sample.w0)
    (BCC_ts.cachedBundle Sample.rt (toggled_of Sample.plain) "app.ts.js" Sample.w0)
  /\ same_outcome (BCC_part_000.scriptCache Sample.rt Sample.plain "utils.js" "lib" Sample.w0)
       (BCC_ts.scriptCache Sample.rt (toggled_of Sample.plain) "utils.js" "lib" Sample.w0).
Proof.
  assert (Hset : folders_set Sample.plain) by (repeat split; discriminate).
  split.
  - apply (proj1 (proj2 (proj2 (proj2 (proj2 (proj2 (proj2
             (variants_agree_where_shared Sample.rt Sample.plain Sample.w0 Hset)))))))
             "app.ts.js").
    split; [reflexivity|].
    repeat constructor; vm_compute; apply elem_of_union; set_solver.
  - apply (proj2 (proj2 (proj2 (proj2 (proj2 (proj2 (proj2
             (variants_agree_where_shared Sample.rt Sample.plain Sample.w0 Hset)))))))
             "utils.js" "lib" eq_refl).
Defined.

(** C9, as the claim has it, fails: on a miss, [cachedCompile] of
    [app.ts.js] returns the compiled text in the engine without toggles,
    which writes [compiled/app.ts.js], and the text for a file not found in
    the engine with toggles, which writes [compiled/app.ts]. *)
Lemma variants_differ_counterexample :
  ~ (forall (rt : Runtime) (b : BCC_part_000.BCC) (script handle : string) (w : World),
       folders_set b ->
       same_outcome (BCC_part_000.cachedBundle rt b script w)
         (BCC_ts.cachedBundle rt (toggled_of b) script w)
       /\ same_outcome (BCC_part_000.cachedCompile rt b script w)
            (BCC_ts.cachedCompile rt (toggled_of b) script w)
       /\ same_outcome (BCC_part_000.scriptCache rt b script handle w)
            (BCC_ts.scriptCache rt (toggled_of b) script handle w)
       /\ same_outcome (BCC_part_000.clearAllCache rt b w)
            (BCC_ts.clearAllCache rt (toggled_of b) w)).
Proof.
  intros H.
  assert (Hset : folders_set Sample.plain) by (repeat split; discriminate).
  destruct (H Sample.rt Sample.plain "app.ts.js" "lib" Sample.w0 Hset) as (_ & [Hn _] & _).
  vm_compute in Hn. discriminate Hn.
Qed.

Example variants_differ_compile :
  fst (BCC_part_000.cachedCompile Sample.rt Sample.plain "app.ts.js" Sample.w0)
  = Ok "/*compiled*/let b: number = 2;"
  /\ fst (BCC_ts.cachedCompile Sample.rt (toggled_of Sample.plain) "app.ts.js" Sample.w0)
     = Ok (BCC_ts.failed_to_find "cachedCompile" "app.ts.js").
Proof. split; vm_compute; reflexivity. Qed.

(** Without the bundle folder in place the engine without toggles fails to
    write, where the engine with toggles creates the folder. *)
Example variants_differ_bundle_folder :
  fst (BCC_part_000.cachedBundle Sample.rt Sample.plain "app.ts.js" Sample.w_bare)
  = Throw NotFound
  /\ fst (BCC_ts.cachedBundle Sample.rt (toggled_of Sample.plain) "app.ts.js" Sample.w_bare)
     = Ok "/*bundled*/let b: number = 2;".
Proof. split; vm_compute; reflexivity. Qed.

(** ** Rewriting the addresses of remote sources *)

Section string_lemmas.

Lemma app_cons c s t : String c s +:+ t = String c (s +:+ t).
Proof. reflexivity. Qed.

Lemma app_nil_l_string s : "" +:+ s = s.
Proof. reflexivity. Qed.

Lemma app_nil_r_string s : s +:+ "" = s.
Proof. induction s as [|c s IH]; [done|]. by rewrite app_cons, IH. Qed.

Lemma app_assoc_string s t v : (s +:+ t) +:+ v = s +:+ t +:+ v.
Proof. induction s as [|c s IH]; [done|]. by rewrite !app_cons, IH. Qed.

Lemma length_app_string s t : String.length (s +:+ t) = String.length s + String.length t.
Proof. induction s as [|c s IH]; [done|]. rewrite app_cons. simpl. by rewrite IH. Qed.

Lemma prefix_cons a u b s :
  String.prefix (String a u) (String b s)
  = if Ascii.ascii_dec a b then String.prefix u s else false.
Proof. reflexivity. Qed.

Lemma prefix_nil_l s : String.prefix "" s = true.
Proof. by destruct s. Qed.

Lemma prefix_app_same u rest : String.prefix u (u +:+ rest) = true.
Proof.
  induction u as [|a u IH]; [apply prefix_nil_l|].
  rewrite app_cons, prefix_cons. by destruct (Ascii.ascii_dec a a).
Qed.

(** Whether [u] begins a text is decided by as many characters as [u] has. *)
Lemma prefix_app_enough u x y :
  String.length u <= String.length x -> String.prefix u (x +:+ y) = String.prefix u x.
Proof.
  revert x. induction u as [|a u IH]; intros x Hl.
  - by rewrite !prefix_nil_l.
  - destruct x as [|b x]; simpl in Hl; [lia|].
    rewrite app_cons, !prefix_cons. destruct (Ascii.ascii_dec a b); [|done].
    apply IH. lia.
Qed.

Lemma drop_string_app u rest : JS.drop_string (String.length u) (u +:+ rest) = rest.
Proof. induction u as [|a u IH]; [done|]. rewrite app_cons. simpl. exact IH. Qed.
End string_lemmas.

Section replaceAll_lemmas.
Context (u r : string).

Lemma GetSubstitution_dollar_free matched before after :
  dollar_free r = true -> JS.GetSubstitution matched before after r = r.
Proof.
  unfold dollar_free. induction r as [|c t IH]; [done|].
  cbn [occurs]. rewrite prefix_cons, prefix_nil_l.
  destruct (Ascii.ascii_dec "$" c) as [<-|Hc]; [done|].
  intros Ht. cbn [JS.GetSubstitution].
  destruct (Ascii.eqb_spec c "$") as [->|_]; [done|].
  by rewrite (IH Ht).
Qed.

Lemma replace_scan_skip x before rest :
  JS.replace_scan u r before (String.length x) (x +:+ rest)
  = JS.replace_scan u r (before +:+ x) 0 rest.
Proof.
  revert before. induction x as [|c x IH]; intros before.
  - by rewrite app_nil_r_string.
  - rewrite app_cons. cbn [String.length JS.replace_scan]. rewrite IH.
    by rewrite app_assoc_string.
Qed.
End replaceAll_lemmas.

Lemma replaceAll_nonempty (u r s : string) :
  u <> "" -> JS.replaceAll u r s = JS.replace_scan u r "" 0 s.
Proof. intros H. unfold JS.replaceAll. by destruct u. Qed.

Section replaceAll_pieces.
Context (u r : string).
Hypothesis u_nonempty : u <> "".
Hypothesis r_dollar_free : dollar_free r = true.

(** At an occurrence the replacement is put and the scan goes on after it. *)
Lemma replace_scan_match before rest :
  JS.replace_scan u r before 0 (u +:+ rest)
  = r +:+ JS.replace_scan u r (before +:+ u) 0 rest.
Proof.
  destruct u as [|a u'] eqn:Eu; [done|].
  rewrite app_cons. cbn [JS.replace_scan].
  rewrite <- app_cons, prefix_app_same.
  rewrite GetSubstitution_dollar_free by exact r_dollar_free.
  f_equal.
  replace (String.length (String a u') - 1) with (String.length u') by (simpl; lia).
  rewrite replace_scan_skip. by rewrite app_assoc_string.
Qed.

(** Where [u] does not begin, the character is kept. *)
Lemma replace_scan_keep before c s :
  String.prefix u (String c s) = false ->
  JS.replace_scan u r before 0 (String c s)
  = String c (JS.replace_scan u r (before +:+ String c "") 0 s).
Proof. intros H. cbn [JS.replace_scan]. by rewrite H. Qed.

(** A piece in which [u] does not occur early is kept up to the occurrence
    that follows it. *)
Lemma replace_scan_piece p before rest :
  no_early u p = true ->
  JS.replace_scan u r before 0 (p +:+ u +:+ rest)
  = p +:+ JS.replace_scan u r (before +:+ p) 0 (u +:+ rest).
Proof.
  revert before. induction p as [|c p IH]; intros before Hp.
  - by rewrite app_nil_r_string.
  - cbn [no_early] in Hp. apply andb_true_iff in Hp as [Hc Hp].
    apply negb_true_iff in Hc.
    rewrite !app_cons. rewrite replace_scan_keep.
    + rewrite (IH _ Hp). by rewrite app_assoc_string.
    + rewrite <- app_cons, <- app_assoc_string.
      rewrite prefix_app_enough; [exact Hc|].
      rewrite length_app_string. lia.
Qed.

(** A text in which [u] does not occur is kept. *)
Lemma replace_scan_last before last :
  occurs u last = false -> JS.replace_scan u r before 0 last = last.
Proof.
  revert before. induction last as [|c s IH]; intros before Ho; [done|].
  cbn [occurs] in Ho. apply orb_false_iff in Ho as [Hc Hs].
  rewrite replace_scan_keep by exact Hc. by rewrite (IH _ Hs).
Qed.

Lemma replace_scan_stitch pieces last before :
  Forall (fun p => no_early u p = true) pieces ->
  occurs u last = false ->
  JS.replace_scan u r before 0 (stitch u pieces last) = stitch r pieces last.
Proof.
  intros Hp Hl. revert before.
  induction Hp as [|p ps Hp _ IH]; intros before; cbn [stitch].
  - by apply replace_scan_last.
  - rewrite (replace_scan_piece p before _ Hp), replace_scan_match. by rewrite IH.
Qed.

(** Every occurrence of [u] is replaced by [r]. *)
Lemma replaceAll_stitch pieces last :
  Forall (fun p => no_early u p = true) pieces ->
  occurs u last = false ->
  JS.replaceAll u r (stitch u pieces last) = stitch r pieces last.
Proof.
  intros Hp Hl. rewrite replaceAll_nonempty by exact u_nonempty.
  by apply replace_scan_stitch.
Qed.
End replaceAll_pieces.

(** C3, as the code has it. With rewriting off, [mapExternalSources] is
    the identity. With rewriting on, the pairs of the registry are applied
    one after the other in the order of their insertion, each by
    [replaceAll] on the text the pairs before it left. For a registry of one
    pair, with a base address that is not empty and a replacement in which
    no dollar stands, every occurrence of the base address in the input,
    taken from the left and without overlap, is replaced by
    [{cacheRoot}/{handle}/] and the rest is kept. Nothing is said of the
    occurrences of a base address in the output. *)
Theorem rewrite_in_registry_order (this : BCC_ts.BCC) (code : string) :
  (BCC_ts.mapSources this = false -> BCC_ts.mapExternalSources this code = code)
  /\ (BCC_ts.mapSources this = true ->
      BCC_ts.mapExternalSources this code
      = fold_left
          (fun c2 entry =>
             JS.replaceAll (snd entry)
               (JS.interp (BCC_ts.cacheRoot this) +:+ "/" +:+ fst entry +:+ "/") c2)
          (BCC_ts.cacheMap this) code)
  /\ (forall handle source_ pieces last,
        BCC_ts.mapSources this = true ->
        BCC_ts.cacheMap this = [(handle, source_)] ->
        source_ <> "" ->
        dollar_free (JS.interp (BCC_ts.cacheRoot this) +:+ "/" +:+ handle +:+ "/") = true ->
        Forall (fun p => no_early source_ p = true) pieces ->
        occurs source_ last = false ->
        code = stitch source_ pieces last ->
        BCC_ts.mapExternalSources this code
        = stitch (JS.interp (BCC_ts.cacheRoot this) +:+ "/" +:+ handle +:+ "/") pieces last).
Proof.
  split; [|split].
  - intros H. unfold BCC_ts.mapExternalSources. by rewrite H.
  - intros H. unfold BCC_ts.mapExternalSources. rewrite H.
    generalize code. induction (BCC_ts.cacheMap this) as [|[handle source_] m IH]; intros c.
    + done.
    + simpl. apply IH.
  - intros handle source_ pieces last Hm Hc Hne Hd Hp Hl ->.
    unfold BCC_ts.mapExternalSources. rewrite Hm, Hc. simpl.
    by apply replaceAll_stitch.
Qed.

Lemma rewrite_in_registry_order_witness :
  BCC_ts.mapExternalSources Sample.with_lib
    "import a from 'https://cdn.example/lib/a.js'; import b from 'https://cdn.example/lib/b.js';"
  = "import a from '/cache/lib/a.js'; import b from '/cache/lib/b.js';".
Proof.
  apply (proj2 (proj2 (rewrite_in_registry_order Sample.with_lib _))
           "lib" "https://cdn.example/lib/"
           ["import a from '"; "a.js'; import b from '"] "b.js';"
           eq_refl eq_refl ltac:(discriminate) eq_refl
           ltac:(repeat constructor) eq_refl eq_refl).
Defined.

(** C3, as the claim has it, fails. The registry holds [https://deno.land/]
    under [std] and then [https://deno.land/x/] under [x]. The import of
    [https://deno.land/x/oak/mod.ts] is rewritten by the first pair, so that
    the occurrence of the second base address is not replaced by
    [/cache/x/]. *)
Lemma rewrite_counterexample :
  ~ (forall (this : BCC_ts.BCC) (code : string),
       (BCC_ts.mapSources this = false -> BCC_ts.mapExternalSources this code = code)
       /\ (BCC_ts.mapSources this = true ->
           forall handle source_,
             In (handle, source_) (BCC_ts.cacheMap this) ->
             (occurs source_ code = true ->
              occurs (JS.interp (BCC_ts.cacheRoot this) +:+ "/" +:+ handle +:+ "/")
                (BCC_ts.mapExternalSources this code) = true)
             /\ occurs source_ (BCC_ts.mapExternalSources this code) = false)).
Proof.
  intros H.
  destruct (H Sample.overlapping "import 'https://deno.land/x/oak/mod.ts'") as [_ H2].
  destruct (H2 eq_refl "x" "https://deno.land/x/") as [Hr _].
  - right. left. reflexivity.
  - specialize (Hr eq_refl). vm_compute in Hr. discriminate Hr.
Qed.

Example rewrite_overlapping :
  BCC_ts.mapExternalSources Sample.overlapping "import 'https://deno.land/x/oak/mod.ts'"
  = "import '/cache/std/x/oak/mod.ts'".
Proof. reflexivity. Qed.

(** A base address that its own replacement contains is still there
    after the rewriting. *)
Example rewrite_keeps_base_address :
  BCC_ts.mapExternalSources Sample.site_relative "import '/lib/a.js'"
  = "import '/cache/lib/a.js'"
  /\ occurs "/lib/" (BCC_ts.mapExternalSources Sample.site_relative "import '/lib/a.js'") = true.
Proof. split; reflexivity. Qed.

(** Dollar patterns of the replacement are expanded: a handle [$&] brings
    the base address back. *)
Example rewrite_dollar_handle :
  BCC_ts.mapExternalSources (BCC_ts.addCacheSource Sample.all_kinds "$&" "https://a.example/")
    "import 'https://a.example/m.js'"
  = "import '/cache/https://a.example//m.js'".
Proof. reflexivity. Qed.

(** * Further properties of the code *)

(** ** The registry of remote sources *)

Section registry.

Lemma map_get_set_eq k v m : JS.map_get k (JS.map_set k v m) = Some v.
Proof.
  induction m as [|[k' v'] m IH]; simpl.
  - by rewrite String.eqb_refl.
  - destruct (String.eqb k' k) eqn:E; simpl; rewrite E; [done|exact IH].
Qed.

Lemma map_get_set_ne k k' v m :
  k' <> k -> JS.map_get k' (JS.map_set k v m) = JS.map_get k' m.
Proof.
  intros Hne. induction m as [|[k0 v0] m IH]; simpl.
  - destruct (String.eqb_spec k k'); [congruence|done].
  - destruct (String.eqb_spec k0 k) as [->|Hk]; simpl.
    + destruct (String.eqb_spec k k'); [congruence|done].
    + destruct (String.eqb k0 k'); [done|exact IH].
Qed.

Lemma map_get_None_keys k m : JS.map_get k m = None <-> k ∉ map fst m.
Proof.
  induction m as [|[k0 v0] m IH]; simpl.
  - split; [intros _; apply not_elem_of_nil|done].
  - rewrite not_elem_of_cons. destruct (String.eqb_spec k0 k) as [->|Hk].
    + split; [done|]. intros [H _]. by destruct H.
    + rewrite IH. split; [intros H; split; [congruence|done]|by intros [_ H]].
Qed.

Lemma map_set_present k v m :
  JS.map_has k m = true -> map fst (JS.map_set k v m) = map fst m.
Proof.
  unfold JS.map_has. induction m as [|[k0 v0] m IH]; simpl; [done|].
  destruct (String.eqb k0 k) eqn:E; simpl; [done|].
  intros H. by rewrite (IH H).
Qed.

Lemma map_set_absent k v m :
  JS.map_has k m = false -> JS.map_set k v m = m ++ [(k, v)].
Proof.
  unfold JS.map_has. induction m as [|[k0 v0] m IH]; simpl; [done|].
  destruct (String.eqb k0 k) eqn:E; simpl; [done|].
  intros H. by rewrite (IH H).
Qed.

Lemma map_set_NoDup k v m : NoDup (map fst m) -> NoDup (map fst (JS.map_set k v m)).
Proof.
  intros Hm. destruct (JS.map_has k m) eqn:E.
  - by rewrite map_set_present.
  - rewrite (map_set_absent k v m E), map_app. simpl.
    apply NoDup_app. split; [done|]. split; [|apply NoDup_singleton].
    intros x Hx Hx'. apply list_elem_of_singleton in Hx'. subst x.
    unfold JS.map_has in E. destruct (JS.map_get k m) eqn:G; [done|].
    by apply map_get_None_keys in G.
Qed.

Lemma register_all_mapSources this regs :
  BCC_ts.mapSources (register_all this regs) = BCC_ts.mapSources this.
Proof.
  revert this. induction regs as [|[h s] regs IH]; intros this; [done|].
  simpl. by rewrite IH.
Qed.

Lemma register_all_NoDup this regs :
  NoDup (map fst (BCC_ts.cacheMap this)) ->
  NoDup (map fst (BCC_ts.cacheMap (register_all this regs))).
Proof.
  revert this. induction regs as [|[h s] regs IH]; intros this Hn; [done|].
  simpl. apply IH. simpl. by apply map_set_NoDup.
Qed.
End registry.

(** X1. A handle that is registered is a valid source from then on and is
    mapped to the address given last; the other handles keep what they had.
    An engine just constructed has no valid source. *)
Theorem registry_round_trip (this : BCC_ts.BCC) (handle source_ : string) :
  BCC_ts.validSource (BCC_ts.addCacheSource this handle source_) handle = true
  /\ JS.map_get handle (BCC_ts.cacheMap (BCC_ts.addCacheSource this handle source_))
     = Some source_
  /\ (forall other,
        other <> handle ->
        JS.map_get other (BCC_ts.cacheMap (BCC_ts.addCacheSource this handle source_))
        = JS.map_get other (BCC_ts.cacheMap this)
        /\ BCC_ts.validSource (BCC_ts.addCacheSource this handle source_) other
           = BCC_ts.validSource this other)
  /\ (forall settings, BCC_ts.validSource (BCC_ts.constructor settings) handle = false).
Proof.
  split; [|split; [|split]].
  - unfold BCC_ts.validSource, JS.map_has. simpl. by rewrite map_get_set_eq.
  - simpl. apply map_get_set_eq.
  - intros other Hne. unfold BCC_ts.validSource, JS.map_has. simpl.
    by rewrite (map_get_set_ne handle other source_ _ Hne).
  - done.
Qed.

Lemma registry_round_trip_witness :
  JS.map_get "std" (BCC_ts.cacheMap (BCC_ts.addCacheSource Sample.with_lib "x" "https://deno.land/x/"))
  = JS.map_get "std" (BCC_ts.cacheMap Sample.with_lib).
Proof.
  apply (proj1 (proj2 (proj2 (registry_round_trip Sample.with_lib "x" "https://deno.land/x/")))
           "std" ltac:(discriminate)).
Defined.

(** X2. The registry never holds a handle twice. Registering a handle that
    is there already keeps the handles and their order (only the address
    changes), registering a new one puts it last; so the order in which
    [mapExternalSources] goes through the registry is the order of the first
    registrations. *)
Theorem registry_handles_distinct (this : BCC_ts.BCC) (handle source_ : string) :
  (BCC_ts.validSource this handle = true ->
   map fst (BCC_ts.cacheMap (BCC_ts.addCacheSource this handle source_))
   = map fst (BCC_ts.cacheMap this))
  /\ (BCC_ts.validSource this handle = false ->
      BCC_ts.cacheMap (BCC_ts.addCacheSource this handle source_)
      = BCC_ts.cacheMap this ++ [(handle, source_)])
  /\ (forall settings regs,
        NoDup (map fst (BCC_ts.cacheMap (register_all (BCC_ts.constructor settings) regs)))).
Proof.
  split; [|split].
  - intros H. simpl. by apply map_set_present.
  - intros H. simpl. by apply map_set_absent.
  - intros settings regs. apply register_all_NoDup. simpl. apply NoDup_nil_2.
Qed.

Lemma registry_handles_distinct_witness :
  map fst (BCC_ts.cacheMap (BCC_ts.addCacheSource Sample.overlapping "std" "https://other.example/"))
  = ["std"; "x"]
  /\ BCC_ts.cacheMap (BCC_ts.addCacheSource Sample.with_lib "x" "https://deno.land/x/")
     = [("lib", "https://cdn.example/lib/"); ("x", "https://deno.land/x/")].
Proof.
  split.
  - apply (proj1 (registry_handles_distinct Sample.overlapping "std" "https://other.example/")
             eq_refl).
  - apply (proj1 (proj2 (registry_handles_distinct Sample.with_lib "x" "https://deno.land/x/"))
             eq_refl).
Defined.

(** ** Rewriting that changes nothing *)

(** X3. Rewriting is off unless the settings turn it on: when [mapSources]
    is absent or false, [mapExternalSources] returns the code as it is,
    however many sources have been registered. *)
Theorem rewriting_off_by_default (settings : BCC_ts.BCC_Settings.t)
    (regs : list (string * string)) (code : string) :
  BCC_ts.BCC_Settings.mapSources settings <> Some true ->
  BCC_ts.mapExternalSources (register_all (BCC_ts.constructor settings) regs) code = code.
Proof.
  intros H. unfold BCC_ts.mapExternalSources. rewrite register_all_mapSources. simpl.
  by destruct (BCC_ts.BCC_Settings.mapSources settings) as [[]|].
Qed.

Lemma rewriting_off_by_default_witness :
  BCC_ts.mapExternalSources
    (register_all (BCC_ts.constructor Sample.only_compiled_settings)
       [("lib", "https://cdn.example/lib/")])
    "import 'https://cdn.example/lib/a.js'"
  = "import 'https://cdn.example/lib/a.js'".
Proof.
  apply (rewriting_off_by_default Sample.only_compiled_settings
           [("lib", "https://cdn.example/lib/")]).
  discriminate.
Defined.

Lemma replaceAll_absent u r s :
  u <> "" -> occurs u s = false -> JS.replaceAll u r s = s.
Proof.
  intros Hu Ho. rewrite (replaceAll_nonempty u r s Hu). by apply replace_scan_last.
Qed.

(** X4. With rewriting on, a code in which no registered base address
    occurs is returned as it is (the base addresses not being empty). *)
Theorem rewrite_identity_without_references (this : BCC_ts.BCC) (code : string) :
  (forall handle source_,
     In (handle, source_) (BCC_ts.cacheMap this) ->
     source_ <> "" /\ occurs source_ code = false) ->
  BCC_ts.mapExternalSources this code = code.
Proof.
  intros H. unfold BCC_ts.mapExternalSources.
  destruct (BCC_ts.mapSources this); [|done].
  induction (BCC_ts.cacheMap this) as [|[handle source_] m IH]; [done|].
  simpl. destruct (H handle source_) as [Hne Ho]; [by left|].
  rewrite (replaceAll_absent _ _ _ Hne Ho). apply IH.
  intros h u Hin. apply (H h u). by right.
Qed.

Lemma rewrite_identity_without_references_witness :
  BCC_ts.mapExternalSources Sample.overlapping "import './local.ts'" = "import './local.ts'".
Proof.
  apply rewrite_identity_without_references.
  intros handle source_ [[= <- <-]|[[= <- <-]|[]]]; split; (discriminate || reflexivity).
Defined.

(** ** The normalisation of the identifier *)

Lemma string_of_list_ascii_app l1 l2 :
  String.string_of_list_ascii (l1 ++ l2)
  = String.string_of_list_ascii l1 +:+ String.string_of_list_ascii l2.
Proof. induction l1 as [|c l1 IH]; simpl; [done|]. by rewrite IH. Qed.

(** X5. What the generator is given: when the identifier is any text
    followed by one character that is no line terminator and by [js], these
    three characters are dropped, whether the character is a dot or not; in
    every other case the identifier is passed on as it is. *)
Theorem strip_js_spec (s : string) :
  (forall p c,
     s = p +:+ String c "js" -> JS.is_line_terminator c = false -> JS.strip_js s = p)
  /\ (JS.strip_js s <> s ->
      exists c, JS.is_line_terminator c = false /\ s = JS.strip_js s +:+ String c "js")
  /\ String.length (JS.strip_js s) <= String.length s.
Proof.
  assert (Hcases : JS.strip_js s = s
                   \/ exists c, JS.is_line_terminator c = false
                                /\ s = JS.strip_js s +:+ String c "js").
  { unfold JS.strip_js.
    destruct (rev (String.list_ascii_of_string s)) as [|c2 [|c1 [|c0 rest]]] eqn:E;
      try (by left).
    destruct (Ascii.eqb_spec c2 "s") as [->|]; [|by left].
    destruct (Ascii.eqb_spec c1 "j") as [->|]; [|by left].
    destruct (JS.is_line_terminator c0) eqn:Hc; [by left|].
    right. exists c0. split; [done|]. simpl.
    rewrite <- (String.string_of_list_ascii_of_string s) at 1.
    rewrite <- (rev_involutive (String.list_ascii_of_string s)), E. simpl.
    rewrite <- !app_assoc. by rewrite string_of_list_ascii_app. }
  split; [|split].
  - intros p c -> Hc. by apply strip_js_suffix.
  - intros Hne. by destruct Hcases.
  - destruct Hcases as [->|(c & _ & Hs)]; [done|].
    rewrite Hs at 2. rewrite length_app_string. lia.
Qed.

Lemma strip_js_spec_witness : JS.strip_js "lib/appxjs" = "lib/app".
Proof.
  apply (proj1 (strip_js_spec "lib/appxjs") "lib/app" "x"%char eq_refl eq_refl).
Defined.

(** ** What the generators leave in the file store *)

Section store_lemmas.
Context (rt : Runtime).

Lemma writeTextFile_Ok path data w w' :
  Deno.writeTextFile rt path data w = (Ok tt, w') ->
  w' = Deno.put_file (Deno.locate rt path) data (log (EvWriteTextFile path data) w).
Proof.
  unfold Deno.writeTextFile.
  destruct (Deno.is_dir w _); [done|]. destruct (Deno.is_dir w _); [|done].
  by intros [= <-].
Qed.

Lemma ensureDir_Ok path w w' :
  fs.ensureDir rt path w = (Ok tt, w') ->
  w' = Deno.mkdir_p (Deno.locate rt path) (log (EvEnsureDir path) w).
Proof.
  unfold fs.ensureDir. destruct (Deno.blocked w _); [done|]. by intros [= <-].
Qed.

(** A directory is ensured and a file written in it: the file holds the
    text and no other file has changed. *)
Lemma store_Ok dir path data w w' :
  (fs.ensureDir rt dir ;; Deno.writeTextFile rt path data) w = (Ok tt, w') ->
  files w' = <[Deno.locate rt path := data]> (files w).
Proof.
  unfold bind. destruct (fs.ensureDir rt dir w) as [[[]|e] w1] eqn:E1; [|done].
  intros E2. apply ensureDir_Ok in E1. apply writeTextFile_Ok in E2. by subst.
Qed.

Lemma compile_emit_files this dir folder emitMap w w' :
  BCC_ts.compile_emit rt this dir folder emitMap w = (Ok tt, w') ->
  files w'
  = match last emitMap with
    | Some resource =>
        <[Deno.locate rt dir := BCC_ts.mapExternalSources this (snd resource)]> (files w)
    | None => files w
    end.
Proof.
  revert w. induction emitMap as [|[resource text] rest IH]; intros w.
  - by intros [= <-].
  - cbn [BCC_ts.compile_emit]. unfold bind at 1.
    destruct (fs.ensureDir rt folder w) as [[[]|e] w1] eqn:E1; [|done].
    unfold bind at 1.
    destruct (Deno.writeTextFile rt dir _ w1) as [[[]|e] w2] eqn:E2; [|done].
    intros E3. apply IH in E3. apply ensureDir_Ok in E1. apply writeTextFile_Ok in E2.
    subst w1 w2. rewrite E3. clear E3.
    destruct rest as [|r2 rest']; [reflexivity|].
    change (last ((resource, text) :: r2 :: rest')) with (last (r2 :: rest')).
    destruct (last (r2 :: rest')) eqn:El.
    + simpl. by rewrite insert_insert_eq.
    + by apply last_None in El.
Qed.
End store_lemmas.

Lemma compile_files (rt : Runtime) (this : BCC_ts.BCC)
    (script : string) (emitMap : list (string * string)) (w w' : World) :
  JS.truthy (BCC_ts.compiledFolder this) = true ->
  Deno_compile rt (files w) ("./" +:+ BCC_ts.tsSource this +:+ "/" +:+ script)
  = Ok (None, emitMap) ->
  BCC_ts.compile rt this script w = (Ok tt, w') ->
  files w'
  = match last emitMap with
    | Some resource =>
        <[Deno.locate rt ("./" +:+ JS.interp (BCC_ts.compiledFolder this) +:+ "/" +:+ script)
          := BCC_ts.mapExternalSources this (snd resource)]> (files w)
    | None => files w
    end.
Proof.
  intros Ht Hc. rewrite (compile_outcome rt this script w Ht), Hc.
  intros He. by apply compile_emit_files in He.
Qed.

(** A run that returns a value, written with the world it ends in. *)
Lemma run_Ok {A} (m : M A) (w : World) (a : A) :
  fst (m w) = Ok a -> m w = (Ok a, snd (m w)).
Proof. destruct (m w) as [r w']. simpl. by intros ->. Qed.

(** X6. [compile] writes every emitted resource at the one path of the
    artifact, so that after a compile that ends well the artifact holds the
    last resource emitted, rewritten, and the earlier ones are lost; no
    other file is changed, and when nothing is emitted nothing is written. *)
Theorem compile_keeps_last_resource (rt : Runtime) (this : BCC_ts.BCC)
    (script : string) (emitMap : list (string * string)) (w w' : World) :
  JS.truthy (BCC_ts.compiledFolder this) = true ->
  Deno_compile rt (files w) ("./" +:+ BCC_ts.tsSource this +:+ "/" +:+ script)
  = Ok (None, emitMap) ->
  BCC_ts.compile rt this script w = (Ok tt, w') ->
  files w'
  = match last emitMap with
    | Some resource =>
        <[Deno.locate rt ("./" +:+ JS.interp (BCC_ts.compiledFolder this) +:+ "/" +:+ script)
          := BCC_ts.mapExternalSources this (snd resource)]> (files w)
    | None => files w
    end.
Proof. apply compile_files. Qed.

Lemma compile_keeps_last_resource_witness :
  files (snd (BCC_ts.compile rt_two_modules Sample.only_compiled "app" Sample.w_bare))
  = <[ ["srv"; "compiled"; "app"] := "/*dep*/export {};" ]> (files Sample.w_bare).
Proof.
  apply (compile_keeps_last_resource rt_two_modules Sample.only_compiled "app"
           [("./src/app.js", "/*root*/let a = 1;"); ("./src/dep.ts.js", "/*dep*/export {};")]
           Sample.w_bare _ eq_refl ltac:(vm_compute; reflexivity)
           (run_Ok (BCC_ts.compile rt_two_modules Sample.only_compiled "app") Sample.w_bare tt
              ltac:(vm_compute; reflexivity))).
Defined.

Section generator_files.
Context (rt : Runtime) (this : BCC_ts.BCC).

Lemma bundle_files script emit w w' :
  JS.truthy (BCC_ts.bundleFolder this) = true ->
  Deno_bundle rt (files w) ("./" +:+ BCC_ts.tsSource this +:+ "/" +:+ script)
  = Ok (None, emit) ->
  BCC_ts.bundle rt this script w = (Ok tt, w') ->
  files w'
  = <[Deno.locate rt
        (("./" +:+ JS.interp (BCC_ts.bundleFolder this) +:+ "/" +:+ script) +:+ ".js")
      := BCC_ts.mapExternalSources this emit]> (files w).
Proof.
  intros Ht Hb. rewrite (bundle_outcome rt this script w Ht), Hb.
  intros He. by apply store_Ok in He.
Qed.

Lemma mapExternalSources_undefined_Ok code :
  BCC_ts.mapExternalSources_undefined this = Ok code -> code = None.
Proof.
  unfold BCC_ts.mapExternalSources_undefined.
  destruct (BCC_ts.mapSources this); [destruct (BCC_ts.cacheMap this)|]; congruence.
Qed.

Lemma transpile_files script emit w w' :
  JS.truthy (BCC_ts.transpileFolder this) = true ->
  Deno_transpileOnly rt ("./" +:+ BCC_ts.tsSource this +:+ "/" +:+ script) = Ok emit ->
  BCC_ts.transpile rt this script w = (Ok tt, w') ->
  files w'
  = <[Deno.locate rt ("./" +:+ JS.interp (BCC_ts.transpileFolder this) +:+ "/" +:+ script)
      := EmptyString]> (files w).
Proof.
  intros Ht Hb. rewrite (transpile_outcome rt this script w Ht), Hb.
  destruct (BCC_ts.mapExternalSources_undefined this) as [code|e] eqn:Hm; [|done].
  apply mapExternalSources_undefined_Ok in Hm. subst code.
  intros He. by apply store_Ok in He.
Qed.

Lemma updateCache_files script src uri resp w w' :
  JS.truthy (BCC_ts.cacheFolder this) = true ->
  fetch_text rt (remote_url this script src) = Ok resp ->
  BCC_ts.updateCache rt this script src uri w = (Ok tt, w') ->
  files w'
  = <[Deno.locate rt
        (JS.interp (BCC_ts.cacheFolder this) +:+ "/" +:+ src +:+ "/" +:+ md5 rt script)
      := BCC_ts.mapExternalSources this resp]> (files w).
Proof.
  intros Ht Hb. rewrite (updateCache_outcome rt this script src uri w Ht), Hb.
  intros He. by apply store_Ok in He.
Qed.
End generator_files.

(** ** Requests that the cache does answer *)

(** X7. Where the identifier is passed to the compiler as it is (nothing
    is stripped), the compiled kind reads through: after a miss and a
    compile that ends well, [cachedCompile] returns the last resource
    emitted, rewritten, and a second [cachedCompile] of the same script
    returns the same text with one read and no call of the compiler. *)
Theorem compile_read_through (rt : Runtime) (this : BCC_ts.BCC) (script : string)
    (emitMap : list (string * string)) (resource : string * string) (w w1 : World) :
  let path := "./" +:+ JS.interp (BCC_ts.compiledFolder this) +:+ "/" +:+ script in
  JS.truthy (BCC_ts.compiledFolder this) = true ->
  JS.strip_js script = script ->
  files w !! Deno.locate rt path = None ->
  Deno_compile rt (files w) ("./" +:+ BCC_ts.tsSource this +:+ "/" +:+ script)
  = Ok (None, emitMap) ->
  last emitMap = Some resource ->
  BCC_ts.compile rt this script (log (EvReadTextFile path) w) = (Ok tt, w1) ->
  BCC_ts.cachedCompile rt this script w
  = (Ok (BCC_ts.mapExternalSources this (snd resource)), log (EvReadTextFile path) w1)
  /\ BCC_ts.cachedCompile rt this script (log (EvReadTextFile path) w1)
     = (Ok (BCC_ts.mapExternalSources this (snd resource)),
        log (EvReadTextFile path) (log (EvReadTextFile path) w1)).
Proof.
  intros path Ht Hs Hmiss Hc Hl Hg.
  assert (Hf : files w1 !! Deno.locate rt path
               = Some (BCC_ts.mapExternalSources this (snd resource))).
  { rewrite (compile_files rt this script emitMap (log (EvReadTextFile path) w) w1 Ht Hc Hg), Hl.
    apply lookup_insert_eq. }
  unfold BCC_ts.cachedCompile. rewrite (compiled_enabled rt this script Ht). fold path.
  split.
  - apply cacheOrGen_generated; [done|exact Hmiss| |exact Hf]. by rewrite Hs.
  - by apply cacheOrGen_hit.
Qed.

Lemma compile_read_through_witness :
  fst (BCC_ts.cachedCompile rt_two_modules Sample.only_compiled "app" Sample.w_bare)
  = Ok "/*dep*/export {};".
Proof.
  pose proof (compile_read_through rt_two_modules Sample.only_compiled "app"
                [("./src/app.js", "/*root*/let a = 1;"); ("./src/dep.ts.js", "/*dep*/export {};")]
                ("./src/dep.ts.js", "/*dep*/export {};") Sample.w_bare _
                eq_refl eq_refl ltac:(vm_compute; reflexivity)
                ltac:(vm_compute; reflexivity) eq_refl
                (run_Ok (BCC_ts.compile rt_two_modules Sample.only_compiled "app")
                   (log (EvReadTextFile "./compiled/app") Sample.w_bare) tt
                   ltac:(vm_compute; reflexivity))) as [H _].
  exact (f_equal fst H).
Defined.

(** X8. For an identifier that ends with [.js] the bundled kind reads
    through: the bundler is given the identifier without [.js], the bundle
    is written at the path that is read, [cachedBundle] returns it, rewritten,
    and a second [cachedBundle] returns the same text with one read and no
    call of the bundler. *)
Theorem bundle_read_through (rt : Runtime) (this : BCC_ts.BCC) (name : string)
    (emit : string) (w w1 : World) :
  let path := "./" +:+ JS.interp (BCC_ts.bundleFolder this) +:+ "/" +:+ name +:+ ".js" in
  JS.truthy (BCC_ts.bundleFolder this) = true ->
  files w !! Deno.locate rt path = None ->
  Deno_bundle rt (files w) ("./" +:+ BCC_ts.tsSource this +:+ "/" +:+ name) = Ok (None, emit) ->
  BCC_ts.bundle rt this name (log (EvReadTextFile path) w) = (Ok tt, w1) ->
  BCC_ts.cachedBundle rt this (name +:+ ".js") w
  = (Ok (BCC_ts.mapExternalSources this emit), log (EvReadTextFile path) w1)
  /\ BCC_ts.cachedBundle rt this (name +:+ ".js") (log (EvReadTextFile path) w1)
     = (Ok (BCC_ts.mapExternalSources this emit),
        log (EvReadTextFile path) (log (EvReadTextFile path) w1)).
Proof.
  intros path Ht Hmiss Hb Hg.
  assert (Hp : ("./" +:+ JS.interp (BCC_ts.bundleFolder this) +:+ "/" +:+ name) +:+ ".js"
               = path).
  { unfold path. by rewrite !app_assoc_string. }
  assert (Hf : files w1 !! Deno.locate rt path = Some (BCC_ts.mapExternalSources this emit)).
  { rewrite (bundle_files rt this name emit (log (EvReadTextFile path) w) w1 Ht Hb Hg), Hp.
    apply lookup_insert_eq. }
  unfold BCC_ts.cachedBundle.
  rewrite (bundle_enabled rt this (name +:+ ".js") Ht). fold path.
  split.
  - apply cacheOrGen_generated; [done|exact Hmiss| |exact Hf]. by rewrite strip_js_dot_js.
  - by apply cacheOrGen_hit.
Qed.

Lemma bundle_read_through_witness :
  fst (BCC_ts.cachedBundle Sample.rt Sample.all_kinds "app.ts.js" Sample.w_bare)
  = Ok "/*bundled*/let b: number = 2;".
Proof.
  pose proof (bundle_read_through Sample.rt Sample.all_kinds "app.ts"
                "/*bundled*/let b: number = 2;" Sample.w_bare _
                eq_refl ltac:(vm_compute; reflexivity) ltac:(vm_compute; reflexivity)
                (run_Ok (BCC_ts.bundle Sample.rt Sample.all_kinds "app.ts")
                   (log (EvReadTextFile "./bundled/app.ts.js") Sample.w_bare) tt
                   ltac:(vm_compute; reflexivity))) as [H _].
  exact (f_equal fst H).
Defined.

(** X9. The transpiled kind stores nothing of what the transpiler makes:
    [emit.source] is [undefined], the record having the one key [main.ts].
    Where nothing is stripped from the identifier, after a miss and a call
    of the transpiler that answers: a [transpile] that ends well leaves the
    empty text as the artifact, [cachedTranspile] returns the empty text,
    and a second [cachedTranspile] returns it again with one read and no
    call of the transpiler; with rewriting on and a source registered,
    [cachedTranspile] ends with the TypeError of [replaceAll] on
    [undefined], right after the call of the transpiler, and nothing is
    written. *)
Theorem transpile_read_through (rt : Runtime) (this : BCC_ts.BCC) (script : string)
    (emit : string) (w : World) :
  let path := "./" +:+ JS.interp (BCC_ts.transpileFolder this) +:+ "/" +:+ script in
  let src := "./" +:+ BCC_ts.tsSource this +:+ "/" +:+ script in
  JS.truthy (BCC_ts.transpileFolder this) = true ->
  JS.strip_js script = script ->
  files w !! Deno.locate rt path = None ->
  Deno_transpileOnly rt src = Ok emit ->
  (forall w1,
     BCC_ts.transpile rt this script (log (EvReadTextFile path) w) = (Ok tt, w1) ->
     files w1 = <[Deno.locate rt path := EmptyString]> (files w)
     /\ BCC_ts.cachedTranspile rt this script w
        = (Ok EmptyString, log (EvReadTextFile path) w1)
     /\ BCC_ts.cachedTranspile rt this script (log (EvReadTextFile path) w1)
        = (Ok EmptyString, log (EvReadTextFile path) (log (EvReadTextFile path) w1)))
  /\ (BCC_ts.mapSources this = true ->
      BCC_ts.cacheMap this <> [] ->
      BCC_ts.cachedTranspile rt this script w
      = (Throw ReplaceAllOfUndefined, log (EvTranspile src) (log (EvReadTextFile path) w))).
Proof.
  intros path src Ht Hs Hmiss Hc. split.
  - intros w1 Hg.
    pose proof (transpile_files rt this script emit (log (EvReadTextFile path) w) w1
                  Ht Hc Hg) as Hfiles.
    fold path in Hfiles. simpl in Hfiles.
    assert (Hf : files w1 !! Deno.locate rt path = Some EmptyString).
    { rewrite Hfiles. apply lookup_insert_eq. }
    split; [exact Hfiles|].
    unfold BCC_ts.cachedTranspile. rewrite (transpile_enabled rt this script Ht). fold path.
    split.
    + apply cacheOrGen_generated; [done|exact Hmiss| |exact Hf]. by rewrite Hs.
    + by apply cacheOrGen_hit.
  - intros Hm Hne.
    unfold BCC_ts.cachedTranspile. rewrite (transpile_enabled rt this script Ht). fold path.
    apply cacheOrGen_fault; [done|exact Hmiss|].
    rewrite Hs, (transpile_outcome rt this script _ Ht). fold src. rewrite Hc.
    unfold BCC_ts.mapExternalSources_undefined. rewrite Hm.
    by destruct (BCC_ts.cacheMap this).
Qed.

Lemma transpile_read_through_witness :
  BCC_ts.cachedTranspile Sample.rt Sample.with_lib "app.ts" Sample.w_bare
  = (Throw ReplaceAllOfUndefined,
     log (EvTranspile "./src/app.ts")
       (log (EvReadTextFile "./transpiled/app.ts") Sample.w_bare))
  /\ fst (BCC_ts.cachedTranspile Sample.rt Sample.all_kinds "app.ts" Sample.w_bare)
     = Ok EmptyString.
Proof.
  split.
  - apply (proj2 (transpile_read_through Sample.rt Sample.with_lib "app.ts"
                    "/*transpiled*/./src/app.ts" Sample.w_bare
                    eq_refl eq_refl ltac:(vm_compute; reflexivity) eq_refl));
      [reflexivity|discriminate].
  - destruct (proj1 (transpile_read_through Sample.rt Sample.all_kinds "app.ts"
                       "/*transpiled*/./src/app.ts" Sample.w_bare
                       eq_refl eq_refl ltac:(vm_compute; reflexivity) eq_refl)
                _
                (run_Ok (BCC_ts.transpile Sample.rt Sample.all_kinds "app.ts")
                   (log (EvReadTextFile "./transpiled/app.ts") Sample.w_bare) tt
                   ltac:(vm_compute; reflexivity))) as (_ & H & _).
    exact (f_equal fst H).
Defined.

Lemma is_absolute_app a b : a <> "" -> Path.is_absolute (a +:+ b) = Path.is_absolute a.
Proof. by destruct a. Qed.

Lemma truthy_interp_nonempty v : JS.truthy v = true -> JS.interp v <> "".
Proof. by destruct v as [[|c s]|]. Qed.

(** X10. With a cache folder that is a relative path, the cache of remote
    scripts reads through: after a miss, a fetch that answers and a write
    that ends well, [scriptCache] returns the fetched text, rewritten, and
    a second [scriptCache] of the same script and handle returns the same
    text with one read and no fetch. *)
Theorem scriptCache_read_through (rt : Runtime) (this : BCC_ts.BCC)
    (script handle resp : string) (w w1 : World) :
  let uri := entry_uri rt this script handle in
  JS.truthy (BCC_ts.cacheFolder this) = true ->
  Path.is_absolute (JS.interp (BCC_ts.cacheFolder this)) = false ->
  files w !! Deno.locate rt uri = None ->
  fetch_text rt (remote_url this script handle) = Ok resp ->
  BCC_ts.updateCache rt this script handle uri (log (EvReadTextFile uri) w) = (Ok tt, w1) ->
  BCC_ts.scriptCache rt this script handle w
  = (Ok (BCC_ts.mapExternalSources this resp), log (EvReadTextFile uri) w1)
  /\ BCC_ts.scriptCache rt this script handle (log (EvReadTextFile uri) w1)
     = (Ok (BCC_ts.mapExternalSources this resp),
        log (EvReadTextFile uri) (log (EvReadTextFile uri) w1)).
Proof.
  intros uri Ht Hrel Hmiss Hfetch Hu.
  assert (Hloc : Deno.locate rt uri
                 = Deno.locate rt (JS.interp (BCC_ts.cacheFolder this) +:+ "/" +:+ handle
                                   +:+ "/" +:+ md5 rt script)).
  { unfold uri, entry_uri, Deno.locate. apply resolve_dot_slash.
    rewrite is_absolute_app; [exact Hrel|by apply truthy_interp_nonempty]. }
  assert (Hf : files w1 !! Deno.locate rt uri = Some (BCC_ts.mapExternalSources this resp)).
  { rewrite (updateCache_files rt this script handle uri resp
               (log (EvReadTextFile uri) w) w1 Ht Hfetch Hu), Hloc.
    apply lookup_insert_eq. }
  split.
  - rewrite (scriptCache_miss rt this script handle w Ht Hmiss). fold uri.
    by rewrite Hu, Hf.
  - by apply scriptCache_hit.
Qed.

Lemma scriptCache_read_through_witness :
  fst (BCC_ts.scriptCache Sample.rt Sample.with_lib "utils.js" "lib" Sample.w_bare)
  = Ok "/*remote*//cache/lib/utils.js".
Proof.
  pose proof (scriptCache_read_through Sample.rt Sample.with_lib "utils.js" "lib"
                "/*remote*/https://cdn.example/lib/utils.js" Sample.w_bare _
                eq_refl eq_refl ltac:(vm_compute; reflexivity) eq_refl
                (run_Ok (BCC_ts.updateCache Sample.rt Sample.with_lib "utils.js" "lib"
                           "./cache/lib/14ef994fa167d355bdaf9b44add54b87")
                   (log (EvReadTextFile "./cache/lib/14ef994fa167d355bdaf9b44add54b87")
                      Sample.w_bare) tt
                   ltac:(vm_compute; reflexivity))) as [H _].
  exact (f_equal fst H).
Defined.

(** ** What the cached operations never touch *)

Section only_writes_lemmas.
Context (rt : Runtime).

Lemma only_writes_same_files k0 w w' : files w' = files w -> only_writes k0 w w'.
Proof. intros H k. by rewrite H. Qed.

Lemma only_writes_refl k0 w : only_writes k0 w w.
Proof. by apply only_writes_same_files. Qed.

Lemma only_writes_trans k0 w1 w2 w3 :
  only_writes k0 w1 w2 -> only_writes k0 w2 w3 -> only_writes k0 w1 w3.
Proof.
  intros H12 H23 k. destruct (H12 k) as [Ha Hb], (H23 k) as [Hc Hd]. split.
  - intros Hne. by rewrite (Hc Hne), (Ha Hne).
  - intros Hs. by apply Hd, Hb.
Qed.

Lemma only_writes_put k0 data w w' :
  files w' = files w -> only_writes k0 w (Deno.put_file k0 data w').
Proof.
  intros H k. simpl. rewrite H. split.
  - intros Hne. by rewrite lookup_insert_ne.
  - intros Hs. destruct (decide (k0 = k)) as [->|Hne].
    + rewrite lookup_insert_eq. by eexists.
    + by rewrite lookup_insert_ne.
Qed.

Lemma readTextFile_only_writes k0 path w :
  only_writes k0 w (snd (Deno.readTextFile rt path w)).
Proof.
  unfold Deno.readTextFile. destruct (files w !! _); by apply only_writes_same_files.
Qed.

Lemma ensureDir_only_writes k0 path w :
  only_writes k0 w (snd (fs.ensureDir rt path w)).
Proof.
  unfold fs.ensureDir. destruct (Deno.blocked w _); by apply only_writes_same_files.
Qed.

Lemma writeTextFile_only_writes path data w :
  only_writes (Deno.locate rt path) w (snd (Deno.writeTextFile rt path data w)).
Proof.
  unfold Deno.writeTextFile.
  destruct (Deno.is_dir w _); [by apply only_writes_same_files|].
  destruct (Deno.is_dir w _); [|by apply only_writes_same_files].
  by apply only_writes_put.
Qed.

Lemma bind_only_writes {A B} k0 (m : M A) (f : A -> M B) w :
  only_writes k0 w (snd (m w)) ->
  (forall a w', only_writes k0 w' (snd (f a w'))) ->
  only_writes k0 w (snd (bind m f w)).
Proof.
  intros Hm Hf. unfold bind. destruct (m w) as [[a|e] w']; simpl in *.
  - eapply only_writes_trans; [exact Hm|apply Hf].
  - exact Hm.
Qed.

Lemma try_catch_only_writes {A} k0 (m : M A) (h : Error -> M A) w :
  only_writes k0 w (snd (m w)) ->
  (forall e w', only_writes k0 w' (snd (h e w'))) ->
  only_writes k0 w (snd (try_catch m h w)).
Proof.
  intros Hm Hh. unfold try_catch. destruct (m w) as [[a|e] w']; simpl in *.
  - exact Hm.
  - eapply only_writes_trans; [exact Hm|apply Hh].
Qed.

Lemma store_only_writes dir path data w :
  only_writes (Deno.locate rt path) w
    (snd ((fs.ensureDir rt dir ;; Deno.writeTextFile rt path data) w)).
Proof.
  apply bind_only_writes; [apply ensureDir_only_writes|].
  intros _ w'. apply writeTextFile_only_writes.
Qed.

Lemma cacheOrGen_only_writes k0 script cachePath generator functionName w :
  (forall w', only_writes k0 w' (snd (generator (JS.strip_js script) w'))) ->
  only_writes k0 w (snd (BCC_ts.cacheOrGen rt script cachePath generator functionName w)).
Proof.
  intros Hg. unfold BCC_ts.cacheOrGen.
  destruct (JS.truthy cachePath); [|apply only_writes_refl].
  apply try_catch_only_writes; [apply readTextFile_only_writes|].
  intros _ w1. apply bind_only_writes; [apply Hg|].
  intros _ w2. apply try_catch_only_writes; [apply readTextFile_only_writes|].
  intros _ w3. apply only_writes_refl.
Qed.

Context (this : BCC_ts.BCC).

Lemma compile_emit_only_writes dir folder emitMap w :
  only_writes (Deno.locate rt dir) w (snd (BCC_ts.compile_emit rt this dir folder emitMap w)).
Proof.
  revert w. induction emitMap as [|[resource text] rest IH]; intros w.
  - apply only_writes_refl.
  - cbn [BCC_ts.compile_emit].
    apply bind_only_writes; [apply ensureDir_only_writes|]. intros _ w1.
    apply bind_only_writes; [apply writeTextFile_only_writes|]. intros _ w2. apply IH.
Qed.

Lemma compile_only_writes script w :
  only_writes
    (Deno.locate rt ("./" +:+ JS.interp (BCC_ts.compiledFolder this) +:+ "/" +:+ script))
    w (snd (BCC_ts.compile rt this script w)).
Proof.
  destruct (JS.truthy (BCC_ts.compiledFolder this)) eqn:Ht.
  - rewrite (compile_outcome rt this script w Ht).
    destruct (Deno_compile rt (files w) _) as [[[d|] emitMap]|e];
      try (by apply only_writes_same_files).
    eapply only_writes_trans; [|apply compile_emit_only_writes].
    by apply only_writes_same_files.
  - unfold BCC_ts.compile. rewrite Ht, orb_true_r. apply only_writes_refl.
Qed.

Lemma bundle_only_writes script w :
  only_writes
    (Deno.locate rt
       (("./" +:+ JS.interp (BCC_ts.bundleFolder this) +:+ "/" +:+ script) +:+ ".js"))
    w (snd (BCC_ts.bundle rt this script w)).
Proof.
  destruct (JS.truthy (BCC_ts.bundleFolder this)) eqn:Ht.
  - rewrite (bundle_outcome rt this script w Ht).
    destruct (Deno_bundle rt (files w) _) as [[[d|] emit]|e];
      try (by apply only_writes_same_files).
    eapply only_writes_trans; [|apply store_only_writes].
    by apply only_writes_same_files.
  - unfold BCC_ts.bundle. rewrite Ht, orb_true_r. apply only_writes_refl.
Qed.

Lemma transpile_only_writes script w :
  only_writes
    (Deno.locate rt ("./" +:+ JS.interp (BCC_ts.transpileFolder this) +:+ "/" +:+ script))
    w (snd (BCC_ts.transpile rt this script w)).
Proof.
  destruct (JS.truthy (BCC_ts.transpileFolder this)) eqn:Ht.
  - rewrite (transpile_outcome rt this script w Ht).
    destruct (Deno_transpileOnly rt _) as [emit|e];
      try (by apply only_writes_same_files).
    destruct (BCC_ts.mapExternalSources_undefined this) as [code|e];
      try (by apply only_writes_same_files).
    eapply only_writes_trans; [|apply store_only_writes].
    by apply only_writes_same_files.
  - unfold BCC_ts.transpile. rewrite Ht, orb_true_r. apply only_writes_refl.
Qed.

Lemma updateCache_only_writes script src uri w :
  only_writes
    (Deno.locate rt
       (JS.interp (BCC_ts.cacheFolder this) +:+ "/" +:+ src +:+ "/" +:+ md5 rt script))
    w (snd (BCC_ts.updateCache rt this script src uri w)).
Proof.
  destruct (JS.truthy (BCC_ts.cacheFolder this)) eqn:Ht.
  - rewrite (updateCache_outcome rt this script src uri w Ht).
    destruct (fetch_text rt _) as [resp|e]; try (by apply only_writes_same_files).
    eapply only_writes_trans; [|apply store_only_writes].
    by apply only_writes_same_files.
  - unfold BCC_ts.updateCache. rewrite Ht. apply only_writes_refl.
Qed.
End only_writes_lemmas.

(** X11. Whatever a cached operation meets (a hit, a miss, a fault, a
    disabled kind), the only file it can change is the artifact its
    generator writes, and it removes no file: the path made of the folder
    and the stripped identifier for compile and transpile, the same with
    [.js] for bundle, the folder, the handle and the digest for the remote
    cache. Every other file, the sources among them, is as it was. *)
Theorem cached_operations_only_write_artifact (rt : Runtime) (this : BCC_ts.BCC)
    (script handle : string) (w : World) :
  only_writes
    (Deno.locate rt
       ("./" +:+ JS.interp (BCC_ts.compiledFolder this) +:+ "/" +:+ JS.strip_js script))
    w (snd (BCC_ts.cachedCompile rt this script w))
  /\ only_writes
       (Deno.locate rt
          (("./" +:+ JS.interp (BCC_ts.bundleFolder this) +:+ "/" +:+ JS.strip_js script)
           +:+ ".js"))
       w (snd (BCC_ts.cachedBundle rt this script w))
  /\ only_writes
       (Deno.locate rt
          ("./" +:+ JS.interp (BCC_ts.transpileFolder this) +:+ "/" +:+ JS.strip_js script))
       w (snd (BCC_ts.cachedTranspile rt this script w))
  /\ only_writes
       (Deno.locate rt
          (JS.interp (BCC_ts.cacheFolder this) +:+ "/" +:+ handle +:+ "/" +:+ md5 rt script))
       w (snd (BCC_ts.scriptCache rt this script handle w)).
Proof.
  split; [|split; [|split]].
  - apply cacheOrGen_only_writes. intros w'. apply compile_only_writes.
  - apply cacheOrGen_only_writes. intros w'. apply bundle_only_writes.
  - apply cacheOrGen_only_writes. intros w'. apply transpile_only_writes.
  - unfold BCC_ts.scriptCache.
    destruct (JS.truthy (BCC_ts.cacheFolder this)); [|apply only_writes_refl].
    cbv zeta.
    apply try_catch_only_writes; [apply readTextFile_only_writes|].
    intros _ w1. apply bind_only_writes; [apply updateCache_only_writes|].
    intros _ w2. apply try_catch_only_writes; [apply readTextFile_only_writes|].
    intros _ w3. apply only_writes_refl.
Qed.

Lemma cached_operations_only_write_artifact_witness :
  files (snd (BCC_ts.cachedCompile Sample.rt Sample.all_kinds "app.ts" Sample.w_bare))
    !! ["srv"; "src"; "app.ts"]
  = files Sample.w_bare !! ["srv"; "src"; "app.ts"].
Proof.
  apply (proj1 (proj1 (cached_operations_only_write_artifact Sample.rt Sample.all_kinds
                         "app.ts" "lib" Sample.w_bare) ["srv"; "src"; "app.ts"])).
  vm_compute. discriminate.
Defined.

(** ** Clearing the caches *)

Section clear_lemmas.
Context (rt : Runtime).

Lemma emptyDir_trace path w :
  trace (snd (fs.emptyDir rt path w)) = trace w ++ [EvEmptyDir path].
Proof.
  unfold fs.emptyDir. destruct (Deno.is_file w _); [done|].
  destruct (Deno.is_dir w _); [done|]. by destruct (Deno.blocked w _).
Qed.

(** Each promise runs, and the log is that of all of them in turn. *)
Lemma promise_all_trace (ps : list (M unit)) (ts : list (list Event)) w :
  Forall2 (fun p t => forall w', trace (snd (p w')) = trace w' ++ t) ps ts ->
  trace (snd (promise_all ps w)) = trace w ++ concat ts.
Proof.
  intros H. revert w. induction H as [|p t ps ts Hp _ IH]; intros w.
  - simpl. by rewrite app_nil_r.
  - cbn [promise_all concat]. specialize (Hp w).
    destruct (p w) as [[[]|e] w']; simpl in *; rewrite IH, Hp; by rewrite app_assoc.
Qed.

Lemma clear_folder_trace folder w :
  trace (snd ((if negb (JS.truthy folder) then ret tt
               else fs.emptyDir rt ("./" +:+ JS.interp folder +:+ "/")) w))
  = trace w ++ match (if JS.truthy folder
                      then Some ("./" +:+ JS.interp folder +:+ "/") else None) with
               | Some path => [EvEmptyDir path]
               | None => []
               end.
Proof.
  destruct (JS.truthy folder); simpl.
  - apply emptyDir_trace.
  - by rewrite app_nil_r.
Qed.
End clear_lemmas.

(** X12. [clearAllCache] empties each configured folder once, in the order
    bundle, compile, transpile, external, and calls nothing else; a folder
    that is not configured is left alone, and a fault in emptying one folder
    does not keep the others from being emptied. *)
Theorem clearAllCache_empties_each_configured_folder (rt : Runtime) (this : BCC_ts.BCC)
    (w : World) :
  trace (snd (BCC_ts.clearAllCache rt this w))
  = trace w ++ map EvEmptyDir (configured_folders this).
Proof.
  unfold BCC_ts.clearAllCache.
  rewrite (promise_all_trace _
             (map (fun folder =>
                     match (if JS.truthy folder
                            then Some ("./" +:+ JS.interp folder +:+ "/") else None) with
                     | Some path => [EvEmptyDir path]
                     | None => []
                     end)
                [BCC_ts.bundleFolder this; BCC_ts.compiledFolder this;
                 BCC_ts.transpileFolder this; BCC_ts.cacheFolder this])).
  - f_equal. unfold configured_folders. simpl.
    destruct (JS.truthy (BCC_ts.bundleFolder this)),
      (JS.truthy (BCC_ts.compiledFolder this)),
      (JS.truthy (BCC_ts.transpileFolder this)),
      (JS.truthy (BCC_ts.cacheFolder this)); reflexivity.
  - simpl. repeat constructor; intros w'; apply clear_folder_trace.
Qed.

(** A bundle folder that is a file makes its clearing fail; the compiled
    folder is emptied all the same. *)
Example clearAllCache_goes_on_after_fault :
  let w := {| files := {[ ["srv"; "bundled"] := "not a folder";
                          ["srv"; "compiled"; "app"] := "/*old*/" ]};
              dirs := {[ ["srv"]; ["srv"; "compiled"] ]};
              trace := [] |} in
  fst (BCC_ts.clearAllCache Sample.rt Sample.all_kinds w) = Throw NotADirectory
  /\ files (snd (BCC_ts.clearAllCache Sample.rt Sample.all_kinds w))
       !! ["srv"; "compiled"; "app"] = None.
Proof. intros; repeat split; vm_compute; reflexivity. Qed.

Section path_lemmas.

Lemma segments_nonempty s : Path.segments s <> [].
Proof.
  induction s as [|c s IH]; simpl; [done|].
  destruct (Ascii.eqb c "/"); [done|]. by destruct (Path.segments s).
Qed.

Lemma segments_app_slash a b :
  Path.segments (a +:+ "/" +:+ b) = Path.segments a ++ Path.segments b.
Proof.
  induction a as [|c a IH]; [done|].
  rewrite app_cons. cbn [Path.segments]. rewrite IH.
  destruct (Ascii.eqb c "/"); [done|].
  pose proof (segments_nonempty a). by destruct (Path.segments a).
Qed.

Lemma segments_no_slash s : no_slash s = true -> Path.segments s = [s].
Proof.
  induction s as [|c s IH]; [done|]. cbn [no_slash Path.segments].
  intros [Hc Hs]%andb_true_iff. apply negb_true_iff in Hc. rewrite Hc.
  by rewrite (IH Hs).
Qed.

Lemma enter_plain stack s : plain_name s = true -> Path.enter stack s = stack ++ [s].
Proof.
  unfold plain_name, Path.enter.
  intros [[[_ H1]%andb_true_iff H2]%andb_true_iff H3]%andb_true_iff.
  apply negb_true_iff in H1, H2, H3. by rewrite H1, H2, H3.
Qed.

(** A plain name after a path and a slash is a file of that directory. *)
Lemma resolve_in_folder cwd a s :
  a <> "" -> plain_name s = true ->
  Path.resolve cwd (a +:+ "/" +:+ s) = Path.resolve cwd a ++ [s].
Proof.
  intros Ha Hs. unfold Path.resolve.
  rewrite (is_absolute_app a _ Ha), segments_app_slash.
  rewrite (segments_no_slash s).
  - rewrite fold_left_app. simpl. by apply enter_plain.
  - unfold plain_name in Hs. by repeat (apply andb_true_iff in Hs as [Hs _]).
Qed.

(** A slash at the end of a path changes nothing. *)
Lemma resolve_trailing_slash cwd a :
  a <> "" -> Path.resolve cwd (a +:+ "/") = Path.resolve cwd a.
Proof.
  intros Ha. unfold Path.resolve.
  rewrite (is_absolute_app a _ Ha).
  change (a +:+ "/") with (a +:+ "/" +:+ "").
  rewrite segments_app_slash, fold_left_app. reflexivity.
Qed.

Lemma is_prefix_app k l : Path.is_prefix k (k ++ l) = true.
Proof. induction k as [|a k IH]; simpl; [done|]. by rewrite String.eqb_refl. Qed.

Lemma strictly_below_child k s : Path.strictly_below k (k ++ [s]) = true.
Proof.
  unfold Path.strictly_below. rewrite is_prefix_app, length_app. simpl.
  destruct (Nat.eqb_spec (length k + 1) (length k)); [lia|done].
Qed.
End path_lemmas.

Section clear_then_miss.
Context (rt : Runtime).

Lemma emptyDir_existing path w :
  Deno.is_file w (Deno.locate rt path) = false ->
  Deno.is_dir w (Deno.locate rt path) = true ->
  fs.emptyDir rt path w
  = (Ok tt, Deno.remove_below (Deno.locate rt path) (log (EvEmptyDir path) w)).
Proof. intros Hf Hd. unfold fs.emptyDir. by rewrite Hf, Hd. Qed.

Lemma remove_below_lookup k w j :
  files (Deno.remove_below k w) !! j
  = if Path.strictly_below k j then None else files w !! j.
Proof.
  simpl. apply option_eq. intros x. rewrite map_lookup_filter_Some. simpl.
  destruct (Path.strictly_below k j).
  - split; [by intros [_ H]|done].
  - split; [by intros [H _]|done].
Qed.

Lemma compile_starts this script w :
  JS.truthy (BCC_ts.compiledFolder this) = true ->
  extends (log (EvCompile ("./" +:+ BCC_ts.tsSource this +:+ "/" +:+ script)) w)
    (snd (BCC_ts.compile rt this script w)).
Proof.
  intros Ht. rewrite (compile_outcome rt this script w Ht).
  destruct (Deno_compile rt (files w) _) as [[[d|] emitMap]|e]; try apply extends_refl.
  apply compile_emit_extends.
Qed.

Lemma cacheOrGen_miss_extends script path generator functionName w w0 :
  JS.truthy (Some path) = true ->
  files w !! Deno.locate rt path = None ->
  extends w0 (snd (generator (JS.strip_js script) (log (EvReadTextFile path) w))) ->
  extends w0 (snd (BCC_ts.cacheOrGen rt script (Some path) generator functionName w)).
Proof.
  intros Ht Hmiss Hg. unfold BCC_ts.cacheOrGen, try_catch. rewrite Ht. simpl JS.interp.
  rewrite (readTextFile_miss rt path w Hmiss). unfold bind.
  destruct (generator (JS.strip_js script) _) as [[[]|e] w1]; simpl in *; [|exact Hg].
  eapply extends_trans; [exact Hg|].
  destruct (Deno.readTextFile rt path w1) as [[data|e] w2] eqn:E.
  - pose proof (readTextFile_extends rt path w1) as H. by rewrite E in H.
  - simpl. pose proof (readTextFile_extends rt path w1) as H. by rewrite E in H.
Qed.
End clear_then_miss.

(** X13. Clearing the compiled cache, when the compiled folder is there,
    removes every file below the folder and no other file. After it, the
    artifact of a script with a plain name is gone, and the next
    [cachedCompile] of that script calls the compiler again. *)
Theorem clear_then_compile_again (rt : Runtime) (this : BCC_ts.BCC) (script : string)
    (w : World) :
  let folder := "./" +:+ JS.interp (BCC_ts.compiledFolder this) +:+ "/" in
  let path := "./" +:+ JS.interp (BCC_ts.compiledFolder this) +:+ "/" +:+ script in
  let w' := snd (BCC_ts.clearCompileCache rt this w) in
  JS.truthy (BCC_ts.compiledFolder this) = true ->
  plain_name script = true ->
  Deno.is_file w (Deno.locate rt folder) = false ->
  Deno.is_dir w (Deno.locate rt folder) = true ->
  fst (BCC_ts.clearCompileCache rt this w) = Ok tt
  /\ (forall k,
        files w' !! k
        = if Path.strictly_below (Deno.locate rt folder) k then None else files w !! k)
  /\ files w' !! Deno.locate rt path = None
  /\ extends
       (log (EvCompile ("./" +:+ BCC_ts.tsSource this +:+ "/" +:+ JS.strip_js script))
          (log (EvReadTextFile path) w'))
       (snd (BCC_ts.cachedCompile rt this script w')).
Proof.
  intros folder path w' Ht Hplain Hfile Hdir.
  assert (Hclear : BCC_ts.clearCompileCache rt this w
                   = (Ok tt, Deno.remove_below (Deno.locate rt folder)
                               (log (EvEmptyDir folder) w))).
  { unfold BCC_ts.clearCompileCache. rewrite Ht. simpl negb. cbv iota.
    by apply emptyDir_existing. }
  assert (Hlook : forall k,
             files w' !! k
             = if Path.strictly_below (Deno.locate rt folder) k then None else files w !! k).
  { intros k. unfold w'. rewrite Hclear. simpl snd. by rewrite remove_below_lookup. }
  assert (Hbelow : Path.strictly_below (Deno.locate rt folder) (Deno.locate rt path) = true).
  { unfold folder, path, Deno.locate.
    rewrite <- !(app_assoc_string "./").
    rewrite resolve_trailing_slash by (by destruct (JS.interp (BCC_ts.compiledFolder this))).
    rewrite resolve_in_folder;
      [apply strictly_below_child|by destruct (JS.interp (BCC_ts.compiledFolder this))|done]. }
  assert (Hgone : files w' !! Deno.locate rt path = None).
  { by rewrite Hlook, Hbelow. }
  split; [by rewrite Hclear|]. split; [exact Hlook|]. split; [exact Hgone|].
  unfold BCC_ts.cachedCompile. rewrite (compiled_enabled rt this script Ht). fold path.
  apply cacheOrGen_miss_extends; [done|exact Hgone|].
  by apply compile_starts.
Qed.

Lemma clear_then_compile_again_witness :
  let w := snd (BCC_ts.cachedCompile Sample.rt Sample.only_compiled "app" Sample.w_bare) in
  files (snd (BCC_ts.clearCompileCache Sample.rt Sample.only_compiled w))
    !! ["srv"; "compiled"; "app"] = None.
Proof.
  intros w.
  apply (proj1 (proj2 (proj2 (clear_then_compile_again Sample.rt Sample.only_compiled "app" w
                                eq_refl eq_refl ltac:(vm_compute; reflexivity)
                                ltac:(vm_compute; reflexivity))))).
Defined.

(** ** The patterns of the middleware *)

(** X14. With the folder of a route configured, the pattern of the route
    after construction is the pattern of the settings when that is a regular
    expression, and the default pattern when it is left out or is null: a
    null pattern does not switch a route off. *)
Theorem constructor_keeps_default_for_null
    (settings : BCC_Middleware_ts.BCC_Middleware_Settings) :
  (JS.truthy (BCC_ts.BCC_Settings.bundleFolder (BCC_Middleware_ts.BCC_Settings settings))
   = true ->
   BCC_Middleware_ts.BundleRegEx (BCC_Middleware_ts.constructor settings)
   = match BCC_Middleware_ts.BundleRegEx_opt settings with
     | Some (Some r) => Some r
     | Some None | None => Some BCC_Middleware_ts.BundleRegEx_default
     end)
  /\ (JS.truthy (BCC_ts.BCC_Settings.compiledFolder (BCC_Middleware_ts.BCC_Settings settings))
      = true ->
      BCC_Middleware_ts.CompileRegEx (BCC_Middleware_ts.constructor settings)
      = match BCC_Middleware_ts.CompileRegEx_opt settings with
        | Some (Some r) => Some r
        | Some None | None => Some BCC_Middleware_ts.CompileRegEx_default
        end)
  /\ (JS.truthy (BCC_ts.BCC_Settings.cacheFolder (BCC_Middleware_ts.BCC_Settings settings))
      = true ->
      BCC_Middleware_ts.CacheRegEx (BCC_Middleware_ts.constructor settings)
      = match BCC_Middleware_ts.CacheRegEx_opt settings with
        | Some (Some r) => Some r
        | Some None | None => Some BCC_Middleware_ts.CacheRegEx_default
        end).
Proof.
  split; [|split]; intros H; simpl; unfold BCC_Middleware_ts.unless_folder; rewrite H; simpl.
  - by destruct (BCC_Middleware_ts.BundleRegEx_opt settings) as [[r|]|].
  - by destruct (BCC_Middleware_ts.CompileRegEx_opt settings) as [[r|]|].
  - by destruct (BCC_Middleware_ts.CacheRegEx_opt settings) as [[r|]|].
Qed.

Lemma constructor_keeps_default_for_null_witness :
  BCC_Middleware_ts.BundleRegEx
    (BCC_Middleware_ts.constructor
       {| BCC_Middleware_ts.BCC_Settings := Sample.all_settings;
          BCC_Middleware_ts.BundleRegEx_opt := Some None;
          BCC_Middleware_ts.CompileRegEx_opt := None;
          BCC_Middleware_ts.CacheRegEx_opt := None |})
  = Some BCC_Middleware_ts.BundleRegEx_default.
Proof.
  apply (proj1 (constructor_keeps_default_for_null
                  {| BCC_Middleware_ts.BCC_Settings := Sample.all_settings;
                     BCC_Middleware_ts.BundleRegEx_opt := Some None;
                     BCC_Middleware_ts.CompileRegEx_opt := None;
                     BCC_Middleware_ts.CacheRegEx_opt := None |}) eq_refl).
Defined.

Section route_lemmas.
Import RegExp.

Lemma dot_plus_all s : no_line_terminator s = true -> dot_plus s = s.
Proof.
  induction s as [|c s IH]; [done|]. cbn [no_line_terminator dot_plus].
  intros [Hc Hs]%andb_true_iff. apply negb_true_iff in Hc. rewrite Hc.
  by rewrite (IH Hs).
Qed.

Lemma exec_lit_group_here lit s g :
  lit_group_here lit s = Some g -> exec_lit_group lit s = Some g.
Proof. intros H. destruct s; cbn [exec_lit_group]; by rewrite H. Qed.

Lemma exec_lit_group_at_start lit script :
  script <> "" -> no_line_terminator script = true ->
  exec_lit_group lit (lit +:+ script) = Some script.
Proof.
  intros Hne Hlt. apply exec_lit_group_here. unfold lit_group_here.
  rewrite prefix_app_same, drop_string_app, (dot_plus_all script Hlt).
  by destruct script.
Qed.

Lemma exec_lit_group_absent lit s : occurs lit s = false -> exec_lit_group lit s = None.
Proof.
  induction s as [|c s IH]; cbn [occurs exec_lit_group]; unfold lit_group_here.
  - intros H. apply orb_false_iff in H as [-> _]. done.
  - intros H. apply orb_false_iff in H as [-> H]. by apply IH.
Qed.

Lemma lazy_group_slash_group_split acc handle script :
  handle <> "" -> no_slash handle = true -> no_line_terminator handle = true ->
  script <> "" -> no_line_terminator script = true ->
  lazy_group_slash_group acc (handle +:+ "/" +:+ script) = Some (acc +:+ handle, script).
Proof.
  intros Hne Hs Hl Hsne Hsl. revert acc Hne.
  induction handle as [|c h IH]; intros acc Hne; [done|].
  cbn [no_slash no_line_terminator] in Hs, Hl.
  apply andb_true_iff in Hs as [Hc Hs]. apply andb_true_iff in Hl as [Hcl Hl].
  apply negb_true_iff in Hc, Hcl.
  rewrite app_cons. cbn [lazy_group_slash_group]. rewrite Hcl.
  destruct h as [|d h'].
  - change ("" +:+ "/" +:+ script) with (String "/" script). simpl Ascii.eqb. cbv iota.
    rewrite (dot_plus_all script Hsl). by destruct script.
  - rewrite app_cons. cbn [no_slash] in Hs. apply andb_true_iff in Hs as [Hd Hs'].
    apply negb_true_iff in Hd. rewrite Hd. rewrite <- app_cons.
    rewrite IH; [|by cbn [no_slash]; rewrite Hd|done|done].
    by rewrite app_assoc_string.
Qed.

Lemma exec_cache_absent lit s :
  occurs lit s = false -> exec_lit_group_slash_group lit s = None.
Proof.
  induction s as [|c s IH]; cbn [occurs exec_lit_group_slash_group];
    unfold lit_group_slash_group_here.
  - intros H. apply orb_false_iff in H as [-> _]. done.
  - intros H. apply orb_false_iff in H as [-> H]. by apply IH.
Qed.
End route_lemmas.

(** X15. The default patterns give back what an address is made of: from
    [/bundled/] or [/compiled/] followed by a script, the script; from
    [/cache/], a handle, a slash and a script, the handle and the script
    (the script may hold slashes, the handle not; neither holds a line
    terminator or is empty). *)
Theorem default_routes_round_trip (handle script : string) :
  script <> "" -> no_line_terminator script = true ->
  RegExp.exec BCC_Middleware_ts.BundleRegEx_default ("/bundled/" +:+ script) = Some script
  /\ RegExp.exec BCC_Middleware_ts.CompileRegEx_default ("/compiled/" +:+ script) = Some script
  /\ (handle <> "" -> no_slash handle = true -> no_line_terminator handle = true ->
      RegExp.exec BCC_Middleware_ts.CacheRegEx_default
        ("/cache/" +:+ handle +:+ "/" +:+ script)
      = Some (handle, script)).
Proof.
  intros Hne Hlt. split; [|split].
  - by apply exec_lit_group_at_start.
  - by apply exec_lit_group_at_start.
  - intros Hh Hs Hl. simpl RegExp.exec.
    destruct (RegExp.lit_group_slash_group_here "/cache/"
                ("/cache/" +:+ handle +:+ "/" +:+ script)) as [g|] eqn:E.
    + unfold RegExp.lit_group_slash_group_here in E.
      rewrite prefix_app_same, drop_string_app in E.
      rewrite (lazy_group_slash_group_split "" handle script Hh Hs Hl Hne Hlt) in E.
      injection E as <-.
      change ("/cache/" +:+ handle +:+ "/" +:+ script)
        with (String "/" ("cache/" +:+ handle +:+ "/" +:+ script)).
      cbn [RegExp.exec_lit_group_slash_group].
      unfold RegExp.lit_group_slash_group_here.
      change (String "/" ("cache/" +:+ handle +:+ "/" +:+ script))
        with ("/cache/" +:+ handle +:+ "/" +:+ script).
      rewrite prefix_app_same, drop_string_app.
      by rewrite (lazy_group_slash_group_split "" handle script Hh Hs Hl Hne Hlt).
    + unfold RegExp.lit_group_slash_group_here in E.
      rewrite prefix_app_same, drop_string_app in E.
      by rewrite (lazy_group_slash_group_split "" handle script Hh Hs Hl Hne Hlt) in E.
Qed.

Lemma default_routes_round_trip_witness :
  RegExp.exec BCC_Middleware_ts.CacheRegEx_default ("/cache/" +:+ "lib" +:+ "/" +:+ "fs/mod.ts")
  = Some ("lib", "fs/mod.ts").
Proof.
  apply (proj2 (proj2 (default_routes_round_trip "lib" "fs/mod.ts"
                         ltac:(discriminate) eq_refl))
           ltac:(discriminate) eq_refl eq_refl).
Defined.

(** X16. A middleware that keeps the default patterns hands a request on
    to the next handler, and calls the engine for nothing, when the path
    holds none of [/bundled/], [/compiled/] and [/cache/]. *)
Theorem foreign_paths_pass_through (rt : Runtime)
    (settings : BCC_Middleware_ts.BCC_Middleware_Settings)
    (context : BCC_Middleware_ts.Context)
    (next : BCC_Middleware_ts.Context -> M BCC_Middleware_ts.Context) (w : World) :
  (forall r, BCC_Middleware_ts.BundleRegEx_opt settings <> Some (Some r)) ->
  (forall r, BCC_Middleware_ts.CompileRegEx_opt settings <> Some (Some r)) ->
  (forall r, BCC_Middleware_ts.CacheRegEx_opt settings <> Some (Some r)) ->
  occurs "/bundled/" (BCC_Middleware_ts.pathname context) = false ->
  occurs "/compiled/" (BCC_Middleware_ts.pathname context) = false ->
  occurs "/cache/" (BCC_Middleware_ts.pathname context) = false ->
  BCC_Middleware_ts.middleware rt (BCC_Middleware_ts.constructor settings) context next w
  = next context w.
Proof.
  intros Hb Hc Hx Ob Oc Ox.
  assert (Mb : BCC_Middleware_ts.matches
                 (BCC_Middleware_ts.BundleRegEx (BCC_Middleware_ts.constructor settings))
                 (BCC_Middleware_ts.pathname context) = None).
  { simpl. unfold BCC_Middleware_ts.unless_folder. destruct (negb _); [done|].
    destruct (BCC_Middleware_ts.BundleRegEx_opt settings) as [[r|]|]; [by destruct (Hb r)|..];
      simpl; unfold RegExp.test; simpl; by rewrite (exec_lit_group_absent _ _ Ob). }
  assert (Mc : BCC_Middleware_ts.matches
                 (BCC_Middleware_ts.CompileRegEx (BCC_Middleware_ts.constructor settings))
                 (BCC_Middleware_ts.pathname context) = None).
  { simpl. unfold BCC_Middleware_ts.unless_folder. destruct (negb _); [done|].
    destruct (BCC_Middleware_ts.CompileRegEx_opt settings) as [[r|]|]; [by destruct (Hc r)|..];
      simpl; unfold RegExp.test; simpl; by rewrite (exec_lit_group_absent _ _ Oc). }
  assert (Mx : BCC_Middleware_ts.matches
                 (BCC_Middleware_ts.CacheRegEx (BCC_Middleware_ts.constructor settings))
                 (BCC_Middleware_ts.pathname context) = None).
  { simpl. unfold BCC_Middleware_ts.unless_folder. destruct (negb _); [done|].
    destruct (BCC_Middleware_ts.CacheRegEx_opt settings) as [[r|]|]; [by destruct (Hx r)|..];
      simpl; unfold RegExp.test; simpl; by rewrite (exec_cache_absent _ _ Ox). }
  unfold BCC_Middleware_ts.middleware. by rewrite Mb, Mc, Mx.
Qed.

Lemma foreign_paths_pass_through_witness :
  BCC_Middleware_ts.middleware Sample.rt Sample.middleware_all
    (Sample.request "/index.html") Sample.next_handler Sample.w0
  = Sample.next_handler (Sample.request "/index.html") Sample.w0.
Proof.
  apply (foreign_paths_pass_through Sample.rt
           {| BCC_Middleware_ts.BCC_Settings := Sample.all_settings;
              BCC_Middleware_ts.BundleRegEx_opt := None;
              BCC_Middleware_ts.CompileRegEx_opt := None;
              BCC_Middleware_ts.CacheRegEx_opt := None |}
           (Sample.request "/index.html") Sample.next_handler Sample.w0);
    (discriminate || reflexivity).
Defined.

(** ** The engine without toggles *)

Section untoggled.
Context (rt : Runtime) (b : BCC_part_000.BCC).

Lemma untoggled_cacheOrGen_hit script path generator functionName w data :
  files w !! Deno.locate rt path = Some data ->
  BCC_part_000.cacheOrGen rt script path generator functionName w
  = (Ok data, log (EvReadTextFile path) w).
Proof.
  intros Hf. unfold BCC_part_000.cacheOrGen, try_catch.
  by rewrite (readTextFile_hit rt path w data Hf).
Qed.

Lemma untoggled_cacheOrGen_generated script path generator functionName w w' data :
  files w !! Deno.locate rt path = None ->
  generator (JS.strip_js script) (log (EvReadTextFile path) w) = (Ok tt, w') ->
  files w' !! Deno.locate rt path = Some data ->
  BCC_part_000.cacheOrGen rt script path generator functionName w
  = (Ok data, log (EvReadTextFile path) w').
Proof.
  intros Hf Hg Hf'. unfold BCC_part_000.cacheOrGen, try_catch, bind.
  rewrite (readTextFile_miss rt path w Hf), Hg.
  by rewrite (readTextFile_hit rt path w' data Hf').
Qed.

Lemma untoggled_compile_emit_files dir emitMap w w' :
  BCC_part_000.compile_emit rt b dir emitMap w = (Ok tt, w') ->
  files w'
  = match last emitMap with
    | Some resource =>
        <[Deno.locate rt (dir +:+ ".js")
          := BCC_part_000.mapExternalSources b (snd resource)]> (files w)
    | None => files w
    end.
Proof.
  revert w. induction emitMap as [|[resource text] rest IH]; intros w.
  - by intros [= <-].
  - cbn [BCC_part_000.compile_emit]. unfold bind at 1.
    destruct (Deno.writeTextFile rt (dir +:+ ".js") _ w) as [[[]|e] w1] eqn:E1; [|done].
    intros E2. apply IH in E2. apply writeTextFile_Ok in E1. subst w1.
    rewrite E2. clear E2.
    destruct rest as [|r2 rest']; [reflexivity|].
    change (last ((resource, text) :: r2 :: rest')) with (last (r2 :: rest')).
    destruct (last (r2 :: rest')) eqn:El.
    + simpl. by rewrite insert_insert_eq.
    + by apply last_None in El.
Qed.

Lemma untoggled_compile_files script emitMap w w' :
  Deno_compile rt (files w) ("./" +:+ BCC_part_000.tsSource b +:+ "/" +:+ script)
  = Ok (None, emitMap) ->
  BCC_part_000.compile rt b script w = (Ok tt, w') ->
  files w'
  = match last emitMap with
    | Some resource =>
        <[Deno.locate rt
            (("./" +:+ BCC_part_000.compiledFolder b +:+ "/" +:+ script) +:+ ".js")
          := BCC_part_000.mapExternalSources b (snd resource)]> (files w)
    | None => files w
    end.
Proof.
  intros Hc. unfold BCC_part_000.compile. simpl. unfold bind at 1. unfold Deno.compile.
  rewrite Hc. unfold assert. rewrite bool_decide_eq_true_2 by done.
  unfold bind at 1. unfold ret at 1.
  intros He. by apply untoggled_compile_emit_files in He.
Qed.

Lemma untoggled_updateCache_files script src uri resp w w' :
  fetch_text rt (JS.interp (JS.map_get src (BCC_part_000.cacheMap b)) +:+ script) = Ok resp ->
  BCC_part_000.updateCache rt b script src uri w = (Ok tt, w') ->
  files w'
  = <[Deno.locate rt ("./cache/" +:+ src +:+ "/" +:+ md5 rt script)
      := BCC_part_000.mapExternalSources b resp]> (files w).
Proof.
  intros Hf. unfold BCC_part_000.updateCache. unfold bind at 1. unfold fetch.
  rewrite Hf. intros He. by apply store_Ok in He.
Qed.
End untoggled.

(** X17. In the engine without toggles the compiled kind reads through for
    an identifier that ends with [.js]: the compiler is given the identifier
    without [.js], the last resource emitted is written, rewritten, at the
    path that is read, [cachedCompile] returns it, and a second
    [cachedCompile] returns the same text with one read and no call of the
    compiler. *)
Theorem untoggled_compile_read_through (rt : Runtime) (b : BCC_part_000.BCC) (name : string)
    (emitMap : list (string * string)) (resource : string * string) (w w1 : World) :
  let path := "./" +:+ BCC_part_000.compiledFolder b +:+ "/" +:+ name +:+ ".js" in
  files w !! Deno.locate rt path = None ->
  Deno_compile rt (files w) ("./" +:+ BCC_part_000.tsSource b +:+ "/" +:+ name)
  = Ok (None, emitMap) ->
  last emitMap = Some resource ->
  BCC_part_000.compile rt b name (log (EvReadTextFile path) w) = (Ok tt, w1) ->
  BCC_part_000.cachedCompile rt b (name +:+ ".js") w
  = (Ok (BCC_part_000.mapExternalSources b (snd resource)), log (EvReadTextFile path) w1)
  /\ BCC_part_000.cachedCompile rt b (name +:+ ".js") (log (EvReadTextFile path) w1)
     = (Ok (BCC_part_000.mapExternalSources b (snd resource)),
        log (EvReadTextFile path) (log (EvReadTextFile path) w1)).
Proof.
  intros path Hmiss Hc Hl Hg.
  assert (Hp : ("./" +:+ BCC_part_000.compiledFolder b +:+ "/" +:+ name) +:+ ".js" = path).
  { unfold path. by rewrite !app_assoc_string. }
  assert (Hf : files w1 !! Deno.locate rt path
               = Some (BCC_part_000.mapExternalSources b (snd resource))).
  { rewrite (untoggled_compile_files rt b name emitMap (log (EvReadTextFile path) w) w1 Hc Hg).
    rewrite Hl, Hp. apply lookup_insert_eq. }
  unfold BCC_part_000.cachedCompile. simpl BCC_part_000.compiled. fold path.
  split.
  - apply untoggled_cacheOrGen_generated; [exact Hmiss| |exact Hf].
    by rewrite strip_js_dot_js.
  - by apply untoggled_cacheOrGen_hit.
Qed.

Lemma untoggled_compile_read_through_witness :
  fst (BCC_part_000.cachedCompile Sample.rt Sample.plain "app.ts.js" Sample.w0)
  = Ok "/*compiled*/let b: number = 2;".
Proof.
  pose proof (untoggled_compile_read_through Sample.rt Sample.plain "app.ts"
                [("./src/app.ts.js", "/*compiled*/let b: number = 2;")]
                ("./src/app.ts.js", "/*compiled*/let b: number = 2;") Sample.w0 _
                ltac:(vm_compute; reflexivity) ltac:(vm_compute; reflexivity) eq_refl
                (run_Ok (BCC_part_000.compile Sample.rt Sample.plain "app.ts")
                   (log (EvReadTextFile "./compiled/app.ts.js") Sample.w0) tt
                   ltac:(vm_compute; reflexivity))) as [H _].
  exact (f_equal fst H).
Defined.

(** X18. The engine without toggles stores a fetched script under
    [./cache], whatever the cache folder is, and reads it under the cache
    folder. After a miss, a fetch that answers and a write that ends well,
    [scriptCache] returns the fetched text when the two places are one, and
    the text for a missing file when they are not. *)
Theorem untoggled_remote_cache_fixed_folder (rt : Runtime) (b : BCC_part_000.BCC)
    (script handle resp : string) (w w1 : World) :
  let uri := "./" +:+ BCC_part_000.cacheFolder b +:+ "/" +:+ handle +:+ "/" +:+ md5 rt script in
  let written := "./cache/" +:+ handle +:+ "/" +:+ md5 rt script in
  files w !! Deno.locate rt uri = None ->
  fetch_text rt (JS.interp (JS.map_get handle (BCC_part_000.cacheMap b)) +:+ script)
  = Ok resp ->
  BCC_part_000.updateCache rt b script handle uri (log (EvReadTextFile uri) w) = (Ok tt, w1) ->
  files w1 = <[Deno.locate rt written := BCC_part_000.mapExternalSources b resp]> (files w)
  /\ (Deno.locate rt uri = Deno.locate rt written ->
      BCC_part_000.scriptCache rt b script handle w
      = (Ok (BCC_part_000.mapExternalSources b resp), log (EvReadTextFile uri) w1))
  /\ (Deno.locate rt uri <> Deno.locate rt written ->
      BCC_part_000.scriptCache rt b script handle w
      = (Ok (BCC_part_000.missing_file script handle), log (EvReadTextFile uri) w1)).
Proof.
  intros uri written Hmiss Hfetch Hu.
  pose proof (untoggled_updateCache_files rt b script handle uri resp
                (log (EvReadTextFile uri) w) w1 Hfetch Hu) as Hfiles.
  simpl in Hfiles. fold written in Hfiles.
  split; [exact Hfiles|].
  assert (Hrun : BCC_part_000.scriptCache rt b script handle w
                 = try_catch (Deno.readTextFile rt uri)
                     (fun _ => ret (BCC_part_000.missing_file script handle)) w1).
  { unfold BCC_part_000.scriptCache. cbv zeta. fold uri. unfold try_catch at 1.
    rewrite (readTextFile_miss rt uri w Hmiss). unfold bind. by rewrite Hu. }
  rewrite Hrun. unfold try_catch, Deno.readTextFile. rewrite Hfiles. split.
  - intros ->. by rewrite lookup_insert_eq.
  - intros Hne. rewrite lookup_insert_ne by done. by rewrite Hmiss.
Qed.

Lemma untoggled_remote_cache_fixed_folder_witness :
  fst (BCC_part_000.scriptCache Sample.rt
         (BCC_part_000.addCacheSource Sample.plain "lib" "https://cdn.example/lib/")
         "utils.js" "lib" Sample.w0)
  = Ok "/*remote*//cache/lib/utils.js".
Proof.
  pose proof (untoggled_remote_cache_fixed_folder Sample.rt
                (BCC_part_000.addCacheSource Sample.plain "lib" "https://cdn.example/lib/")
                "utils.js" "lib" "/*remote*/https://cdn.example/lib/utils.js" Sample.w0 _
                ltac:(vm_compute; reflexivity) ltac:(vm_compute; reflexivity)
                (run_Ok (BCC_part_000.updateCache Sample.rt
                           (BCC_part_000.addCacheSource Sample.plain "lib"
                              "https://cdn.example/lib/")
                           "utils.js" "lib" "./cache/lib/14ef994fa167d355bdaf9b44add54b87")
                   (log (EvReadTextFile "./cache/lib/14ef994fa167d355bdaf9b44add54b87")
                      Sample.w0) tt
                   ltac:(vm_compute; reflexivity))) as [_ [H _]].
  exact (f_equal fst (H ltac:(vm_compute; reflexivity))).
Defined.

(** ** What serving a request may call *)

Lemma count_events_app p t1 t2 :
  count_events p (t1 ++ t2) = count_events p t1 + count_events p t2.
Proof. unfold count_events. by rewrite filter_app, length_app. Qed.

Lemma serving_footprint_refl w : serving_footprint 0 w w.
Proof. exists []. by rewrite app_nil_r. Qed.

Lemma serving_footprint_weaken n m w w' :
  n <= m -> serving_footprint n w w' -> serving_footprint m w w'.
Proof. intros Hle (more & H1 & H2 & H3). exists more. repeat split; [done|done|lia]. Qed.

Lemma serving_footprint_trans n m w1 w2 w3 :
  serving_footprint n w1 w2 -> serving_footprint m w2 w3 ->
  serving_footprint (n + m) w1 w3.
Proof.
  intros (t1 & H1 & H2 & H3) (t2 & H4 & H5 & H6). exists (t1 ++ t2). repeat split.
  - by rewrite H4, H1, app_assoc.
  - by rewrite forallb_app, H2, H5.
  - rewrite count_events_app. lia.
Qed.

Lemma serving_footprint_log e w :
  is_serving_event e = true ->
  serving_footprint (if is_costly_event e then 1 else 0) w (log e w).
Proof.
  intros He. exists [e]. repeat split.
  - simpl. by rewrite He.
  - unfold count_events. rewrite filter_cons, filter_nil.
    destruct (is_costly_event e); by rewrite ?decide_True, ?decide_False by done.
Qed.

Lemma bind_footprint {A B} (m : M A) (k : A -> M B) n1 n2 w :
  serving_footprint n1 w (snd (m w)) ->
  (forall a w', serving_footprint n2 w' (snd (k a w'))) ->
  serving_footprint (n1 + n2) w (snd (bind m k w)).
Proof.
  intros H1 H2. unfold bind. destruct (m w) as [[a|e] w1]; simpl in *.
  - eapply serving_footprint_trans; [exact H1|apply H2].
  - eapply serving_footprint_weaken; [|exact H1]. lia.
Qed.

Lemma try_catch_footprint {A} (m : M A) (h : Error -> M A) n1 n2 w :
  serving_footprint n1 w (snd (m w)) ->
  (forall e w', serving_footprint n2 w' (snd (h e w'))) ->
  serving_footprint (n1 + n2) w (snd (try_catch m h w)).
Proof.
  intros H1 H2. unfold try_catch. destruct (m w) as [[a|e] w1]; simpl in *.
  - eapply serving_footprint_weaken; [|exact H1]. lia.
  - eapply serving_footprint_trans; [exact H1|apply H2].
Qed.

Section footprint.
Context (rt : Runtime) (this : BCC_ts.BCC).

Lemma readTextFile_footprint path w :
  serving_footprint 0 w (snd (Deno.readTextFile rt path w)).
Proof.
  unfold Deno.readTextFile. destruct (files w !! _);
    exact (serving_footprint_log (EvReadTextFile path) w eq_refl).
Qed.

Lemma writeTextFile_footprint path data w :
  serving_footprint 0 w (snd (Deno.writeTextFile rt path data w)).
Proof.
  unfold Deno.writeTextFile. cbv zeta.
  destruct (Deno.is_dir w _); [|destruct (Deno.is_dir w _)];
    exact (serving_footprint_log (EvWriteTextFile path data) w eq_refl).
Qed.

Lemma ensureDir_footprint path w :
  serving_footprint 0 w (snd (fs.ensureDir rt path w)).
Proof.
  unfold fs.ensureDir. cbv zeta. destruct (Deno.blocked w _);
    exact (serving_footprint_log (EvEnsureDir path) w eq_refl).
Qed.

Lemma ret_footprint {A} (a : A) w : serving_footprint 0 w (snd (ret a w)).
Proof. apply serving_footprint_refl. Qed.

Lemma assert_footprint c msg w : serving_footprint 0 w (snd (assert c msg w)).
Proof. unfold assert. destruct c; apply serving_footprint_refl. Qed.

Lemma compile_emit_footprint dir folder emitMap w :
  serving_footprint 0 w (snd (BCC_ts.compile_emit rt this dir folder emitMap w)).
Proof.
  revert w. induction emitMap as [|[resource text] rest IH]; intros w.
  - apply serving_footprint_refl.
  - cbn [BCC_ts.compile_emit].
    apply (bind_footprint _ _ 0 0); [apply ensureDir_footprint|]. intros _ w1.
    apply (bind_footprint _ _ 0 0); [apply writeTextFile_footprint|]. intros _ w2.
    apply IH.
Qed.

Lemma compile_footprint script w :
  serving_footprint 1 w (snd (BCC_ts.compile rt this script w)).
Proof.
  unfold BCC_ts.compile. cbv zeta. destruct (_ || _)%bool.
  - eapply serving_footprint_weaken; [|apply serving_footprint_refl]. lia.
  - apply (bind_footprint _ _ 1 0).
    + exact (serving_footprint_log (EvCompile _) w eq_refl).
    + intros [diagnostics emitMap] w1.
      apply (bind_footprint _ _ 0 0); [apply assert_footprint|]. intros _ w2.
      apply compile_emit_footprint.
Qed.

Lemma bundle_footprint script w :
  serving_footprint 1 w (snd (BCC_ts.bundle rt this script w)).
Proof.
  unfold BCC_ts.bundle. cbv zeta. destruct (_ || _)%bool.
  - eapply serving_footprint_weaken; [|apply serving_footprint_refl]. lia.
  - apply (bind_footprint _ _ 1 0).
    + exact (serving_footprint_log (EvBundle _) w eq_refl).
    + intros [diagnostics emit] w1.
      apply (bind_footprint _ _ 0 0); [apply assert_footprint|]. intros _ w2.
      apply (bind_footprint _ _ 0 0); [apply ensureDir_footprint|]. intros _ w3.
      apply writeTextFile_footprint.
Qed.

Lemma updateCache_footprint script src uri w :
  serving_footprint 1 w (snd (BCC_ts.updateCache rt this script src uri w)).
Proof.
  unfold BCC_ts.updateCache. destruct (negb _).
  - eapply serving_footprint_weaken; [|apply serving_footprint_refl]. lia.
  - apply (bind_footprint _ _ 1 0).
    + exact (serving_footprint_log (EvFetch _) w eq_refl).
    + intros resp w1.
      apply (bind_footprint _ _ 0 0); [apply ensureDir_footprint|]. intros _ w2.
      apply writeTextFile_footprint.
Qed.

Lemma cacheOrGen_footprint script cachePath generator functionName w :
  (forall s w', serving_footprint 1 w' (snd (generator s w'))) ->
  serving_footprint 1 w
    (snd (BCC_ts.cacheOrGen rt script cachePath generator functionName w)).
Proof.
  intros Hg. unfold BCC_ts.cacheOrGen. destruct (JS.truthy cachePath).
  - apply (try_catch_footprint _ _ 0 1); [apply readTextFile_footprint|]. intros _ w1.
    apply (bind_footprint _ _ 1 0); [apply Hg|]. intros _ w2.
    apply (try_catch_footprint _ _ 0 0); [apply readTextFile_footprint|]. intros _ w3.
    apply ret_footprint.
  - eapply serving_footprint_weaken; [|apply serving_footprint_refl]. lia.
Qed.

Lemma scriptCache_footprint script handle w :
  serving_footprint 1 w (snd (BCC_ts.scriptCache rt this script handle w)).
Proof.
  unfold BCC_ts.scriptCache. destruct (JS.truthy _).
  - cbv zeta.
    apply (try_catch_footprint _ _ 0 1); [apply readTextFile_footprint|]. intros _ w1.
    apply (bind_footprint _ _ 1 0); [apply updateCache_footprint|]. intros _ w2.
    apply (try_catch_footprint _ _ 0 0); [apply readTextFile_footprint|]. intros _ w3.
    apply ret_footprint.
  - eapply serving_footprint_weaken; [|apply serving_footprint_refl]. lia.
Qed.
End footprint.

(** X19. A request is either handed to the next handler as it came, or
    served with calls of [readTextFile], [writeTextFile], [ensureDir],
    [fetch], [Deno.compile] and [Deno.bundle] only, of which at most one is a
    call of a generator or of the network: the handler never transpiles,
    never empties a folder and never runs two generators for one request. *)
Theorem request_footprint (rt : Runtime) (this : BCC_Middleware_ts.BCC_Middleware)
    (context : BCC_Middleware_ts.Context)
    (next : BCC_Middleware_ts.Context -> M BCC_Middleware_ts.Context) (w : World) :
  BCC_Middleware_ts.middleware rt this context next w = next context w
  \/ serving_footprint 1 w (snd (BCC_Middleware_ts.middleware rt this context next w)).
Proof.
  unfold BCC_Middleware_ts.middleware.
  destruct (BCC_Middleware_ts.matches (BCC_Middleware_ts.BundleRegEx this) _) as [script|].
  { right. apply (bind_footprint _ _ 1 0); [|intros; apply ret_footprint].
    apply cacheOrGen_footprint. intros. apply bundle_footprint. }
  destruct (BCC_Middleware_ts.matches (BCC_Middleware_ts.CompileRegEx this) _) as [script|].
  { right. apply (bind_footprint _ _ 1 0); [|intros; apply ret_footprint].
    apply cacheOrGen_footprint. intros. apply compile_footprint. }
  destruct (BCC_Middleware_ts.matches (BCC_Middleware_ts.CacheRegEx this) _)
    as [[src script]|].
  { right. apply (bind_footprint _ _ 1 0); [|intros; apply ret_footprint].
    apply scriptCache_footprint. }
  by left.
Qed.
